(** * librbd::image::CreateRequest

    A shallow embedding of [src/librbd/image/CreateRequest.cc]: the option
    resolver of the constructor, the synchronous validators, and the
    forward and rollback pipelines of the image-create request, followed by
    the properties the specification states about them.

    Conventions.
    - [uint64_t], [uint8_t] and [int] values are [Z]; every place where the
      C++ code wraps or truncates has the [mod] written out.
    - An asynchronous cluster operation and its completion callback are the
      pair [X] / [handle_X] of the source; here [X] records the operation in
      the trace, asks the cluster for the completion and passes it to
      [handle_X].  A handler that returns [m_on_finish] with [*result = r],
      and [complete(r)], both end the run with [Completed r].
    - [lderr] lines of the request's handlers are recorded in the trace;
      debug output ([ldout]) and the diagnostics of the pure validators are
      left out. *)

From Stdlib Require Import ZArith List String Bool Lia.
From Stdlib Require Import DecimalString Sorted.
Import ListNotations.

Local Open Scope string_scope.
Local Open Scope list_scope.
Local Open Scope Z_scope.

(** ** Constants that the source takes from headers *)

(** errno values (Linux [<errno.h>]); the source returns them negated. *)
Definition ENOENT : Z := 2.
Definition EINVAL : Z := 22.
Definition EDOM : Z := 33.
Definition ENOSYS : Z := 38.

(** The feature vocabulary. *)
Inductive Feature : Type :=
| LAYERING
| STRIPINGV2
| EXCLUSIVE_LOCK
| OBJECT_MAP
| FAST_DIFF
| DEEP_FLATTEN
| JOURNALING
| DATA_POOL.

(** Modelled from the spec: the declarations the source uses from headers that
    are not among the sources ([include/rbd/features.h], [include/rbd_types.h],
    [include/stringify.h], [cls/rbd/cls_rbd_types.h], [include/rbd/librbd.h],
    [librbd/Journal.h]).  The specification fixes the feature vocabulary as a
    bitset and names the mirror modes and mirror-image states, but gives no
    values: each feature is one bit of a 64-bit mask, at a position that is a
    parameter, and the other constants are parameters too. *)
Class RbdTypes : Type := {
  feature_bit : Feature -> Z;
  feature_bit_range : forall f, 0 <= feature_bit f < 64;
  feature_bit_inj : forall f g, feature_bit f = feature_bit g -> f = g;
  RBD_DATA_PREFIX : string;
  stringify : Z -> string;
  MIRROR_MODE_DISABLED : Z;
  MIRROR_MODE_IMAGE : Z;
  MIRROR_MODE_POOL : Z;
  RBD_MIRROR_MODE_POOL : Z;
  MIRROR_IMAGE_STATE_ENABLED : Z;
  LOCAL_MIRROR_UUID : string
}.

Section Constants.
Context {K : RbdTypes}.

Definition RBD_FEATURE_LAYERING : Z := 2 ^ feature_bit LAYERING.
Definition RBD_FEATURE_STRIPINGV2 : Z := 2 ^ feature_bit STRIPINGV2.
Definition RBD_FEATURE_EXCLUSIVE_LOCK : Z := 2 ^ feature_bit EXCLUSIVE_LOCK.
Definition RBD_FEATURE_OBJECT_MAP : Z := 2 ^ feature_bit OBJECT_MAP.
Definition RBD_FEATURE_FAST_DIFF : Z := 2 ^ feature_bit FAST_DIFF.
Definition RBD_FEATURE_DEEP_FLATTEN : Z := 2 ^ feature_bit DEEP_FLATTEN.
Definition RBD_FEATURE_JOURNALING : Z := 2 ^ feature_bit JOURNALING.
Definition RBD_FEATURE_DATA_POOL : Z := 2 ^ feature_bit DATA_POOL.

Definition RBD_FEATURES_ALL : Z :=
  Z.lor RBD_FEATURE_LAYERING
  (Z.lor RBD_FEATURE_STRIPINGV2
  (Z.lor RBD_FEATURE_EXCLUSIVE_LOCK
  (Z.lor RBD_FEATURE_OBJECT_MAP
  (Z.lor RBD_FEATURE_FAST_DIFF
  (Z.lor RBD_FEATURE_DEEP_FLATTEN
  (Z.lor RBD_FEATURE_JOURNALING
         RBD_FEATURE_DATA_POOL)))))).

End Constants.

(** ** Fixed-width arithmetic *)

(** [~x] on a [uint64_t]. *)
Definition not64 (x : Z) : Z := Z.lnot x mod 2 ^ 64.

(** [static_cast<uint8_t>(x)], and the implicit conversion of an assignment
    to a [uint8_t] member. *)
Definition to_uint8 (x : Z) : Z := x mod 2 ^ 8.

(** The implicit conversion of an assignment to a [uint32_t] field. *)
Definition to_uint32 (x : Z) : Z := x mod 2 ^ 32.

(** [1ull << order].  C++ defines the shift for [order < 64] only; the
    properties below that depend on its value are stated for that range. *)
Definition shl1 (order : Z) : Z := Z.shiftl 1 order mod 2 ^ 64.

(** [(features & mask) != 0] *)
Definition test (features mask : Z) : bool := negb (Z.land features mask =? 0).

(** ** Validators (anonymous namespace) *)

(** The result of a function whose body contains an [assert]. *)
Inductive checked (A : Type) : Type :=
| Returned (a : A)
| AssertFailed.
Arguments Returned {A} a.
Arguments AssertFailed {A}.

Section Validators.
Context {K : RbdTypes}.

Definition validate_features (features : Z) (force_non_primary : bool)
  : checked Z :=
  if negb (Z.land features (not64 RBD_FEATURES_ALL) =? 0) then
    Returned (- ENOSYS)
  else if test features RBD_FEATURE_FAST_DIFF
          && negb (test features RBD_FEATURE_OBJECT_MAP) then
    Returned (- EINVAL)
  else if test features RBD_FEATURE_OBJECT_MAP
          && negb (test features RBD_FEATURE_EXCLUSIVE_LOCK) then
    Returned (- EINVAL)
  else if test features RBD_FEATURE_JOURNALING then
    if negb (test features RBD_FEATURE_EXCLUSIVE_LOCK) then
      Returned (- EINVAL)
    else Returned 0
  else if force_non_primary then
    AssertFailed
  else Returned 0.

End Validators.

Definition validate_striping (order stripe_unit stripe_count : Z) : Z :=
  if (negb (stripe_unit =? 0) && (stripe_count =? 0))
     || ((stripe_unit =? 0) && negb (stripe_count =? 0)) then
    - EINVAL
  else if negb (stripe_unit =? 0) || negb (stripe_count =? 0) then
    if negb (shl1 order mod stripe_unit =? 0) || (stripe_unit >? shl1 order)
    then - EINVAL
    else 0
  else 0.

Definition validate_order (order : Z) : Z :=
  if (order >? 25) || (order <? 12) then - EDOM else 0.

(** ** Request state *)

(** Modelled from the spec: [ImageOptions] ([librbd/internal.h], not among the
    sources) is the typed map of section 6, keyed by the enumerated option ids;
    an absent key is [None]. *)
Record ImageOptions : Type := {
  RBD_IMAGE_OPTION_FEATURES : option Z;
  RBD_IMAGE_OPTION_FEATURES_SET : option Z;
  RBD_IMAGE_OPTION_FEATURES_CLEAR : option Z;
  RBD_IMAGE_OPTION_STRIPE_UNIT : option Z;
  RBD_IMAGE_OPTION_STRIPE_COUNT : option Z;
  RBD_IMAGE_OPTION_ORDER : option Z;
  RBD_IMAGE_OPTION_JOURNAL_ORDER : option Z;
  RBD_IMAGE_OPTION_JOURNAL_SPLAY_WIDTH : option Z;
  RBD_IMAGE_OPTION_JOURNAL_POOL : option string;
  RBD_IMAGE_OPTION_DATA_POOL : option string
}.

(** Modelled from the spec: [image_options.get(option, &value)] returns [0]
    and stores the value when the key is present; otherwise it returns a
    negative code and leaves [value] as it was. *)
Definition image_options_get {A : Type} (option_value : option A) (value : A)
  : Z * A :=
  match option_value with
  | Some v => (0, v)
  | None => (- ENOENT, value)
  end.

Definition get_image_option (option_value : option Z) (value : Z) : Z * Z :=
  let '(r, large_value) := image_options_get option_value 0 in
  if r <? 0 then (r, value) else (0, to_uint8 large_value).

(** The configuration values read through [m_cct->_conf];
    [rbd_default_features] is the mask [util::parse_rbd_default_features]
    returns. *)
Record Config : Type := {
  rbd_default_features : Z;
  rbd_default_stripe_unit : Z;
  rbd_default_stripe_count : Z;
  rbd_default_order : Z;
  rbd_journal_order : Z;
  rbd_journal_splay_width : Z;
  rbd_journal_pool : string;
  rbd_default_data_pool : string;
  rbd_validate_pool : bool
}.

(** What the request asks of its [IoCtx]: the metadata pool. *)
Record IoCtx : Type := {
  get_pool_name : string;
  get_id : Z
}.

(** The fields of [file_layout_t] the request writes.  The struct is declared
    in [include/fs_types.h], which is not among the sources; there the three
    fields are [uint32_t], so the 64-bit values assigned to them are
    truncated. *)
Record file_layout_t : Type := {
  object_size : Z;
  stripe_unit : Z;
  stripe_count : Z
}.

Record CreateRequest : Type := {
  m_cct : Config;
  m_ioctx : IoCtx;
  m_image_name : string;
  m_image_id : string;
  m_size : Z;
  m_order : Z;
  m_features : Z;
  m_stripe_unit : Z;
  m_stripe_count : Z;
  m_journal_order : Z;
  m_journal_splay_width : Z;
  m_journal_pool : string;
  m_data_pool : string;
  m_data_pool_id : Z;
  m_non_primary_global_image_id : string;
  m_primary_mirror_uuid : string;
  m_r_saved : Z;
  m_force_non_primary : bool;
  m_layout : file_layout_t;
  m_mirror_mode : Z;
  m_mirror_image_state : Z;
  m_mirror_image_global_image_id : string
}.

(** Assignments to the members the pipeline writes. *)
Definition set_r_saved (req : CreateRequest) (r : Z) : CreateRequest :=
  {| m_cct := m_cct req; m_ioctx := m_ioctx req;
     m_image_name := m_image_name req; m_image_id := m_image_id req;
     m_size := m_size req; m_order := m_order req;
     m_features := m_features req; m_stripe_unit := m_stripe_unit req;
     m_stripe_count := m_stripe_count req;
     m_journal_order := m_journal_order req;
     m_journal_splay_width := m_journal_splay_width req;
     m_journal_pool := m_journal_pool req; m_data_pool := m_data_pool req;
     m_data_pool_id := m_data_pool_id req;
     m_non_primary_global_image_id := m_non_primary_global_image_id req;
     m_primary_mirror_uuid := m_primary_mirror_uuid req;
     m_r_saved := r;
     m_force_non_primary := m_force_non_primary req;
     m_layout := m_layout req; m_mirror_mode := m_mirror_mode req;
     m_mirror_image_state := m_mirror_image_state req;
     m_mirror_image_global_image_id := m_mirror_image_global_image_id req |}.

Definition set_data_pool_id (req : CreateRequest) (id : Z) : CreateRequest :=
  {| m_cct := m_cct req; m_ioctx := m_ioctx req;
     m_image_name := m_image_name req; m_image_id := m_image_id req;
     m_size := m_size req; m_order := m_order req;
     m_features := m_features req; m_stripe_unit := m_stripe_unit req;
     m_stripe_count := m_stripe_count req;
     m_journal_order := m_journal_order req;
     m_journal_splay_width := m_journal_splay_width req;
     m_journal_pool := m_journal_pool req; m_data_pool := m_data_pool req;
     m_data_pool_id := id;
     m_non_primary_global_image_id := m_non_primary_global_image_id req;
     m_primary_mirror_uuid := m_primary_mirror_uuid req;
     m_r_saved := m_r_saved req;
     m_force_non_primary := m_force_non_primary req;
     m_layout := m_layout req; m_mirror_mode := m_mirror_mode req;
     m_mirror_image_state := m_mirror_image_state req;
     m_mirror_image_global_image_id := m_mirror_image_global_image_id req |}.

Definition set_mirror_mode (req : CreateRequest) (mode : Z) : CreateRequest :=
  {| m_cct := m_cct req; m_ioctx := m_ioctx req;
     m_image_name := m_image_name req; m_image_id := m_image_id req;
     m_size := m_size req; m_order := m_order req;
     m_features := m_features req; m_stripe_unit := m_stripe_unit req;
     m_stripe_count := m_stripe_count req;
     m_journal_order := m_journal_order req;
     m_journal_splay_width := m_journal_splay_width req;
     m_journal_pool := m_journal_pool req; m_data_pool := m_data_pool req;
     m_data_pool_id := m_data_pool_id req;
     m_non_primary_global_image_id := m_non_primary_global_image_id req;
     m_primary_mirror_uuid := m_primary_mirror_uuid req;
     m_r_saved := m_r_saved req;
     m_force_non_primary := m_force_non_primary req;
     m_layout := m_layout req; m_mirror_mode := mode;
     m_mirror_image_state := m_mirror_image_state req;
     m_mirror_image_global_image_id := m_mirror_image_global_image_id req |}.

Definition set_mirror_image (req : CreateRequest) (state : Z)
    (global_image_id : string) : CreateRequest :=
  {| m_cct := m_cct req; m_ioctx := m_ioctx req;
     m_image_name := m_image_name req; m_image_id := m_image_id req;
     m_size := m_size req; m_order := m_order req;
     m_features := m_features req; m_stripe_unit := m_stripe_unit req;
     m_stripe_count := m_stripe_count req;
     m_journal_order := m_journal_order req;
     m_journal_splay_width := m_journal_splay_width req;
     m_journal_pool := m_journal_pool req; m_data_pool := m_data_pool req;
     m_data_pool_id := m_data_pool_id req;
     m_non_primary_global_image_id := m_non_primary_global_image_id req;
     m_primary_mirror_uuid := m_primary_mirror_uuid req;
     m_r_saved := m_r_saved req;
     m_force_non_primary := m_force_non_primary req;
     m_layout := m_layout req; m_mirror_mode := m_mirror_mode req;
     m_mirror_image_state := state;
     m_mirror_image_global_image_id := global_image_id |}.

(** ** The constructor: option resolution *)

Section Constructor.
Context {K : RbdTypes}.

(** Lines 137-150: the feature mask after the set and clear options. *)
Definition features_after_set_clear (cct : Config)
    (image_options : ImageOptions) : Z :=
  let m_features :=
    let '(r, v) :=
      image_options_get (RBD_IMAGE_OPTION_FEATURES image_options) 0 in
    if negb (r =? 0) then rbd_default_features cct else v in
  let features_clear :=
    snd (image_options_get (RBD_IMAGE_OPTION_FEATURES_CLEAR image_options) 0) in
  let features_set :=
    snd (image_options_get (RBD_IMAGE_OPTION_FEATURES_SET image_options) 0) in
  let features_conflict := Z.land features_clear features_set in
  let features_clear := Z.land features_clear (not64 features_conflict) in
  let features_set := Z.land features_set (not64 features_conflict) in
  let m_features := Z.lor m_features features_set in
  Z.land m_features (not64 features_clear).

(** [r_saved0] is what [m_r_saved] holds before its first assignment: the
    constructor does not initialise the member, and its declaration is in
    [CreateRequest.h], which is not among the sources.  [m_data_pool_id]
    starts at [-1], the value the source itself tests for "not resolved".
    [m_mirror_mode] and [m_mirror_image_internal] are written by the
    pipeline before it reads them; they start at [0] and the empty string. *)
Definition CreateRequest_new (cct : Config) (ioctx : IoCtx)
    (image_name image_id : string) (size : Z) (image_options : ImageOptions)
    (non_primary_global_image_id primary_mirror_uuid : string)
    (r_saved0 : Z) : CreateRequest :=
  let m_features := features_after_set_clear cct image_options in
  let m_stripe_unit :=
    let '(r, v) :=
      image_options_get (RBD_IMAGE_OPTION_STRIPE_UNIT image_options) 0 in
    if negb (r =? 0) || (v =? 0) then rbd_default_stripe_unit cct else v in
  let m_stripe_count :=
    let '(r, v) :=
      image_options_get (RBD_IMAGE_OPTION_STRIPE_COUNT image_options) 0 in
    if negb (r =? 0) || (v =? 0) then rbd_default_stripe_count cct else v in
  let m_order :=
    let '(r, v) :=
      get_image_option (RBD_IMAGE_OPTION_ORDER image_options) 0 in
    if negb (r =? 0) || (v =? 0) then to_uint8 (rbd_default_order cct)
    else v in
  let m_journal_order :=
    let '(r, v) :=
      get_image_option (RBD_IMAGE_OPTION_JOURNAL_ORDER image_options) 0 in
    if negb (r =? 0) then to_uint8 (rbd_journal_order cct) else v in
  let m_journal_splay_width :=
    let '(r, v) :=
      get_image_option (RBD_IMAGE_OPTION_JOURNAL_SPLAY_WIDTH image_options) 0 in
    if negb (r =? 0) then to_uint8 (rbd_journal_splay_width cct) else v in
  let m_journal_pool :=
    let '(r, v) :=
      image_options_get (RBD_IMAGE_OPTION_JOURNAL_POOL image_options) "" in
    if negb (r =? 0) then rbd_journal_pool cct else v in
  let m_data_pool :=
    let '(r, v) :=
      image_options_get (RBD_IMAGE_OPTION_DATA_POOL image_options) "" in
    if negb (r =? 0) then rbd_default_data_pool cct else v in
  let m_layout_object_size := to_uint32 (shl1 m_order) in
  let m_layout :=
    if (m_stripe_unit =? 0) || (m_stripe_count =? 0) then
      {| object_size := m_layout_object_size;
         stripe_unit := m_layout_object_size;
         stripe_count := 1 |}
    else
      {| object_size := m_layout_object_size;
         stripe_unit := to_uint32 m_stripe_unit;
         stripe_count := to_uint32 m_stripe_count |} in
  let m_force_non_primary := negb (non_primary_global_image_id =? "")%string in
  let '(m_data_pool, m_features) :=
    if negb (m_data_pool =? "")%string
       && negb (m_data_pool =? get_pool_name ioctx)%string then
      (m_data_pool, Z.lor m_features RBD_FEATURE_DATA_POOL)
    else
      ("", Z.land m_features (not64 RBD_FEATURE_DATA_POOL)) in
  let m_features :=
    if (negb (m_stripe_unit =? 0) && negb (m_stripe_unit =? shl1 m_order))
       || (negb (m_stripe_count =? 0) && negb (m_stripe_count =? 1)) then
      Z.lor m_features RBD_FEATURE_STRIPINGV2
    else
      Z.land m_features (not64 RBD_FEATURE_STRIPINGV2) in
  {| m_cct := cct; m_ioctx := ioctx;
     m_image_name := image_name; m_image_id := image_id;
     m_size := size; m_order := m_order;
     m_features := m_features; m_stripe_unit := m_stripe_unit;
     m_stripe_count := m_stripe_count;
     m_journal_order := m_journal_order;
     m_journal_splay_width := m_journal_splay_width;
     m_journal_pool := m_journal_pool; m_data_pool := m_data_pool;
     m_data_pool_id := -1;
     m_non_primary_global_image_id := non_primary_global_image_id;
     m_primary_mirror_uuid := primary_mirror_uuid;
     m_r_saved := r_saved0;
     m_force_non_primary := m_force_non_primary;
     m_layout := m_layout; m_mirror_mode := 0;
     m_mirror_image_state := 0;
     m_mirror_image_global_image_id := "" |}.

End Constructor.

(** ** The cluster and the trace of a run *)

(** The operations a request issues to its collaborators: the object store,
    the journal sub-service and the mirroring watcher. *)
Inductive Op : Type :=
| OpIoctxCreate (data_pool : string)
| OpValidatePool
| OpSelfmanagedSnapCreate
| OpSelfmanagedSnapRemove (snap_id : Z)
| OpCreateIdObject
| OpAddImageToDirectory
| OpCreateImage (size order features : Z) (object_prefix : string)
                (data_pool_id : Z)
| OpSetStripeUnitCount (stripe_unit stripe_count : Z)
| OpObjectMapResize (num_objects : Z)
| OpFetchMirrorMode
| OpJournalCreate (mirror_uuid : string)
| OpFetchMirrorImage
| OpMirrorImageEnable (global_image_id : string)
| OpNotifyImageUpdated (global_image_id : string)
| OpJournalRemove
| OpRemoveObjectMap
| OpRemoveHeaderObject
| OpRemoveFromDir
| OpRemoveIdObject.

(** What comes back: the result code of the operation and, for a read, the
    outcome of decoding the returned buffer ([..._get_finish]): its return
    code and the decoded value. *)
Record Reply : Type := {
  reply_result : Z;
  finish_result : Z;
  finish_value : Z
}.

(** The collaborators.  [completion] is total: every operation completes. *)
Record Cluster : Type := {
  completion : Op -> Reply;
  is_compatible : file_layout_t -> Z -> bool;
  get_num_objects : file_layout_t -> Z -> Z;
  generate_random : string
}.

Inductive Event : Type :=
| Issue (op : Op)
| LogErr (msg : string).

Inductive Final : Type :=
| Completed (r : Z)
| Aborted.

Record Run : Type := {
  trace : list Event;
  final : Final
}.

Definition emit (e : Event) (k : Run) : Run :=
  {| trace := e :: trace k; final := final k |}.

Definition emit_all (es : list Event) (k : Run) : Run :=
  {| trace := es ++ trace k; final := final k |}.

Definition lderr (msg : string) (k : Run) : Run := emit (LogErr msg) k.

(** [m_on_finish->complete(r)]. *)
Definition on_finish (r : Z) : Run := {| trace := []; final := Completed r |}.

(** A failed [assert]. *)
Definition abort : Run := {| trace := []; final := Aborted |}.

(** The cluster operations a trace contains, in order. *)
Fixpoint ops_of (t : list Event) : list Op :=
  match t with
  | [] => []
  | Issue op :: t' => op :: ops_of t'
  | LogErr _ :: t' => ops_of t'
  end.

Definition is_rollback (op : Op) : bool :=
  match op with
  | OpJournalRemove | OpRemoveObjectMap | OpRemoveHeaderObject
  | OpRemoveFromDir | OpRemoveIdObject => true
  | _ => false
  end.

Definition forward_ops (t : list Event) : list Op :=
  filter (fun op => negb (is_rollback op)) (ops_of t).

Definition rollback_ops (t : list Event) : list Op :=
  filter is_rollback (ops_of t).

(** The rollback operation that removes what a forward operation created.
    [OpSetStripeUnitCount] changes the header, which goes with the header;
    reads, the snapshot bootstrap and the notification leave nothing to
    remove; the mirror registration is the last fallible step. *)
Definition undo (op : Op) : list Op :=
  match op with
  | OpCreateIdObject => [OpRemoveIdObject]
  | OpAddImageToDirectory => [OpRemoveFromDir]
  | OpCreateImage _ _ _ _ _ => [OpRemoveHeaderObject]
  | OpObjectMapResize _ => [OpRemoveObjectMap]
  | OpJournalCreate _ => [OpJournalRemove]
  | _ => []
  end.

(** ** The pipeline *)

Section Pipeline.
Context {K : RbdTypes}.
Variable cluster : Cluster.

(** Submit an operation and run its completion callback.  The source asserts
    that the submission itself returns [0]. *)
Definition aio (op : Op) (callback : Reply -> Run) : Run :=
  emit (Issue op) (callback (completion cluster op)).

Definition complete (r : Z) : Run := on_finish r.

(** *** cleanup *)

Definition handle_remove_id_object (req : CreateRequest) (result : Z) : Run :=
  let k := on_finish (m_r_saved req) in
  if result <? 0 then
    lderr "error cleaning up id object after creation failed" k
  else k.

Definition remove_id_object (req : CreateRequest) : Run :=
  aio OpRemoveIdObject (fun c => handle_remove_id_object req (reply_result c)).

Definition handle_remove_from_dir (req : CreateRequest) (result : Z) : Run :=
  let k := remove_id_object req in
  if result <? 0 then
    lderr ("error cleaning up image from rbd_directory object "
           ++ "after creation failed") k
  else k.

Definition remove_from_dir (req : CreateRequest) : Run :=
  aio OpRemoveFromDir (fun c => handle_remove_from_dir req (reply_result c)).

Definition handle_remove_header_object (req : CreateRequest) (result : Z)
  : Run :=
  let k := remove_from_dir req in
  if result <? 0 then
    lderr "error cleaning up image header after creation failed" k
  else k.

Definition remove_header_object (req : CreateRequest) : Run :=
  aio OpRemoveHeaderObject
      (fun c => handle_remove_header_object req (reply_result c)).

Definition handle_remove_object_map (req : CreateRequest) (result : Z) : Run :=
  let k := remove_header_object req in
  if result <? 0 then
    lderr "error cleaning up object map after creation failed" k
  else k.

Definition remove_object_map (req : CreateRequest) : Run :=
  if negb (test (m_features req) RBD_FEATURE_OBJECT_MAP) then
    remove_header_object req
  else
    aio OpRemoveObjectMap (fun c => handle_remove_object_map req (reply_result c)).

Definition handle_journal_remove (req : CreateRequest) (result : Z) : Run :=
  let k := remove_object_map req in
  if result <? 0 then
    lderr "error cleaning up journal after creation failed" k
  else k.

Definition journal_remove (req : CreateRequest) : Run :=
  if negb (test (m_features req) RBD_FEATURE_JOURNALING) then
    remove_object_map req
  else
    aio OpJournalRemove (fun c => handle_journal_remove req (reply_result c)).

(** *** mirroring *)

Definition handle_watcher_notify (req : CreateRequest) (r : Z) : Run :=
  complete 0.

Definition send_watcher_notification (req : CreateRequest) : Run :=
  aio (OpNotifyImageUpdated (m_mirror_image_global_image_id req))
      (fun c => handle_watcher_notify req (reply_result c)).

Definition handle_mirror_image_enable (req : CreateRequest) (result : Z)
  : Run :=
  if result <? 0 then
    lderr "cannot enable mirroring"
          (journal_remove (set_r_saved req result))
  else send_watcher_notification req.

Definition mirror_image_enable (req : CreateRequest) : Run :=
  let global_image_id :=
    if (m_non_primary_global_image_id req =? "")%string
    then generate_random cluster
    else m_non_primary_global_image_id req in
  let req := set_mirror_image req MIRROR_IMAGE_STATE_ENABLED global_image_id in
  aio (OpMirrorImageEnable global_image_id)
      (fun c => handle_mirror_image_enable req (reply_result c)).

Definition handle_fetch_mirror_image (req : CreateRequest) (c : Reply) : Run :=
  let result := reply_result c in
  if (result <? 0) && negb (result =? - ENOENT) then
    lderr "cannot enable mirroring"
          (journal_remove (set_r_saved req result))
  else if result =? 0 then
    let result := finish_result c in
    let req :=
      set_mirror_image req (finish_value c)
                       (m_mirror_image_global_image_id req) in
    if result <? 0 then
      lderr "cannot enable mirroring"
            (journal_remove (set_r_saved req result))
    else if m_mirror_image_state req =? MIRROR_IMAGE_STATE_ENABLED then
      on_finish result
    else mirror_image_enable req
  else mirror_image_enable req.

Definition fetch_mirror_image (req : CreateRequest) : Run :=
  if negb (m_mirror_mode req =? RBD_MIRROR_MODE_POOL)
     && negb (m_force_non_primary req) then
    complete 0
  else
    aio OpFetchMirrorImage (handle_fetch_mirror_image req).

Definition handle_journal_create (req : CreateRequest) (result : Z) : Run :=
  if result <? 0 then
    lderr "error creating journal"
          (remove_object_map (set_r_saved req result))
  else fetch_mirror_image req.

Definition journal_create (req : CreateRequest) : Run :=
  let mirror_uuid :=
    if m_force_non_primary req then m_primary_mirror_uuid req
    else LOCAL_MIRROR_UUID in
  aio (OpJournalCreate mirror_uuid)
      (fun c => handle_journal_create req (reply_result c)).

(** In the [default] branch of the [switch] the source writes [-EINVAL] to
    [*result] and returns [nullptr], so the value goes nowhere; [m_r_saved]
    is not assigned on that branch. *)
Definition handle_fetch_mirror_mode (req : CreateRequest) (c : Reply) : Run :=
  let result := reply_result c in
  if (result <? 0) && negb (result =? - ENOENT) then
    lderr "failed to retrieve mirror mode"
          (remove_object_map (set_r_saved req result))
  else
    let switch (mirror_mode_internal : Z) : Run :=
      if (mirror_mode_internal =? MIRROR_MODE_DISABLED)
         || (mirror_mode_internal =? MIRROR_MODE_IMAGE)
         || (mirror_mode_internal =? MIRROR_MODE_POOL) then
        journal_create (set_mirror_mode req mirror_mode_internal)
      else
        lderr "Unknown mirror mode" (remove_object_map req) in
    if result =? 0 then
      let result := finish_result c in
      if result <? 0 then
        lderr "Failed to retrieve mirror mode"
              (remove_object_map (set_r_saved req result))
      else switch (finish_value c)
    else switch MIRROR_MODE_DISABLED.

Definition fetch_mirror_mode (req : CreateRequest) : Run :=
  if negb (test (m_features req) RBD_FEATURE_JOURNALING) then
    complete 0
  else
    aio OpFetchMirrorMode (handle_fetch_mirror_mode req).

(** *** header, striping, object map *)

Definition handle_object_map_resize (req : CreateRequest) (result : Z) : Run :=
  if result <? 0 then
    lderr "error creating initial object map"
          (remove_header_object (set_r_saved req result))
  else fetch_mirror_mode req.

Definition object_map_resize (req : CreateRequest) : Run :=
  if negb (test (m_features req) RBD_FEATURE_OBJECT_MAP) then
    fetch_mirror_mode req
  else
    aio (OpObjectMapResize
           (get_num_objects cluster (m_layout req) (m_size req)))
        (fun c => handle_object_map_resize req (reply_result c)).

Definition handle_set_stripe_unit_count (req : CreateRequest) (result : Z)
  : Run :=
  if result <? 0 then
    lderr "error setting stripe unit/count"
          (remove_header_object (set_r_saved req result))
  else object_map_resize req.

Definition set_stripe_unit_count (req : CreateRequest) : Run :=
  if ((m_stripe_unit req =? 0) && (m_stripe_count req =? 0))
     || ((m_stripe_count req =? 1)
         && (m_stripe_unit req =? shl1 (m_order req))) then
    object_map_resize req
  else
    aio (OpSetStripeUnitCount (m_stripe_unit req) (m_stripe_count req))
        (fun c => handle_set_stripe_unit_count req (reply_result c)).

Definition handle_create_image (req : CreateRequest) (result : Z) : Run :=
  if result <? 0 then
    lderr "error writing header" (remove_from_dir (set_r_saved req result))
  else set_stripe_unit_count req.

(** The string the source builds in [oss]. *)
Definition data_object_prefix (req : CreateRequest) : string :=
  let pool_part :=
    if negb (m_data_pool_id req =? -1)
    then (stringify (get_id (m_ioctx req)) ++ ".")%string
    else "" in
  (RBD_DATA_PREFIX ++ pool_part ++ m_image_id req)%string.

Definition create_image (req : CreateRequest) : Run :=
  if (m_data_pool req =? "")%string || negb (m_data_pool_id req =? -1) then
    aio (OpCreateImage (m_size req) (m_order req) (m_features req)
                       (data_object_prefix req) (m_data_pool_id req))
        (fun c => handle_create_image req (reply_result c))
  else abort.

(** *** id object and directory *)

Definition handle_add_image_to_directory (req : CreateRequest) (result : Z)
  : Run :=
  if result <? 0 then
    lderr "error adding image to directory"
          (remove_id_object (set_r_saved req result))
  else create_image req.

Definition add_image_to_directory (req : CreateRequest) : Run :=
  aio OpAddImageToDirectory
      (fun c => handle_add_image_to_directory req (reply_result c)).

Definition handle_create_id_object (req : CreateRequest) (result : Z) : Run :=
  if result <? 0 then
    lderr "error creating RBD id object" (on_finish result)
  else add_image_to_directory req.

Definition create_id_object (req : CreateRequest) : Run :=
  aio OpCreateIdObject (fun c => handle_create_id_object req (reply_result c)).

(** *** pool validation *)

Definition handle_validate_pool (req : CreateRequest) (result : Z) : Run :=
  if result =? 0 then
    create_id_object req
  else if (result <? 0) && negb (result =? - ENOENT) then
    lderr "failed to stat RBD directory" (on_finish result)
  else
    aio OpSelfmanagedSnapCreate (fun c =>
      let r := reply_result c in
      let snap_id := finish_value c in
      if r =? - EINVAL then
        lderr "pool not configured for self-managed RBD snapshot support"
              (on_finish r)
      else if r <? 0 then
        lderr "failed to allocate self-managed snapshot" (on_finish r)
      else
        aio (OpSelfmanagedSnapRemove snap_id) (fun _ =>
          create_id_object req)).

Definition validate_pool (req : CreateRequest) : Run :=
  if negb (rbd_validate_pool (m_cct req)) then
    create_id_object req
  else
    aio OpValidatePool (fun c => handle_validate_pool req (reply_result c)).

(** *** send *)

(** [validate_data_pool]: the events of the pool lookup, the return code and
    the value left in [*data_pool_id]. *)
Definition validate_data_pool (features : Z) (data_pool : string)
    (data_pool_id : Z) : list Event * (Z * Z) :=
  if negb (test features RBD_FEATURE_DATA_POOL) then
    ([], (0, data_pool_id))
  else
    let c := completion cluster (OpIoctxCreate data_pool) in
    if reply_result c <? 0 then
      ([Issue (OpIoctxCreate data_pool);
        LogErr "data pool does not exist"], (- ENOENT, data_pool_id))
    else
      ([Issue (OpIoctxCreate data_pool)], (0, finish_value c)).

Definition validate_layout (size : Z) (layout : file_layout_t) : bool :=
  if negb (is_compatible cluster layout size) then false else true.

Definition send (req : CreateRequest) : Run :=
  match validate_features (m_features req) (m_force_non_primary req) with
  | AssertFailed => abort
  | Returned r =>
    if r <? 0 then complete r else
    let r := validate_order (m_order req) in
    if r <? 0 then complete r else
    let r := validate_striping (m_order req) (m_stripe_unit req)
                               (m_stripe_count req) in
    if r <? 0 then complete r else
    let '(events, (r, data_pool_id)) :=
      validate_data_pool (m_features req) (m_data_pool req)
                         (m_data_pool_id req) in
    let req := set_data_pool_id req data_pool_id in
    emit_all events
      (if r <? 0 then complete r else
       if negb (validate_layout (m_size req) (m_layout req)) then
         complete (- EINVAL)
       else validate_pool req)
  end.

End Pipeline.

(** ** The constants of the upstream headers

    One instance of [RbdTypes], used for the concrete runs below: the bit
    positions of [include/rbd/features.h], the prefix of
    [include/rbd_types.h], decimal [stringify], and the enumerators of
    [cls_rbd_types.h] and [librbd.h]. *)

Definition upstream_feature_bit (f : Feature) : Z :=
  match f with
  | LAYERING => 0
  | STRIPINGV2 => 1
  | EXCLUSIVE_LOCK => 2
  | OBJECT_MAP => 3
  | FAST_DIFF => 4
  | DEEP_FLATTEN => 5
  | JOURNALING => 6
  | DATA_POOL => 7
  end.

Definition upstream : RbdTypes :=
  {| feature_bit := upstream_feature_bit;
     feature_bit_range := ltac:(intros []; cbn; lia);
     feature_bit_inj :=
       ltac:(intros [] []; cbn; intros; solve [reflexivity | discriminate]);
     RBD_DATA_PREFIX := "rbd_data.";
     stringify := fun z => NilZero.string_of_int (Z.to_int z);
     MIRROR_MODE_DISABLED := 0;
     MIRROR_MODE_IMAGE := 1;
     MIRROR_MODE_POOL := 2;
     RBD_MIRROR_MODE_POOL := 2;
     MIRROR_IMAGE_STATE_ENABLED := 1;
     LOCAL_MIRROR_UUID := "" |}.

(** ** Concrete inputs for the examples *)

(** The configuration defaults of upstream: layering only, order 22. *)
Definition default_config : Config :=
  {| rbd_default_features := 1;
     rbd_default_stripe_unit := 0;
     rbd_default_stripe_count := 0;
     rbd_default_order := 22;
     rbd_journal_order := 24;
     rbd_journal_splay_width := 4;
     rbd_journal_pool := "";
     rbd_default_data_pool := "";
     rbd_validate_pool := true |}.

Definition rbd_pool : IoCtx := {| get_pool_name := "rbd"; get_id := 2 |}.

Definition no_options : ImageOptions :=
  {| RBD_IMAGE_OPTION_FEATURES := None;
     RBD_IMAGE_OPTION_FEATURES_SET := None;
     RBD_IMAGE_OPTION_FEATURES_CLEAR := None;
     RBD_IMAGE_OPTION_STRIPE_UNIT := None;
     RBD_IMAGE_OPTION_STRIPE_COUNT := None;
     RBD_IMAGE_OPTION_ORDER := None;
     RBD_IMAGE_OPTION_JOURNAL_ORDER := None;
     RBD_IMAGE_OPTION_JOURNAL_SPLAY_WIDTH := None;
     RBD_IMAGE_OPTION_JOURNAL_POOL := None;
     RBD_IMAGE_OPTION_DATA_POOL := None |}.

Definition with_features (features : option Z) (set clear : option Z)
  : ImageOptions :=
  {| RBD_IMAGE_OPTION_FEATURES := features;
     RBD_IMAGE_OPTION_FEATURES_SET := set;
     RBD_IMAGE_OPTION_FEATURES_CLEAR := clear;
     RBD_IMAGE_OPTION_STRIPE_UNIT := None;
     RBD_IMAGE_OPTION_STRIPE_COUNT := None;
     RBD_IMAGE_OPTION_ORDER := None;
     RBD_IMAGE_OPTION_JOURNAL_ORDER := None;
     RBD_IMAGE_OPTION_JOURNAL_SPLAY_WIDTH := None;
     RBD_IMAGE_OPTION_JOURNAL_POOL := None;
     RBD_IMAGE_OPTION_DATA_POOL := None |}.

Definition with_order (order : Z) : ImageOptions :=
  {| RBD_IMAGE_OPTION_FEATURES := None;
     RBD_IMAGE_OPTION_FEATURES_SET := None;
     RBD_IMAGE_OPTION_FEATURES_CLEAR := None;
     RBD_IMAGE_OPTION_STRIPE_UNIT := None;
     RBD_IMAGE_OPTION_STRIPE_COUNT := None;
     RBD_IMAGE_OPTION_ORDER := Some order;
     RBD_IMAGE_OPTION_JOURNAL_ORDER := None;
     RBD_IMAGE_OPTION_JOURNAL_SPLAY_WIDTH := None;
     RBD_IMAGE_OPTION_JOURNAL_POOL := None;
     RBD_IMAGE_OPTION_DATA_POOL := None |}.

Definition with_data_pool (data_pool : string) : ImageOptions :=
  {| RBD_IMAGE_OPTION_FEATURES := None;
     RBD_IMAGE_OPTION_FEATURES_SET := None;
     RBD_IMAGE_OPTION_FEATURES_CLEAR := None;
     RBD_IMAGE_OPTION_STRIPE_UNIT := None;
     RBD_IMAGE_OPTION_STRIPE_COUNT := None;
     RBD_IMAGE_OPTION_ORDER := None;
     RBD_IMAGE_OPTION_JOURNAL_ORDER := None;
     RBD_IMAGE_OPTION_JOURNAL_SPLAY_WIDTH := None;
     RBD_IMAGE_OPTION_JOURNAL_POOL := None;
     RBD_IMAGE_OPTION_DATA_POOL := Some data_pool |}.

Definition ok : Reply :=
  {| reply_result := 0; finish_result := 0; finish_value := 0 |}.

(** A cluster on which every operation succeeds; no mirror mode is stored
    other than the value [0]. *)
Definition healthy_cluster : Cluster :=
  {| completion := fun _ => ok;
     is_compatible := fun _ _ => true;
     get_num_objects :=
       fun layout size => (size + object_size layout - 1) / object_size layout;
     generate_random := "9f1c" |}.

(** The same cluster, except that the stored mirror mode decodes to [3]. *)
Definition unknown_mode_cluster : Cluster :=
  {| completion := fun op =>
       match op with
       | OpFetchMirrorMode =>
           {| reply_result := 0; finish_result := 0; finish_value := 3 |}
       | _ => ok
       end;
     is_compatible := fun _ _ => true;
     get_num_objects :=
       fun layout size => (size + object_size layout - 1) / object_size layout;
     generate_random := "9f1c" |}.

(** A healthy cluster with pool-wide mirroring (mode [2]). *)
Definition pool_mirroring_cluster : Cluster :=
  {| completion := fun op =>
       match op with
       | OpFetchMirrorMode =>
           {| reply_result := 0; finish_result := 0; finish_value := 2 |}
       | OpFetchMirrorImage =>
           {| reply_result := - ENOENT; finish_result := 0;
              finish_value := 0 |}
       | _ => ok
       end;
     is_compatible := fun _ _ => true;
     get_num_objects :=
       fun layout size => (size + object_size layout - 1) / object_size layout;
     generate_random := "9f1c" |}.

(** A cluster on which the object-map initialisation and, during rollback,
    the removal of the header both fail with [-5]. *)
Definition failing_object_map_cluster : Cluster :=
  {| completion := fun op =>
       match op with
       | OpObjectMapResize _ | OpRemoveHeaderObject =>
           {| reply_result := -5; finish_result := 0; finish_value := 0 |}
       | _ => ok
       end;
     is_compatible := fun _ _ => true;
     get_num_objects :=
       fun layout size => (size + object_size layout - 1) / object_size layout;
     generate_random := "9f1c" |}.

(** A healthy cluster in which every data pool looked up has id [5]. *)
Definition data_pool_cluster : Cluster :=
  {| completion := fun op =>
       match op with
       | OpIoctxCreate _ =>
           {| reply_result := 0; finish_result := 0; finish_value := 5 |}
       | _ => ok
       end;
     is_compatible := fun _ _ => true;
     get_num_objects :=
       fun layout size => (size + object_size layout - 1) / object_size layout;
     generate_random := "9f1c" |}.

(** A healthy cluster whose pool has no directory yet: the stat returns
    [-ENOENT] (-2). *)
Definition fresh_pool_cluster : Cluster :=
  {| completion := fun op =>
       match op with
       | OpValidatePool =>
           {| reply_result := -2; finish_result := 0; finish_value := 0 |}
       | OpSelfmanagedSnapCreate =>
           {| reply_result := 0; finish_result := 0; finish_value := 17 |}
       | _ => ok
       end;
     is_compatible := fun _ _ => true;
     get_num_objects :=
       fun layout size => (size + object_size layout - 1) / object_size layout;
     generate_random := "9f1c" |}.

Definition with_striping (stripe_unit stripe_count : Z) : ImageOptions :=
  {| RBD_IMAGE_OPTION_FEATURES := None;
     RBD_IMAGE_OPTION_FEATURES_SET := None;
     RBD_IMAGE_OPTION_FEATURES_CLEAR := None;
     RBD_IMAGE_OPTION_STRIPE_UNIT := Some stripe_unit;
     RBD_IMAGE_OPTION_STRIPE_COUNT := Some stripe_count;
     RBD_IMAGE_OPTION_ORDER := None;
     RBD_IMAGE_OPTION_JOURNAL_ORDER := None;
     RBD_IMAGE_OPTION_JOURNAL_SPLAY_WIDTH := None;
     RBD_IMAGE_OPTION_JOURNAL_POOL := None;
     RBD_IMAGE_OPTION_DATA_POOL := None |}.

(** When the two mirroring reads count as failed: a negative result other
    than [-ENOENT], or a buffer that does not decode; for the mirror mode
    also a decoded value outside the vocabulary. *)
Definition fetch_mirror_mode_failed {K : RbdTypes} (c : Reply) : Prop :=
  (reply_result c < 0 /\ reply_result c <> - ENOENT)
  \/ (reply_result c = 0 /\ finish_result c < 0)
  \/ (reply_result c = 0 /\ 0 <= finish_result c
      /\ finish_value c <> MIRROR_MODE_DISABLED
      /\ finish_value c <> MIRROR_MODE_IMAGE
      /\ finish_value c <> MIRROR_MODE_POOL).

Definition fetch_mirror_image_failed (c : Reply) : Prop :=
  (reply_result c < 0 /\ reply_result c <> - ENOENT)
  \/ (reply_result c = 0 /\ finish_result c < 0).

(** The feature mask the request starts from: the caller's, or the
    configured default. *)
Definition base_features (cct : Config) (image_options : ImageOptions) : Z :=
  match RBD_IMAGE_OPTION_FEATURES image_options with
  | Some features => features
  | None => rbd_default_features cct
  end.

(** The data-pool name the request starts from: the caller's, or the
    configured default. *)
Definition given_data_pool (cct : Config) (image_options : ImageOptions)
  : string :=
  match RBD_IMAGE_OPTION_DATA_POOL image_options with
  | Some data_pool => data_pool
  | None => rbd_default_data_pool cct
  end.

(** ** Vocabulary of the properties *)

Section Vocabulary.
Context {K : RbdTypes}.

(** The feature is in the mask. *)
Definition has (features : Z) (f : Feature) : bool :=
  Z.testbit features (feature_bit f).

(** The mask has a bit, among its 64, that is no feature's. *)
Definition unknown_bits (features : Z) : Prop :=
  exists n, 0 <= n < 64 /\ Z.testbit features n = true
            /\ forall f, feature_bit f <> n.

(** The three feature dependencies. *)
Definition dependencies_hold (features : Z) : Prop :=
  (has features FAST_DIFF = true -> has features OBJECT_MAP = true)
  /\ (has features OBJECT_MAP = true -> has features EXCLUSIVE_LOCK = true)
  /\ (has features JOURNALING = true -> has features EXCLUSIVE_LOCK = true).

End Vocabulary.

(** What each rollback entry issues, by the feature mask. *)
Definition rollback_from_header : list Op :=
  [OpRemoveHeaderObject; OpRemoveFromDir; OpRemoveIdObject].

Definition rollback_from_object_map {K : RbdTypes} (features : Z) : list Op :=
  (if has features OBJECT_MAP then [OpRemoveObjectMap] else [])
  ++ rollback_from_header.

Definition rollback_from_journal {K : RbdTypes} (features : Z) : list Op :=
  (if has features JOURNALING then [OpJournalRemove] else [])
  ++ rollback_from_object_map features.

(** A step of the forward pipeline failed on the cluster: its operation
    returned a negative result; for the two mirroring reads, it failed as
    [fetch_mirror_mode_failed] and [fetch_mirror_image_failed] say. *)
Definition failed {K : RbdTypes} (cluster : Cluster) (op : Op) : Prop :=
  match op with
  | OpFetchMirrorMode => fetch_mirror_mode_failed (completion cluster op)
  | OpFetchMirrorImage => fetch_mirror_image_failed (completion cluster op)
  | _ => reply_result (completion cluster op) < 0
  end.

(** The rollback a failing forward step calls for.  The steps before the
    directory add have none. *)
Definition rollback_entry {K : RbdTypes} (features : Z) (op : Op)
  : option (list Op) :=
  match op with
  | OpAddImageToDirectory => Some [OpRemoveIdObject]
  | OpCreateImage _ _ _ _ _ => Some [OpRemoveFromDir; OpRemoveIdObject]
  | OpSetStripeUnitCount _ _ | OpObjectMapResize _ =>
      Some [OpRemoveHeaderObject; OpRemoveFromDir; OpRemoveIdObject]
  | OpFetchMirrorMode | OpJournalCreate _ =>
      Some ((if has features OBJECT_MAP then [OpRemoveObjectMap] else [])
            ++ [OpRemoveHeaderObject; OpRemoveFromDir; OpRemoveIdObject])
  | OpFetchMirrorImage | OpMirrorImageEnable _ =>
      Some ((if has features JOURNALING then [OpJournalRemove] else [])
            ++ (if has features OBJECT_MAP then [OpRemoveObjectMap] else [])
            ++ [OpRemoveHeaderObject; OpRemoveFromDir; OpRemoveIdObject])
  | _ => None
  end.

(** In a list of operations, every failed step that calls for a rollback is
    the last forward operation and is followed by exactly that rollback. *)
Definition enters {K : RbdTypes} (cluster : Cluster) (features : Z)
    (l : list Op) : Prop :=
  forall op entry,
    In op l ->
    failed cluster op ->
    rollback_entry features op = Some entry ->
    filter is_rollback l = entry
    /\ exists before,
         filter (fun op => negb (is_rollback op)) l = before ++ [op].

(** The removals that undo a list of forward operations, last one first. *)
Definition undone (done : list Op) : list Op := flat_map undo (rev done).

(** A list of operations is some forward operations followed by rollback
    operations, and when there is a rollback it undoes, in reverse, the
    forward operations before the last one: the last one is the one that
    failed.  [done] are forward operations that came before the list. *)
Definition rolled_back (done ops : list Op) : Prop :=
  ops = filter (fun op => negb (is_rollback op)) ops ++ filter is_rollback ops
  /\ (filter is_rollback ops <> [] ->
      filter is_rollback ops
      = undone (removelast
                  (done ++ filter (fun op => negb (is_rollback op)) ops))).

(** The bits an option contributes: those of its value, none when the
    option is absent. *)
Definition option_bits (option_value : option Z) : Z :=
  match option_value with
  | Some v => v
  | None => 0
  end.

(** The place of an operation in the order of the pipeline: the pool lookup
    of [send], the forward steps, then the rollback steps. *)
Definition rank (op : Op) : nat :=
  match op with
  | OpIoctxCreate _ => 0
  | OpValidatePool => 1
  | OpSelfmanagedSnapCreate => 2
  | OpSelfmanagedSnapRemove _ => 3
  | OpCreateIdObject => 4
  | OpAddImageToDirectory => 5
  | OpCreateImage _ _ _ _ _ => 6
  | OpSetStripeUnitCount _ _ => 7
  | OpObjectMapResize _ => 8
  | OpFetchMirrorMode => 9
  | OpJournalCreate _ => 10
  | OpFetchMirrorImage => 11
  | OpMirrorImageEnable _ => 12
  | OpNotifyImageUpdated _ => 13
  | OpJournalRemove => 14
  | OpRemoveObjectMap => 15
  | OpRemoveHeaderObject => 16
  | OpRemoveFromDir => 17
  | OpRemoveIdObject => 18
  end%nat.

(** The ranks of a list of operations increase strictly, starting at [lo] or
    above. *)
Fixpoint ascending (lo : nat) (ops : list Op) : Prop :=
  match ops with
  | [] => True
  | op :: ops' => (lo <= rank op)%nat /\ ascending (S (rank op)) ops'
  end.

(** The operations a feature mask permits: the object map is touched only
    with OBJECT_MAP, the journal and the mirroring registry only with
    JOURNALING, the data-pool lookup only with DATA_POOL. *)
Definition permitted {K : RbdTypes} (features : Z) (op : Op) : bool :=
  match op with
  | OpIoctxCreate _ => has features DATA_POOL
  | OpObjectMapResize _ | OpRemoveObjectMap => has features OBJECT_MAP
  | OpFetchMirrorMode | OpJournalCreate _ | OpFetchMirrorImage
  | OpMirrorImageEnable _ | OpNotifyImageUpdated _ | OpJournalRemove =>
      has features JOURNALING
  | _ => true
  end.

(** No operation of the cluster fails: every result and every decoding is
    [0], and the stored mirror mode is one of the three known. *)
Definition all_succeed {K : RbdTypes} (cluster : Cluster) : Prop :=
  (forall op, reply_result (completion cluster op) = 0
              /\ finish_result (completion cluster op) = 0)
  /\ (finish_value (completion cluster OpFetchMirrorMode)
      = MIRROR_MODE_DISABLED
      \/ finish_value (completion cluster OpFetchMirrorMode)
         = MIRROR_MODE_IMAGE
      \/ finish_value (completion cluster OpFetchMirrorMode)
         = MIRROR_MODE_POOL).

(** Both at once: ascending ranks and only permitted operations. *)
Definition orderly {K : RbdTypes} (lo : nat) (features : Z) (ops : list Op)
  : Prop :=
  ascending lo ops /\ forallb (permitted features) ops = true.

(** What a run that created the image has done. *)
Definition created {K : RbdTypes} (cluster : Cluster) (req : CreateRequest)
    (l : list Op) : Prop :=
  (In OpCreateIdObject l
   /\ 0 <= reply_result (completion cluster OpCreateIdObject))
  /\ (In OpAddImageToDirectory l
      /\ 0 <= reply_result (completion cluster OpAddImageToDirectory))
  /\ (exists object_prefix data_pool_id,
        let op := OpCreateImage (m_size req) (m_order req) (m_features req)
                    object_prefix data_pool_id in
        In op l /\ 0 <= reply_result (completion cluster op))
  /\ (has (m_features req) OBJECT_MAP = true ->
      exists n, In (OpObjectMapResize n) l
                /\ 0 <= reply_result (completion cluster (OpObjectMapResize n))).

(** The run delivers [0] and has no rollback operation. *)
Definition clean (run : Run) : Prop :=
  final run = Completed 0 /\ filter is_rollback (ops_of (trace run)) = [].

(** The global image id of the registration: the one of the non-primary
    image when there is one, otherwise a fresh one. *)
Definition chosen_global_image_id (cluster : Cluster) (req : CreateRequest)
  : string :=
  if (m_non_primary_global_image_id req =? "")%string
  then generate_random cluster
  else m_non_primary_global_image_id req.


(** * Properties *)

(** ** Bits *)

Lemma testbit_not64 (x n : Z) :
  0 <= n -> Z.testbit (not64 x) n = (n <? 64) && negb (Z.testbit x n).
Proof.
  intros Hn. unfold not64.
  destruct (Z.ltb_spec n 64) as [Hlt | Hge]; cbn [andb].
  - rewrite Z.mod_pow2_bits_low by lia. apply Z.lnot_spec; lia.
  - apply Z.mod_pow2_bits_high; lia.
Qed.

Lemma land_pow2 (x k : Z) :
  0 <= k -> Z.land x (2 ^ k) = if Z.testbit x k then 2 ^ k else 0.
Proof.
  intros Hk. apply Z.bits_inj'. intros n Hn.
  rewrite Z.land_spec, Z.pow2_bits_eqb by lia.
  destruct (Z.eqb_spec k n) as [-> | Hne].
  - destruct (Z.testbit x n) eqn:E; simpl.
    + now rewrite Z.pow2_bits_true.
    + now rewrite Z.bits_0.
  - rewrite andb_false_r.
    destruct (Z.testbit x k).
    + now rewrite Z.pow2_bits_false.
    + now rewrite Z.bits_0.
Qed.

Lemma test_pow2 (x k : Z) : 0 <= k -> test x (2 ^ k) = Z.testbit x k.
Proof.
  intros Hk. unfold test. rewrite land_pow2 by assumption.
  destruct (Z.testbit x k); [| reflexivity].
  assert (0 < 2 ^ k) by (apply Z.pow_pos_nonneg; lia).
  destruct (Z.eqb_spec (2 ^ k) 0); [lia | reflexivity].
Qed.

(** A mask is zero exactly when it has no bit. *)
Lemma eqb_0_bits (x : Z) :
  (x =? 0) = true <-> forall n, 0 <= n -> Z.testbit x n = false.
Proof.
  rewrite Z.eqb_eq. split.
  - intros -> n _. apply Z.bits_0.
  - intros H. apply Z.bits_inj'. intros n Hn. rewrite Z.bits_0. now apply H.
Qed.

Section FeatureBits.
Context {K : RbdTypes}.

Lemma feature_bit_nonneg (f : Feature) : 0 <= feature_bit f.
Proof. apply feature_bit_range. Qed.

Lemma testbit_features_all (n : Z) :
  0 <= n ->
  Z.testbit RBD_FEATURES_ALL n = true <-> exists f, feature_bit f = n.
Proof.
  intros Hn. unfold RBD_FEATURES_ALL, RBD_FEATURE_LAYERING,
    RBD_FEATURE_STRIPINGV2, RBD_FEATURE_EXCLUSIVE_LOCK, RBD_FEATURE_OBJECT_MAP,
    RBD_FEATURE_FAST_DIFF, RBD_FEATURE_DEEP_FLATTEN, RBD_FEATURE_JOURNALING,
    RBD_FEATURE_DATA_POOL.
  rewrite !Z.lor_spec, !Z.pow2_bits_eqb by apply feature_bit_nonneg.
  rewrite !orb_true_iff, !Z.eqb_eq. split.
  - intros H. repeat destruct H as [H | H]; eauto.
  - intros [[] H]; tauto.
Qed.

Lemma test_feature (features : Z) (f : Feature) :
  test features (2 ^ feature_bit f) = has features f.
Proof. apply test_pow2, feature_bit_nonneg. Qed.

Lemma unknown_bits_iff (features : Z) :
  (Z.land features (not64 RBD_FEATURES_ALL) =? 0) = false
  <-> unknown_bits features.
Proof.
  set (m := Z.land features (not64 RBD_FEATURES_ALL)).
  assert (Hbit : forall n, 0 <= n ->
            Z.testbit m n
            = Z.testbit features n
              && ((n <? 64) && negb (Z.testbit RBD_FEATURES_ALL n))).
  { intros n Hn. unfold m. now rewrite Z.land_spec, testbit_not64. }
  split.
  - intros H. apply Z.eqb_neq in H.
    assert (Hm : 0 <= m).
    { apply Z.land_nonneg. right. unfold not64.
      apply Z.mod_pos_bound. reflexivity. }
    assert (Hlog : Z.testbit m (Z.log2 m) = true) by (apply Z.bit_log2; lia).
    pose proof (Z.log2_nonneg m) as Hn.
    rewrite Hbit in Hlog by assumption.
    apply andb_prop in Hlog as [Hf Hlog].
    apply andb_prop in Hlog as [Hlt Hall].
    exists (Z.log2 m). repeat split; [assumption | lia | assumption |].
    intros f Hf'. apply negb_true_iff in Hall.
    assert (Z.testbit RBD_FEATURES_ALL (Z.log2 m) = true) as Habs
      by (apply testbit_features_all; eauto).
    congruence.
  - intros (n & Hn & Hf & Hnone). apply Z.eqb_neq. intros Hm.
    assert (Z.testbit m n = false) as Hz by (rewrite Hm; apply Z.bits_0).
    rewrite Hbit, Hf in Hz by lia.
    destruct (Z.ltb_spec n 64); [| lia]. cbn in Hz.
    apply negb_false_iff, testbit_features_all in Hz as [f Hfn]; [| lia].
    now apply (Hnone f).
Qed.

End FeatureBits.

(** ** Validators *)

Section ValidatorProperties.
Context {K : RbdTypes}.

Lemma validate_features_has (features : Z) (force_non_primary : bool) :
  validate_features features force_non_primary =
  if negb (Z.land features (not64 RBD_FEATURES_ALL) =? 0) then
    Returned (- ENOSYS)
  else if has features FAST_DIFF && negb (has features OBJECT_MAP) then
    Returned (- EINVAL)
  else if has features OBJECT_MAP && negb (has features EXCLUSIVE_LOCK) then
    Returned (- EINVAL)
  else if has features JOURNALING then
    if negb (has features EXCLUSIVE_LOCK) then Returned (- EINVAL)
    else Returned 0
  else if force_non_primary then AssertFailed
  else Returned 0.
Proof.
  unfold validate_features, RBD_FEATURE_FAST_DIFF, RBD_FEATURE_OBJECT_MAP,
    RBD_FEATURE_EXCLUSIVE_LOCK, RBD_FEATURE_JOURNALING.
  now rewrite !test_feature.
Qed.

Lemma known_bits_land (features : Z) :
  ~ unknown_bits features ->
  (Z.land features (not64 RBD_FEATURES_ALL) =? 0) = true.
Proof.
  intros H.
  destruct (Z.land features (not64 RBD_FEATURES_ALL) =? 0) eqn:E;
    [reflexivity |].
  now apply unknown_bits_iff in E.
Qed.

(** Masks the validator lets through. *)
Lemma validate_features_accepts (features : Z) (force_non_primary : bool) :
  ~ unknown_bits features ->
  dependencies_hold features ->
  (force_non_primary = true -> has features JOURNALING = true) ->
  validate_features features force_non_primary = Returned 0.
Proof.
  intros Hk (Hfd & Hom & Hj) Hnp.
  rewrite validate_features_has, known_bits_land by assumption.
  cbn [negb].
  destruct (has features FAST_DIFF), (has features OBJECT_MAP),
    (has features EXCLUSIVE_LOCK), (has features JOURNALING),
    force_non_primary; cbn; try reflexivity;
    solve [ discriminate Hfd; reflexivity
          | discriminate Hom; reflexivity
          | discriminate Hj; reflexivity
          | discriminate Hnp; reflexivity ].
Qed.

(** C5.  [validate_features] applies its checks in the order of the claim.
    A mask with a bit outside the feature vocabulary is rejected with
    [-ENOSYS] (Unsupported).  A mask of known bits that breaks one of
    FAST_DIFF => OBJECT_MAP, OBJECT_MAP => EXCLUSIVE_LOCK,
    JOURNALING => EXCLUSIVE_LOCK is rejected with [-EINVAL] (Invalid).  A mask
    that passes both checks and lacks JOURNALING while [force_non_primary]
    holds fails the assertion instead of returning.  In [send] the feature
    validator runs first: a negative return is delivered to the continuation
    with an empty trace (no cluster operation was issued), and the failed
    assertion aborts the request, again with an empty trace. *)
Theorem validate_features_rejects (features : Z) (force_non_primary : bool) :
  (unknown_bits features ->
   validate_features features force_non_primary = Returned (- ENOSYS))
  /\ (~ unknown_bits features -> ~ dependencies_hold features ->
      validate_features features force_non_primary = Returned (- EINVAL))
  /\ (~ unknown_bits features -> dependencies_hold features ->
      force_non_primary = true -> has features JOURNALING = false ->
      validate_features features force_non_primary = AssertFailed)
  /\ (forall (cluster : Cluster) (req : CreateRequest) (r : Z),
      m_features req = features ->
      m_force_non_primary req = force_non_primary ->
      validate_features features force_non_primary = Returned r ->
      r < 0 ->
      send cluster req = {| trace := []; final := Completed r |})
  /\ (forall (cluster : Cluster) (req : CreateRequest),
      m_features req = features ->
      m_force_non_primary req = force_non_primary ->
      validate_features features force_non_primary = AssertFailed ->
      send cluster req = {| trace := []; final := Aborted |}).
Proof.
  repeat split.
  - intros Hu. apply unknown_bits_iff in Hu.
    unfold validate_features. now rewrite Hu.
  - intros Hk Hdep.
    rewrite validate_features_has, known_bits_land by assumption.
    cbn [negb]. unfold dependencies_hold in Hdep.
    destruct (has features FAST_DIFF), (has features OBJECT_MAP),
      (has features EXCLUSIVE_LOCK), (has features JOURNALING);
      cbn; try reflexivity; exfalso; apply Hdep;
      repeat split; intros; solve [reflexivity | discriminate].
  - intros Hk (Hfd & Hom & Hj) -> Hnj.
    rewrite validate_features_has, known_bits_land, Hnj by assumption.
    cbn [negb].
    destruct (has features FAST_DIFF), (has features OBJECT_MAP),
      (has features EXCLUSIVE_LOCK); cbn; try reflexivity;
      solve [ discriminate Hfd; reflexivity
            | discriminate Hom; reflexivity ].
  - intros cluster req r <- <- Hv Hr. unfold send. rewrite Hv.
    destruct (Z.ltb_spec r 0); [reflexivity | lia].
  - intros cluster req <- <- Hv. unfold send. now rewrite Hv.
Qed.

End ValidatorProperties.

(** C5 at the upstream bit positions: bit 8 is no feature; FAST_DIFF alone
    (16) breaks a dependency; the empty mask with a non-primary image id
    fails the assertion. *)
Lemma validate_features_rejects_witness :
  validate_features (K := upstream) 256 false = Returned (- ENOSYS)
  /\ validate_features (K := upstream) 16 false = Returned (- EINVAL)
  /\ validate_features (K := upstream) 0 true = AssertFailed.
Proof.
  assert (Hknown : forall features,
            (Z.land features (not64 (RBD_FEATURES_ALL (K := upstream))) =? 0)
            = true -> ~ unknown_bits (K := upstream) features).
  { intros features H Hu. apply unknown_bits_iff in Hu. congruence. }
  split; [| split].
  - apply (validate_features_rejects (K := upstream) 256 false).
    exists 8. repeat split; try lia. intros []; discriminate.
  - apply (validate_features_rejects (K := upstream) 16 false).
    + apply Hknown. reflexivity.
    + intros (H & _). discriminate H. reflexivity.
  - apply (validate_features_rejects (K := upstream) 0 true).
    + apply Hknown. reflexivity.
    + repeat split; discriminate.
    + reflexivity.
    + reflexivity.
Defined.

(** C6.  [validate_order] returns [0] exactly on the orders of the closed
    interval [12, 25] and [-EDOM] (DomainError) on every other value; 11 and
    26 are rejected, 12 and 25 pass. *)
Theorem validate_order_range (order : Z) :
  (12 <= order <= 25 -> validate_order order = 0)
  /\ (~ 12 <= order <= 25 -> validate_order order = - EDOM)
  /\ validate_order 11 = - EDOM
  /\ validate_order 12 = 0
  /\ validate_order 25 = 0
  /\ validate_order 26 = - EDOM.
Proof.
  unfold validate_order. repeat split; try reflexivity; intros H;
    destruct (Z.gtb_spec order 25), (Z.ltb_spec order 12); cbn;
    solve [reflexivity | lia].
Qed.

Lemma validate_order_range_witness :
  validate_order 18 = 0 /\ validate_order 200 = - EDOM.
Proof.
  split.
  - apply (proj1 (validate_order_range 18)). lia.
  - apply (proj1 (proj2 (validate_order_range 200))). lia.
Defined.

(** [1ull << order] is [2 ^ order] where C++ defines it. *)
Lemma shl1_pow2 (order : Z) : 0 <= order < 64 -> shl1 order = 2 ^ order.
Proof.
  intros H. unfold shl1. rewrite Z.shiftl_1_l.
  apply Z.mod_small. split.
  - apply Z.pow_nonneg. lia.
  - apply Z.pow_lt_mono_r; lia.
Qed.

(** C7.  For an order the shift is defined on: [validate_striping] returns
    [-EINVAL] (Invalid) when exactly one of [stripe_unit], [stripe_count] is
    zero; when both are nonzero it returns [0] if [stripe_unit] divides
    [2 ^ order] and is at most [2 ^ order], and [-EINVAL] otherwise; when both
    are zero it returns [0]. *)
Theorem validate_striping_spec (order stripe_unit stripe_count : Z) :
  0 <= order < 64 ->
  ((stripe_unit = 0 /\ stripe_count <> 0)
   \/ (stripe_unit <> 0 /\ stripe_count = 0) ->
   validate_striping order stripe_unit stripe_count = - EINVAL)
  /\ (stripe_unit <> 0 -> stripe_count <> 0 ->
      (stripe_unit | 2 ^ order) /\ stripe_unit <= 2 ^ order ->
      validate_striping order stripe_unit stripe_count = 0)
  /\ (stripe_unit <> 0 -> stripe_count <> 0 ->
      ~ ((stripe_unit | 2 ^ order) /\ stripe_unit <= 2 ^ order) ->
      validate_striping order stripe_unit stripe_count = - EINVAL)
  /\ (stripe_unit = 0 -> stripe_count = 0 ->
      validate_striping order stripe_unit stripe_count = 0).
Proof.
  intros Horder. unfold validate_striping.
  rewrite (shl1_pow2 order Horder).
  destruct (Z.eqb_spec stripe_unit 0) as [Hu | Hu],
           (Z.eqb_spec stripe_count 0) as [Hc | Hc]; cbn;
    repeat split; intros; try reflexivity; try lia.
  - destruct (Z.eqb_spec (2 ^ order mod stripe_unit) 0) as [Hm | Hm],
             (Z.gtb_spec stripe_unit (2 ^ order)); cbn;
      try reflexivity; try lia.
    exfalso. apply Hm. apply Z.mod_divide; tauto.
  - destruct (Z.eqb_spec (2 ^ order mod stripe_unit) 0) as [Hm | Hm],
             (Z.gtb_spec stripe_unit (2 ^ order)); cbn;
      try reflexivity; try lia.
    exfalso. apply H1. split; [| lia]. now apply Z.mod_divide.
Qed.

(** C7 on the examples of the specification: a stripe unit of 3 does not
    divide 4096; a stripe count without a stripe unit; and a unit of 1024
    with order 12. *)
Lemma validate_striping_spec_witness :
  validate_striping 12 3 1 = - EINVAL
  /\ validate_striping 12 0 5 = - EINVAL
  /\ validate_striping 12 1024 4 = 0.
Proof.
  pose proof (validate_striping_spec 12 3 1 ltac:(lia)) as (_ & _ & H3 & _).
  pose proof (validate_striping_spec 12 0 5 ltac:(lia)) as (H0 & _).
  pose proof (validate_striping_spec 12 1024 4 ltac:(lia)) as (_ & Hk & _).
  split; [| split].
  - apply H3; try lia.
    intros [[q Hq] _]. change (2 ^ 12) with 4096 in Hq. lia.
  - apply H0. lia.
  - apply Hk; try lia.
    split; [exists 4; reflexivity | change (2 ^ 12) with 4096; lia].
Defined.

(** ** The option resolver *)

Ltac bits :=
  repeat first
    [ rewrite Z.lor_spec
    | rewrite Z.land_spec
    | rewrite testbit_not64 by lia
    | rewrite Z.pow2_bits_eqb by lia ].

Section ResolverProperties.
Context {K : RbdTypes}.
Variables (cct : Config) (ioctx : IoCtx) (image_name image_id : string)
  (size : Z) (image_options : ImageOptions)
  (non_primary_global_image_id primary_mirror_uuid : string) (r_saved0 : Z).

Let req : CreateRequest :=
  CreateRequest_new cct ioctx image_name image_id size image_options
    non_primary_global_image_id primary_mirror_uuid r_saved0.

(** The condition of line 190. *)
Let separate_data_pool : bool :=
  negb (given_data_pool cct image_options =? "")%string
  && negb (given_data_pool cct image_options =? get_pool_name ioctx)%string.

Lemma m_features_new :
  exists stripingv2 : bool,
    m_features req =
    let features := features_after_set_clear cct image_options in
    let features :=
      if separate_data_pool then Z.lor features RBD_FEATURE_DATA_POOL
      else Z.land features (not64 RBD_FEATURE_DATA_POOL) in
    if stripingv2 then Z.lor features RBD_FEATURE_STRIPINGV2
    else Z.land features (not64 RBD_FEATURE_STRIPINGV2).
Proof.
  unfold req, separate_data_pool, CreateRequest_new, given_data_pool.
  destruct (RBD_IMAGE_OPTION_DATA_POOL image_options) as [data_pool |];
    cbn [image_options_get]; unfold ENOENT; cbn [Z.eqb Z.opp negb];
    match goal with
    | |- context [negb (?a =? "")%string && negb (?a =? ?b)%string] =>
        destruct (negb (a =? "")%string && negb (a =? b)%string)
    end;
    match goal with
    | |- context [if ?c then Z.lor _ RBD_FEATURE_STRIPINGV2 else _] =>
        exists c; destruct c; reflexivity
    end.
Qed.

Lemma m_data_pool_new :
  m_data_pool req
  = if separate_data_pool then given_data_pool cct image_options else "".
Proof.
  unfold req, separate_data_pool, CreateRequest_new, given_data_pool.
  destruct (RBD_IMAGE_OPTION_DATA_POOL image_options) as [data_pool |];
    cbn [image_options_get]; unfold ENOENT; cbn [Z.eqb Z.opp negb];
    match goal with
    | |- context [negb (?a =? "")%string && negb (?a =? ?b)%string] =>
        destruct (negb (a =? "")%string && negb (a =? b)%string)
    end; reflexivity.
Qed.

(** A bit that both options name keeps the value it has in the base mask. *)
Lemma conflict_bit_after_set_clear (set clear n : Z) :
  RBD_IMAGE_OPTION_FEATURES_SET image_options = Some set ->
  RBD_IMAGE_OPTION_FEATURES_CLEAR image_options = Some clear ->
  0 <= n < 64 ->
  Z.testbit set n = true ->
  Z.testbit clear n = true ->
  Z.testbit (features_after_set_clear cct image_options) n
  = Z.testbit (base_features cct image_options) n.
Proof.
  intros Hset Hclear Hn Hs Hc.
  unfold features_after_set_clear, base_features.
  rewrite Hset, Hclear. cbn [image_options_get snd].
  destruct (RBD_IMAGE_OPTION_FEATURES image_options) as [features |];
    cbn [image_options_get Z.eqb negb]; bits; rewrite Hs, Hc;
    destruct (Z.ltb_spec n 64); try lia; cbn;
    now rewrite orb_false_r, andb_true_r.
Qed.

(** C1, amended.  A feature bit that is in both [set_bits] and [clear_bits]
    is left as the base mask has it (the caller's features, or the configured
    default): set in the resolved mask when it was set there, clear when it
    was clear.  DATA_POOL and STRIPINGV2 are excepted: the resolver derives
    them afterwards from the data pool and the stripe shape. *)
Theorem conflict_bit_keeps_base (set clear n : Z) :
  RBD_IMAGE_OPTION_FEATURES_SET image_options = Some set ->
  RBD_IMAGE_OPTION_FEATURES_CLEAR image_options = Some clear ->
  0 <= n < 64 ->
  Z.testbit set n = true ->
  Z.testbit clear n = true ->
  n <> feature_bit DATA_POOL ->
  n <> feature_bit STRIPINGV2 ->
  Z.testbit (m_features req) n
  = Z.testbit (base_features cct image_options) n.
Proof.
  intros Hset Hclear Hn Hs Hc Hdp Hsv.
  rewrite <- (conflict_bit_after_set_clear set clear n) by assumption.
  destruct m_features_new as [stripingv2 ->]. cbv zeta.
  pose proof (feature_bit_nonneg DATA_POOL).
  pose proof (feature_bit_nonneg STRIPINGV2).
  unfold RBD_FEATURE_DATA_POOL, RBD_FEATURE_STRIPINGV2.
  destruct stripingv2, separate_data_pool; bits;
    destruct (Z.ltb_spec n 64); try lia;
    destruct (Z.eqb_spec (feature_bit DATA_POOL) n); try lia;
    destruct (Z.eqb_spec (feature_bit STRIPINGV2) n); try lia;
    cbn; now rewrite ?orb_false_r, ?andb_true_r.
Qed.

(** The DATA_POOL bit of the resolved mask is the condition of line 190. *)
Lemma has_data_pool_new :
  has (m_features req) DATA_POOL = separate_data_pool.
Proof.
  destruct m_features_new as [stripingv2 ->]. cbv zeta. unfold has.
  pose proof (feature_bit_range DATA_POOL).
  pose proof (feature_bit_nonneg STRIPINGV2).
  assert (feature_bit STRIPINGV2 <> feature_bit DATA_POOL)
    by (intros E; apply feature_bit_inj in E; discriminate).
  unfold RBD_FEATURE_DATA_POOL, RBD_FEATURE_STRIPINGV2.
  destruct stripingv2, separate_data_pool; bits;
    destruct (Z.ltb_spec (feature_bit DATA_POOL) 64); try lia;
    destruct (Z.eqb_spec (feature_bit STRIPINGV2) (feature_bit DATA_POOL));
    try lia;
    rewrite Z.eqb_refl; cbn;
    now rewrite ?orb_true_r, ?andb_false_r.
Qed.

(** C9.  The resolved mask has DATA_POOL exactly when the data-pool name the
    request was given (the option, or the configured default) is non-empty
    and differs from the name of the metadata pool; then the name is kept,
    otherwise [m_data_pool] is blank.  The header operation [create_image]
    issues carries the prefix literal, then the metadata pool id and a dot
    exactly when [m_data_pool_id] is not [-1] (a data-pool id was resolved),
    then the image id. *)
Theorem data_pool_bit_and_prefix :
  let given := given_data_pool cct image_options in
  (has (m_features req) DATA_POOL = true
   <-> given <> "" /\ given <> get_pool_name ioctx)
  /\ (has (m_features req) DATA_POOL = true -> m_data_pool req = given)
  /\ (has (m_features req) DATA_POOL = false -> m_data_pool req = "")
  /\ (forall (cluster : Cluster) (r : CreateRequest),
      m_data_pool_id r <> -1 ->
      exists k,
        create_image cluster r =
        emit (Issue (OpCreateImage (m_size r) (m_order r) (m_features r)
                       (RBD_DATA_PREFIX
                        ++ (stringify (get_id (m_ioctx r)) ++ ".")
                        ++ m_image_id r)%string
                       (m_data_pool_id r))) k)
  /\ (forall (cluster : Cluster) (r : CreateRequest),
      m_data_pool_id r = -1 -> m_data_pool r = "" ->
      exists k,
        create_image cluster r =
        emit (Issue (OpCreateImage (m_size r) (m_order r) (m_features r)
                       (RBD_DATA_PREFIX ++ m_image_id r)%string
                       (m_data_pool_id r))) k).
Proof.
  cbv zeta. rewrite has_data_pool_new, m_data_pool_new.
  fold separate_data_pool. unfold separate_data_pool.
  repeat split.
  - apply andb_prop in H as [H _]. apply negb_true_iff in H.
    now apply String.eqb_neq.
  - apply andb_prop in H as [_ H]. apply negb_true_iff in H.
    now apply String.eqb_neq.
  - intros [H1 H2]. apply String.eqb_neq in H1, H2. now rewrite H1, H2.
  - now intros ->.
  - now intros ->.
  - intros cluster r Hid. unfold create_image, data_object_prefix, aio.
    destruct (Z.eqb_spec (m_data_pool_id r) (-1)); [contradiction |].
    rewrite orb_true_r. cbn [negb]. eexists. reflexivity.
  - intros cluster r Hid Hname. unfold create_image, data_object_prefix, aio.
    rewrite Hid, Hname. cbn. eexists. reflexivity.
Qed.

(** C10.  The order option goes through [get_image_option], which keeps the
    low 8 bits of the 64-bit value: for an option value [v] the member is
    [v mod 256] when that is not zero, so it is [v mod 256] that
    [validate_order] sees and accepts when it lies in [12, 25]; when
    [v mod 256] is zero the member is the configured default order, itself
    converted to [uint8_t]. *)
Theorem order_option_truncated (v : Z) :
  RBD_IMAGE_OPTION_ORDER image_options = Some v ->
  get_image_option (RBD_IMAGE_OPTION_ORDER image_options) 0 = (0, v mod 256)
  /\ (v mod 256 <> 0 -> m_order req = v mod 256)
  /\ (12 <= v mod 256 <= 25 -> validate_order (m_order req) = 0)
  /\ (v mod 256 = 0 -> m_order req = to_uint8 (rbd_default_order cct))
  /\ (v mod 256 = 0 -> 0 <= rbd_default_order cct < 256 ->
      m_order req = rbd_default_order cct).
Proof.
  intros Hv.
  assert (Hget : get_image_option (RBD_IMAGE_OPTION_ORDER image_options) 0
                 = (0, v mod 256)) by (rewrite Hv; reflexivity).
  assert (Horder : m_order req
                   = if v mod 256 =? 0 then to_uint8 (rbd_default_order cct)
                     else v mod 256).
  { unfold req, CreateRequest_new.
    match goal with
    | |- context [if ?c then (_, Z.lor _ RBD_FEATURE_DATA_POOL) else _] =>
        destruct c
    end; cbn [m_order]; rewrite Hget; reflexivity. }
  rewrite Horder. split; [exact Hget |].
  destruct (Z.eqb_spec (v mod 256) 0) as [Hz | Hz];
    (split; [| split; [| split]]); intros; try reflexivity; try lia.
  - unfold to_uint8. change (2 ^ 8) with 256. now apply Z.mod_small.
  - unfold validate_order.
    destruct (Z.gtb_spec (v mod 256) 25), (Z.ltb_spec (v mod 256) 12);
      cbn; solve [reflexivity | lia].
Qed.

End ResolverProperties.

(** C1 at a concrete request: EXCLUSIVE_LOCK and OBJECT_MAP requested (12),
    OBJECT_MAP (bit 3) both set and cleared. *)
Lemma conflict_bit_keeps_base_witness :
  Z.testbit
    (m_features
       (CreateRequest_new (K := upstream) default_config rbd_pool "a" "I1"
          4194304 (with_features (Some 12) (Some 8) (Some 8)) "" "" 0)) 3
  = Z.testbit
      (base_features default_config
         (with_features (Some 12) (Some 8) (Some 8))) 3.
Proof.
  apply (conflict_bit_keeps_base (K := upstream) default_config rbd_pool
           "a" "I1" 4194304 (with_features (Some 12) (Some 8) (Some 8))
           "" "" 0 8 8 3).
  - reflexivity.
  - reflexivity.
  - lia.
  - reflexivity.
  - reflexivity.
  - discriminate.
  - discriminate.
Defined.

(** C1 as stated fails: OBJECT_MAP is in [set_bits] and in [clear_bits], the
    caller's features have it, and the resolved mask still has it. *)
Lemma conflict_bit_survives :
  has (K := upstream) 8 OBJECT_MAP = true
  /\ has (K := upstream) 8 OBJECT_MAP = true
  /\ has (K := upstream)
       (m_features
          (CreateRequest_new (K := upstream) default_config rbd_pool "a" "I1"
             4194304 (with_features (Some 12) (Some 8) (Some 8)) "" "" 0))
       OBJECT_MAP = true.
Proof. repeat split; vm_compute; reflexivity. Qed.

(** C10 at 268 and at 256: 268 is outside [12, 25] and is rejected when
    validated as it is, but the request validates 12; 256 leaves the default
    order 22. *)
Lemma order_option_truncated_witness :
  validate_order 268 = - EDOM
  /\ m_order
       (CreateRequest_new (K := upstream) default_config rbd_pool "a" "I1"
          4194304 (with_order 268) "" "" 0) = 268 mod 256
  /\ validate_order
       (m_order
          (CreateRequest_new (K := upstream) default_config rbd_pool "a" "I1"
             4194304 (with_order 268) "" "" 0)) = 0
  /\ m_order
       (CreateRequest_new (K := upstream) default_config rbd_pool "a" "I1"
          4194304 (with_order 256) "" "" 0) = 22.
Proof.
  pose proof (order_option_truncated (K := upstream) default_config rbd_pool
                "a" "I1" 4194304 (with_order 268) "" "" 0 268 eq_refl)
    as (_ & H268 & Hvalid & _).
  pose proof (order_option_truncated (K := upstream) default_config rbd_pool
                "a" "I1" 4194304 (with_order 256) "" "" 0 256 eq_refl)
    as (_ & _ & _ & _ & H256).
  split; [reflexivity | split; [| split]].
  - apply H268. discriminate.
  - apply Hvalid. change (268 mod 256) with 12. lia.
  - apply H256; [reflexivity | cbn; lia].
Defined.

(** ** The rollback pipeline *)

Section RollbackProperties.
Context {K : RbdTypes}.
Variable cluster : Cluster.

Lemma test_has (features : Z) :
  test features RBD_FEATURE_OBJECT_MAP = has features OBJECT_MAP
  /\ test features RBD_FEATURE_JOURNALING = has features JOURNALING.
Proof. split; apply test_feature. Qed.

(** Every rollback entry ends by delivering [m_r_saved], whatever the
    rollback operations return. *)
Lemma final_remove_id_object (req : CreateRequest) :
  final (remove_id_object cluster req) = Completed (m_r_saved req).
Proof.
  unfold remove_id_object, aio, handle_remove_id_object.
  now destruct (_ <? 0).
Qed.

Lemma final_remove_from_dir (req : CreateRequest) :
  final (remove_from_dir cluster req) = Completed (m_r_saved req).
Proof.
  unfold remove_from_dir, aio, handle_remove_from_dir.
  destruct (_ <? 0); apply final_remove_id_object.
Qed.

Lemma final_remove_header_object (req : CreateRequest) :
  final (remove_header_object cluster req) = Completed (m_r_saved req).
Proof.
  unfold remove_header_object, aio, handle_remove_header_object.
  destruct (_ <? 0); apply final_remove_from_dir.
Qed.

Lemma final_remove_object_map (req : CreateRequest) :
  final (remove_object_map cluster req) = Completed (m_r_saved req).
Proof.
  unfold remove_object_map, aio, handle_remove_object_map.
  destruct (negb _); [apply final_remove_header_object |].
  destruct (_ <? 0); apply final_remove_header_object.
Qed.

Lemma final_journal_remove (req : CreateRequest) :
  final (journal_remove cluster req) = Completed (m_r_saved req).
Proof.
  unfold journal_remove, aio, handle_journal_remove.
  destruct (negb _); [apply final_remove_object_map |].
  destruct (_ <? 0); apply final_remove_object_map.
Qed.

(** Every rollback entry runs all the steps after it, whatever they return. *)
Lemma ops_remove_id_object (req : CreateRequest) :
  ops_of (trace (remove_id_object cluster req)) = [OpRemoveIdObject].
Proof.
  unfold remove_id_object, aio, handle_remove_id_object.
  now destruct (_ <? 0).
Qed.

Lemma ops_remove_from_dir (req : CreateRequest) :
  ops_of (trace (remove_from_dir cluster req))
  = [OpRemoveFromDir; OpRemoveIdObject].
Proof.
  unfold remove_from_dir, aio, handle_remove_from_dir.
  destruct (_ <? 0); cbn [ops_of trace emit lderr]; now rewrite ops_remove_id_object.
Qed.

Lemma ops_remove_header_object (req : CreateRequest) :
  ops_of (trace (remove_header_object cluster req)) = rollback_from_header.
Proof.
  unfold remove_header_object, aio, handle_remove_header_object.
  destruct (_ <? 0); cbn [ops_of trace emit lderr]; now rewrite ops_remove_from_dir.
Qed.

Lemma ops_remove_object_map (req : CreateRequest) :
  ops_of (trace (remove_object_map cluster req))
  = rollback_from_object_map (m_features req).
Proof.
  unfold remove_object_map, aio, handle_remove_object_map,
    rollback_from_object_map.
  rewrite (proj1 (test_has _)).
  destruct (has _ OBJECT_MAP); cbn [negb];
    [| apply ops_remove_header_object].
  destruct (_ <? 0); cbn [ops_of trace emit lderr]; now rewrite ops_remove_header_object.
Qed.

Lemma ops_journal_remove (req : CreateRequest) :
  ops_of (trace (journal_remove cluster req))
  = rollback_from_journal (m_features req).
Proof.
  unfold journal_remove, aio, handle_journal_remove, rollback_from_journal.
  rewrite (proj2 (test_has _)).
  destruct (has _ JOURNALING); cbn [negb];
    [| apply ops_remove_object_map].
  destruct (_ <? 0); cbn [ops_of trace emit lderr]; now rewrite ops_remove_object_map.
Qed.

(** A rollback step that fails leaves its line in the log. *)
Lemma rollback_failures_logged (req : CreateRequest) :
  (reply_result (completion cluster OpRemoveIdObject) < 0 ->
   In (LogErr "error cleaning up id object after creation failed")
      (trace (remove_id_object cluster req)))
  /\ (reply_result (completion cluster OpRemoveFromDir) < 0 ->
      In (LogErr ("error cleaning up image from rbd_directory object "
                  ++ "after creation failed"))
         (trace (remove_from_dir cluster req)))
  /\ (reply_result (completion cluster OpRemoveHeaderObject) < 0 ->
      In (LogErr "error cleaning up image header after creation failed")
         (trace (remove_header_object cluster req)))
  /\ (has (m_features req) OBJECT_MAP = true ->
      reply_result (completion cluster OpRemoveObjectMap) < 0 ->
      In (LogErr "error cleaning up object map after creation failed")
         (trace (remove_object_map cluster req)))
  /\ (has (m_features req) JOURNALING = true ->
      reply_result (completion cluster OpJournalRemove) < 0 ->
      In (LogErr "error cleaning up journal after creation failed")
         (trace (journal_remove cluster req))).
Proof.
  unfold journal_remove, remove_object_map, remove_header_object,
    remove_from_dir, remove_id_object, aio, handle_journal_remove,
    handle_remove_object_map, handle_remove_header_object,
    handle_remove_from_dir, handle_remove_id_object.
  rewrite (proj1 (test_has _)), (proj2 (test_has _)).
  repeat split; intros;
    repeat match goal with
           | H : has _ _ = true |- _ => rewrite H; clear H
           | H : ?r < 0 |- _ => apply Z.ltb_lt in H; rewrite H; clear H
           end; cbn; auto.
Qed.

End RollbackProperties.

(** ** Forward operations and their undoing *)

Lemma undone_snoc (done : list Op) (op : Op) :
  undone (done ++ [op]) = undo op ++ undone done.
Proof. unfold undone. rewrite rev_unit. reflexivity. Qed.

Lemma filter_all (p : Op -> bool) (l : list Op) :
  forallb p l = true ->
  filter p l = l /\ filter (fun op => negb (p op)) l = [].
Proof.
  induction l as [| op l IH]; cbn; [easy |].
  intros H. apply andb_prop in H as [Hop Hl].
  destruct (IH Hl) as [-> ->]. now rewrite Hop.
Qed.

Lemma rolled_back_nil (done : list Op) : rolled_back done [].
Proof. split; [reflexivity | intros H; now contradiction H]. Qed.

Lemma rolled_back_forward (done : list Op) (op : Op) (ops : list Op) :
  is_rollback op = false ->
  rolled_back (done ++ [op]) ops ->
  rolled_back done (op :: ops).
Proof.
  intros Hop [Hsplit Hundo]. unfold rolled_back. cbn [filter].
  rewrite Hop. cbn [negb]. split.
  - cbn. now rewrite <- Hsplit.
  - intros Hne. rewrite (Hundo Hne). now rewrite <- app_assoc.
Qed.

(** After the operation [op] failed, the rollback is the undoing of what was
    done before it. *)
Lemma rolled_back_rollback (done : list Op) (op : Op) (ops : list Op) :
  forallb is_rollback ops = true ->
  ops = undone done ->
  rolled_back (done ++ [op]) ops.
Proof.
  intros Hall Hops. destruct (filter_all _ _ Hall) as [Hrb Hfwd].
  unfold rolled_back. rewrite Hrb, Hfwd. split; [reflexivity |].
  intros _. now rewrite app_nil_r, removelast_last.
Qed.

Section ForwardProperties.
Context {K : RbdTypes}.
Variable cluster : Cluster.

Lemma rollback_from_journal_all (features : Z) :
  forallb is_rollback (rollback_from_journal features) = true.
Proof.
  unfold rollback_from_journal, rollback_from_object_map.
  now destruct (has _ JOURNALING), (has _ OBJECT_MAP).
Qed.

Lemma rollback_from_object_map_all (features : Z) :
  forallb is_rollback (rollback_from_object_map features) = true.
Proof.
  unfold rollback_from_object_map. now destruct (has _ OBJECT_MAP).
Qed.

(** The rollback entry taken on a failing branch: its operations are the
    undoing of [done]. *)
Ltac failing_branch :=
  cbn [lderr emit trace ops_of];
  rewrite ?(ops_journal_remove cluster), ?(ops_remove_object_map cluster),
    ?(ops_remove_header_object cluster), ?(ops_remove_from_dir cluster),
    ?(ops_remove_id_object cluster);
  apply rolled_back_rollback;
  [ solve [ apply rollback_from_journal_all
          | apply rollback_from_object_map_all
          | reflexivity ]
  | cbn [m_features set_r_saved set_mirror_image set_mirror_mode];
    congruence ].

Ltac forward_op :=
  cbn [aio emit trace ops_of]; apply rolled_back_forward; [reflexivity |].

#[local] Abbreviation ops r := (ops_of (trace r)).

Lemma rolled_back_send_watcher_notification done req :
  rolled_back done (ops (send_watcher_notification cluster req)).
Proof.
  unfold send_watcher_notification. forward_op. apply rolled_back_nil.
Qed.

Lemma rolled_back_mirror_image_enable done req :
  undone done = rollback_from_journal (m_features req) ->
  rolled_back done (ops (mirror_image_enable cluster req)).
Proof.
  intros Hdone. unfold mirror_image_enable. forward_op.
  unfold handle_mirror_image_enable.
  destruct (_ <? 0); [failing_branch |].
  apply rolled_back_send_watcher_notification.
Qed.

Lemma rolled_back_fetch_mirror_image done req :
  undone done = rollback_from_journal (m_features req) ->
  rolled_back done (ops (fetch_mirror_image cluster req)).
Proof.
  intros Hdone. unfold fetch_mirror_image.
  destruct (negb _ && negb _); [apply rolled_back_nil |].
  forward_op. unfold handle_fetch_mirror_image.
  assert (Hdone' : undone (done ++ [OpFetchMirrorImage])
                   = rollback_from_journal (m_features req))
    by (now rewrite undone_snoc).
  destruct (_ && _); [failing_branch |].
  destruct (_ =? 0); [| now apply rolled_back_mirror_image_enable].
  destruct (_ <? 0); [failing_branch |].
  destruct (_ =? _); [apply rolled_back_nil |].
  now apply rolled_back_mirror_image_enable.
Qed.

Lemma rolled_back_journal_create done req :
  undone done = rollback_from_object_map (m_features req) ->
  has (m_features req) JOURNALING = true ->
  rolled_back done (ops (journal_create cluster req)).
Proof.
  intros Hdone Hj. unfold journal_create. forward_op.
  unfold handle_journal_create.
  destruct (_ <? 0); [failing_branch |].
  apply rolled_back_fetch_mirror_image.
  rewrite undone_snoc, Hdone. unfold rollback_from_journal. now rewrite Hj.
Qed.

Lemma rolled_back_fetch_mirror_mode done req :
  undone done = rollback_from_object_map (m_features req) ->
  rolled_back done (ops (fetch_mirror_mode cluster req)).
Proof.
  intros Hdone. unfold fetch_mirror_mode.
  rewrite (proj2 (test_has _)).
  destruct (has _ JOURNALING) eqn:Hj; cbn [negb]; [| apply rolled_back_nil].
  forward_op. unfold handle_fetch_mirror_mode.
  assert (Hnext : forall mode,
            rolled_back (done ++ [OpFetchMirrorMode])
              (ops (journal_create cluster (set_mirror_mode req mode)))).
  { intros mode. apply rolled_back_journal_create; [| assumption].
    now rewrite undone_snoc. }
  destruct (_ && _); [failing_branch |].
  destruct (_ =? 0).
  - destruct (_ <? 0); [failing_branch |].
    destruct (_ || _); [apply Hnext | failing_branch].
  - destruct (_ || _); [apply Hnext | failing_branch].
Qed.

Lemma rolled_back_object_map_resize done req :
  undone done = rollback_from_header ->
  rolled_back done (ops (object_map_resize cluster req)).
Proof.
  intros Hdone. unfold object_map_resize.
  rewrite (proj1 (test_has _)).
  destruct (has _ OBJECT_MAP) eqn:Hom; cbn [negb].
  - forward_op. unfold handle_object_map_resize.
    destruct (_ <? 0); [failing_branch |].
    apply rolled_back_fetch_mirror_mode.
    rewrite undone_snoc, Hdone. unfold rollback_from_object_map.
    now rewrite Hom.
  - apply rolled_back_fetch_mirror_mode.
    unfold rollback_from_object_map. now rewrite Hom.
Qed.

Lemma rolled_back_set_stripe_unit_count done req :
  undone done = rollback_from_header ->
  rolled_back done (ops (set_stripe_unit_count cluster req)).
Proof.
  intros Hdone. unfold set_stripe_unit_count.
  destruct (_ || _); [now apply rolled_back_object_map_resize |].
  forward_op. unfold handle_set_stripe_unit_count.
  destruct (_ <? 0); [failing_branch |].
  apply rolled_back_object_map_resize. now rewrite undone_snoc.
Qed.

Lemma rolled_back_create_image done req :
  undone done = [OpRemoveFromDir; OpRemoveIdObject] ->
  rolled_back done (ops (create_image cluster req)).
Proof.
  intros Hdone. unfold create_image.
  destruct (_ || _); [| apply rolled_back_nil].
  forward_op. unfold handle_create_image.
  destruct (_ <? 0); [failing_branch |].
  apply rolled_back_set_stripe_unit_count.
  now rewrite undone_snoc, Hdone.
Qed.

Lemma rolled_back_add_image_to_directory done req :
  undone done = [OpRemoveIdObject] ->
  rolled_back done (ops (add_image_to_directory cluster req)).
Proof.
  intros Hdone. unfold add_image_to_directory. forward_op.
  unfold handle_add_image_to_directory.
  destruct (_ <? 0); [failing_branch |].
  apply rolled_back_create_image. now rewrite undone_snoc, Hdone.
Qed.

Lemma rolled_back_create_id_object done req :
  undone done = [] ->
  rolled_back done (ops (create_id_object cluster req)).
Proof.
  intros Hdone. unfold create_id_object. forward_op.
  unfold handle_create_id_object.
  destruct (_ <? 0); [apply rolled_back_nil |].
  apply rolled_back_add_image_to_directory. now rewrite undone_snoc, Hdone.
Qed.

Lemma rolled_back_validate_pool done req :
  undone done = [] ->
  rolled_back done (ops (validate_pool cluster req)).
Proof.
  intros Hdone. unfold validate_pool.
  destruct (negb _); [now apply rolled_back_create_id_object |].
  forward_op. unfold handle_validate_pool.
  destruct (_ =? 0).
  { apply rolled_back_create_id_object. now rewrite undone_snoc. }
  destruct (_ && _); [apply rolled_back_nil |].
  forward_op.
  destruct (_ =? _); [apply rolled_back_nil |].
  destruct (_ <? 0); [apply rolled_back_nil |].
  forward_op.
  apply rolled_back_create_id_object. now rewrite !undone_snoc, Hdone.
Qed.

Lemma rolled_back_send req :
  rolled_back [] (ops (send cluster req)).
Proof.
  unfold send.
  destruct (validate_features _ _) as [r |]; [| apply rolled_back_nil].
  destruct (r <? 0); [apply rolled_back_nil |].
  destruct (_ <? 0); [apply rolled_back_nil |].
  destruct (_ <? 0); [apply rolled_back_nil |].
  unfold validate_data_pool.
  destruct (negb _); cbn [emit_all trace app].
  - cbn [Z.ltb Z.compare].
    destruct (negb _); [apply rolled_back_nil |].
    now apply rolled_back_validate_pool.
  - destruct (_ <? 0); cbn [emit_all trace app ops_of].
    + replace (- ENOENT <? 0) with true by reflexivity.
      apply rolled_back_forward; [reflexivity | apply rolled_back_nil].
    + cbn [Z.ltb Z.compare].
      apply rolled_back_forward; [reflexivity |].
      destruct (negb _); [apply rolled_back_nil |].
      now apply rolled_back_validate_pool.
Qed.

End ForwardProperties.

(** ** A failed step is followed by its rollback *)

Section FailedSteps.
Context {K : RbdTypes}.
Variable cluster : Cluster.

#[local] Abbreviation ops r := (ops_of (trace r)).

Lemma enters_nil features : enters cluster features [].
Proof. intros op entry []. Qed.

Lemma rollback_has_no_entry features op :
  is_rollback op = true -> rollback_entry features op = None.
Proof. destruct op; cbn; solve [reflexivity | discriminate]. Qed.

Lemma enters_rollback features l :
  forallb is_rollback l = true -> enters cluster features l.
Proof.
  intros Hall op entry Hin _ Hentry.
  rewrite forallb_forall in Hall.
  rewrite (rollback_has_no_entry features op (Hall op Hin)) in Hentry.
  discriminate Hentry.
Qed.

Lemma enters_step features op l :
  is_rollback op = false ->
  (failed cluster op ->
   forall entry, rollback_entry features op = Some entry ->
   forallb is_rollback l = true /\ l = entry) ->
  enters cluster features l ->
  enters cluster features (op :: l).
Proof.
  intros Hop Hhere Hlater op' entry Hin Hfailed Hentry.
  cbn [filter]. rewrite Hop. cbn [negb].
  destruct Hin as [<- | Hin].
  - destruct (Hhere Hfailed entry Hentry) as [Hall <-].
    destruct (filter_all _ _ Hall) as [-> ->].
    split; [reflexivity | now exists []].
  - destruct (Hlater op' entry Hin Hfailed Hentry) as [Hrb [before Hfwd]].
    split; [exact Hrb |]. exists (op :: before). now rewrite Hfwd.
Qed.

(** The operations of the rollback entries, by the features of the request
    the failing handler passes on. *)
Ltac rollback_list :=
  cbn [lderr emit trace ops_of];
  rewrite ?(ops_journal_remove cluster), ?(ops_remove_object_map cluster),
    ?(ops_remove_header_object cluster), ?(ops_remove_from_dir cluster),
    ?(ops_remove_id_object cluster);
  unfold rollback_from_journal, rollback_from_object_map,
    rollback_from_header;
  cbn [m_features set_r_saved set_mirror_image set_mirror_mode].

Ltac all_rollback :=
  repeat match goal with
         | |- context [has ?f ?x] => destruct (has f x)
         end; reflexivity.

(** The step at the head failed and its handler entered the rollback. *)
Ltac here_failing :=
  intros _ entry Hentry; cbn [rollback_entry] in Hentry;
  injection Hentry as <-; rollback_list;
  split; [all_rollback | reflexivity].

(** The step at the head did not fail, or calls for no rollback. *)
Ltac here_not_failed :=
  first
    [ intros _ entry Hentry; discriminate Hentry
    | intros Hfailed; exfalso;
      repeat match goal with c := _ |- _ => subst c end;
      cbn [failed] in Hfailed;
      unfold fetch_mirror_mode_failed, fetch_mirror_image_failed in Hfailed;
      unfold ENOENT in *; intuition lia ].

Ltac later_rollback := rollback_list; apply enters_rollback; all_rollback.

Ltac later_stage L :=
  match goal with
  | |- enters _ _ (ops_of (trace (_ _ ?r))) => exact (L r)
  | |- enters _ _ (ops_of (trace (_ _ ?r))) => apply (L r); eassumption
  end.

Ltac step L :=
  first
    [ exfalso; unfold ENOENT in *; lia
    | cbn [aio emit trace ops_of]; apply enters_step;
      [ reflexivity
      | first [here_failing | here_not_failed]
      | first [later_rollback | later_stage L | apply enters_nil] ] ].

Lemma enters_send_watcher_notification req :
  enters cluster (m_features req) (ops (send_watcher_notification cluster req)).
Proof.
  unfold send_watcher_notification, handle_watcher_notify, complete.
  cbn [aio emit trace ops_of on_finish]. apply enters_step;
    [reflexivity | intros _ entry Hentry; discriminate Hentry
    | apply enters_nil].
Qed.

Lemma enters_mirror_image_enable req :
  enters cluster (m_features req) (ops (mirror_image_enable cluster req)).
Proof.
  unfold mirror_image_enable, handle_mirror_image_enable.
  cbn [aio emit trace ops_of].
  lazymatch goal with
  | |- context [reply_result ?c <? 0] =>
      destruct (Z.ltb_spec (reply_result c) 0)
  end; step enters_send_watcher_notification.
Qed.

Lemma enters_fetch_mirror_image req :
  enters cluster (m_features req) (ops (fetch_mirror_image cluster req)).
Proof.
  unfold fetch_mirror_image.
  destruct (negb _ && negb _); [apply enters_nil |].
  unfold handle_fetch_mirror_image. cbn [aio emit trace ops_of].
  set (c := completion cluster OpFetchMirrorImage).
  destruct (Z.ltb_spec (reply_result c) 0),
           (Z.eqb_spec (reply_result c) (- ENOENT)),
           (Z.eqb_spec (reply_result c) 0),
           (Z.ltb_spec (finish_result c) 0);
    cbn [andb negb];
    try (destruct (_ =? MIRROR_IMAGE_STATE_ENABLED));
    cbn [on_finish trace ops_of];
    step enters_mirror_image_enable.
Qed.

Lemma enters_journal_create req :
  enters cluster (m_features req) (ops (journal_create cluster req)).
Proof.
  unfold journal_create, handle_journal_create.
  cbn [aio emit trace ops_of].
  lazymatch goal with
  | |- context [reply_result ?c <? 0] =>
      destruct (Z.ltb_spec (reply_result c) 0)
  end; step enters_fetch_mirror_image.
Qed.

Lemma enters_fetch_mirror_mode req :
  enters cluster (m_features req) (ops (fetch_mirror_mode cluster req)).
Proof.
  unfold fetch_mirror_mode.
  destruct (negb _); [apply enters_nil |].
  unfold handle_fetch_mirror_mode. cbn [aio emit trace ops_of].
  set (c := completion cluster OpFetchMirrorMode).
  pose proof (Z.eqb_refl MIRROR_MODE_DISABLED) as Hd.
  destruct (Z.ltb_spec (reply_result c) 0),
           (Z.eqb_spec (reply_result c) (- ENOENT)),
           (Z.eqb_spec (reply_result c) 0),
           (Z.ltb_spec (finish_result c) 0),
           (Z.eqb_spec (finish_value c) MIRROR_MODE_DISABLED),
           (Z.eqb_spec (finish_value c) MIRROR_MODE_IMAGE),
           (Z.eqb_spec (finish_value c) MIRROR_MODE_POOL);
    rewrite ?Hd; cbn [andb negb orb];
    step enters_journal_create.
Qed.

Lemma enters_object_map_resize req :
  enters cluster (m_features req) (ops (object_map_resize cluster req)).
Proof.
  unfold object_map_resize.
  destruct (negb _); [apply enters_fetch_mirror_mode |].
  unfold handle_object_map_resize. cbn [aio emit trace ops_of].
  lazymatch goal with
  | |- context [reply_result ?c <? 0] =>
      destruct (Z.ltb_spec (reply_result c) 0)
  end; step enters_fetch_mirror_mode.
Qed.

Lemma enters_set_stripe_unit_count req :
  enters cluster (m_features req) (ops (set_stripe_unit_count cluster req)).
Proof.
  unfold set_stripe_unit_count.
  destruct (_ || _); [apply enters_object_map_resize |].
  unfold handle_set_stripe_unit_count. cbn [aio emit trace ops_of].
  lazymatch goal with
  | |- context [reply_result ?c <? 0] =>
      destruct (Z.ltb_spec (reply_result c) 0)
  end; step enters_object_map_resize.
Qed.

Lemma enters_create_image req :
  enters cluster (m_features req) (ops (create_image cluster req)).
Proof.
  unfold create_image.
  destruct (_ || _); [| apply enters_nil].
  unfold handle_create_image. cbn [aio emit trace ops_of].
  lazymatch goal with
  | |- context [reply_result ?c <? 0] =>
      destruct (Z.ltb_spec (reply_result c) 0)
  end; step enters_set_stripe_unit_count.
Qed.

Lemma enters_add_image_to_directory req :
  enters cluster (m_features req) (ops (add_image_to_directory cluster req)).
Proof.
  unfold add_image_to_directory, handle_add_image_to_directory.
  cbn [aio emit trace ops_of].
  lazymatch goal with
  | |- context [reply_result ?c <? 0] =>
      destruct (Z.ltb_spec (reply_result c) 0)
  end; step enters_create_image.
Qed.

Lemma enters_create_id_object req :
  enters cluster (m_features req) (ops (create_id_object cluster req)).
Proof.
  unfold create_id_object, handle_create_id_object.
  cbn [aio emit trace ops_of].
  destruct (_ <? 0); cbn [lderr emit on_finish trace ops_of];
    step enters_add_image_to_directory.
Qed.

Lemma enters_validate_pool req :
  enters cluster (m_features req) (ops (validate_pool cluster req)).
Proof.
  unfold validate_pool.
  destruct (negb _); [apply enters_create_id_object |].
  unfold handle_validate_pool. cbn [aio emit trace ops_of].
  destruct (_ =? 0); [step enters_create_id_object |].
  destruct (_ && _); cbn [lderr emit on_finish trace ops_of];
    [step enters_create_id_object |].
  apply enters_step;
    [reflexivity | intros _ entry Hentry; discriminate Hentry |].
  cbn [aio emit trace ops_of].
  destruct (_ =? _); cbn [lderr emit on_finish trace ops_of];
    [step enters_create_id_object |].
  destruct (_ <? 0); cbn [lderr emit on_finish trace ops_of];
    [step enters_create_id_object |].
  apply enters_step;
    [reflexivity | intros _ entry Hentry; discriminate Hentry |].
  step enters_create_id_object.
Qed.

Lemma enters_send req :
  enters cluster (m_features req) (ops (send cluster req)).
Proof.
  unfold send.
  destruct (validate_features _ _) as [r |]; [| apply enters_nil].
  destruct (r <? 0); [apply enters_nil |].
  destruct (validate_order _ <? 0); [apply enters_nil |].
  destruct (validate_striping _ _ _ <? 0); [apply enters_nil |].
  unfold validate_data_pool.
  destruct (negb (test _ _)); cbn [emit_all trace app].
  - cbn [Z.ltb Z.compare].
    destruct (negb _); [apply enters_nil |].
    exact (enters_validate_pool (set_data_pool_id req _)).
  - destruct (reply_result _ <? 0); cbn [emit_all trace app ops_of].
    + replace (- ENOENT <? 0) with true by reflexivity.
      apply enters_step;
        [reflexivity | intros _ entry Hentry; discriminate Hentry
        | apply enters_nil].
    + cbn [Z.ltb Z.compare].
      apply enters_step;
        [reflexivity | intros _ entry Hentry; discriminate Hentry |].
      destruct (negb _); [apply enters_nil |].
      exact (enters_validate_pool (set_data_pool_id req _)).
Qed.

End FailedSteps.

(** ** Failures of the forward pipeline *)

Section FailureProperties.
Context {K : RbdTypes}.
Variable cluster : Cluster.

#[local] Abbreviation ops r := (ops_of (trace r)).

Ltac decide_tests :=
  repeat match goal with
         | H : ?r < 0 |- context [?r <? 0] =>
             rewrite (proj2 (Z.ltb_lt r 0) H)
         | H : 0 <= ?r |- context [?r <? 0] =>
             rewrite (proj2 (Z.ltb_ge r 0) H)
         | H : ?a <> ?b |- context [?a =? ?b] =>
             rewrite (proj2 (Z.eqb_neq a b) H)
         | H : ?a = ?b |- context [?a =? ?b] =>
             rewrite (proj2 (Z.eqb_eq a b) H)
         end;
  cbn [andb orb negb lderr emit trace ops_of final].

(** C4.  The run of [send] is a sequence of forward operations followed by
    rollback operations, and a rollback, when there is one, issues exactly
    the removals that undo the forward operations before the last one (the
    one that failed), the latest first.  In a run of [send], a step that
    failed on the cluster is the last forward operation of the run and is
    followed by exactly the rollback of [rollback_entry]: a failure of
    AddToDirectory by RemoveIdObject; of CreateHeader by RemoveFromDirectory,
    then RemoveIdObject; of SetStripeUnitCount or ObjectMapResize by
    RemoveHeader and the two after it; of FetchMirrorMode or JournalCreate by
    RemoveObjectMap, skipped when OBJECT_MAP is not set, and the three after
    it; of FetchMirrorImage or EnableMirror by JournalRemove, skipped when
    JOURNALING is not set, and the four after it.  The same entries, handler
    by handler, follow. *)
Theorem rollback_undoes_succeeded_steps (req : CreateRequest) :
  (let t := trace (send cluster req) in
   ops_of t = forward_ops t ++ rollback_ops t
   /\ (rollback_ops t <> [] ->
       rollback_ops t = undone (removelast (forward_ops t))))
  /\ (forall op entry,
      In op (ops (send cluster req)) ->
      failed cluster op ->
      rollback_entry (m_features req) op = Some entry ->
      rollback_ops (trace (send cluster req)) = entry
      /\ exists before,
           forward_ops (trace (send cluster req)) = before ++ [op])
  /\ (forall r, r < 0 ->
      ops (handle_add_image_to_directory cluster req r) = [OpRemoveIdObject])
  /\ (forall r, r < 0 ->
      ops (handle_create_image cluster req r)
      = [OpRemoveFromDir; OpRemoveIdObject])
  /\ (forall r, r < 0 ->
      ops (handle_set_stripe_unit_count cluster req r)
      = [OpRemoveHeaderObject; OpRemoveFromDir; OpRemoveIdObject])
  /\ (forall r, r < 0 ->
      ops (handle_object_map_resize cluster req r)
      = [OpRemoveHeaderObject; OpRemoveFromDir; OpRemoveIdObject])
  /\ (forall c, fetch_mirror_mode_failed c ->
      ops (handle_fetch_mirror_mode cluster req c)
      = (if has (m_features req) OBJECT_MAP then [OpRemoveObjectMap] else [])
        ++ [OpRemoveHeaderObject; OpRemoveFromDir; OpRemoveIdObject])
  /\ (forall r, r < 0 ->
      ops (handle_journal_create cluster req r)
      = (if has (m_features req) OBJECT_MAP then [OpRemoveObjectMap] else [])
        ++ [OpRemoveHeaderObject; OpRemoveFromDir; OpRemoveIdObject])
  /\ (forall c, fetch_mirror_image_failed c ->
      ops (handle_fetch_mirror_image cluster req c)
      = (if has (m_features req) JOURNALING then [OpJournalRemove] else [])
        ++ (if has (m_features req) OBJECT_MAP then [OpRemoveObjectMap]
            else [])
        ++ [OpRemoveHeaderObject; OpRemoveFromDir; OpRemoveIdObject])
  /\ (forall r, r < 0 ->
      ops (handle_mirror_image_enable cluster req r)
      = (if has (m_features req) JOURNALING then [OpJournalRemove] else [])
        ++ (if has (m_features req) OBJECT_MAP then [OpRemoveObjectMap]
            else [])
        ++ [OpRemoveHeaderObject; OpRemoveFromDir; OpRemoveIdObject]).
Proof.
  split; [exact (rolled_back_send cluster req) |].
  split; [exact (enters_send cluster req) |].
  repeat split.
  - intros r Hr. unfold handle_add_image_to_directory. decide_tests.
    apply ops_remove_id_object.
  - intros r Hr. unfold handle_create_image. decide_tests.
    apply ops_remove_from_dir.
  - intros r Hr. unfold handle_set_stripe_unit_count. decide_tests.
    apply ops_remove_header_object.
  - intros r Hr. unfold handle_object_map_resize. decide_tests.
    apply ops_remove_header_object.
  - intros c Hc. unfold handle_fetch_mirror_mode.
    destruct Hc as [[Hr Hne] | [[Hr Hf] | (Hr & Hf & Hd & Hi & Hp)]].
    + decide_tests. rewrite ops_remove_object_map. reflexivity.
    + rewrite Hr. cbn [Z.ltb Z.eqb Z.compare andb]. decide_tests.
      rewrite ops_remove_object_map. reflexivity.
    + rewrite Hr. cbn [Z.ltb Z.eqb Z.compare andb]. decide_tests.
      rewrite ops_remove_object_map. reflexivity.
  - intros r Hr. unfold handle_journal_create. decide_tests.
    rewrite ops_remove_object_map. reflexivity.
  - intros c Hc. unfold handle_fetch_mirror_image.
    destruct Hc as [[Hr Hne] | [Hr Hf]].
    + decide_tests. rewrite ops_journal_remove. reflexivity.
    + rewrite Hr. cbn [Z.ltb Z.eqb Z.compare andb]. decide_tests.
      rewrite ops_journal_remove. reflexivity.
  - intros r Hr. unfold handle_mirror_image_enable. decide_tests.
    rewrite ops_journal_remove. reflexivity.
Qed.

(** A failing forward step from AddToDirectory on, other than a mirror mode
    outside the vocabulary, ends with its own error delivered: the handler
    saves the error and the rollback delivers what was saved. *)
Lemma forward_error_is_delivered (req : CreateRequest) :
  (forall r, r < 0 ->
   final (handle_add_image_to_directory cluster req r) = Completed r)
  /\ (forall r, r < 0 ->
      final (handle_create_image cluster req r) = Completed r)
  /\ (forall r, r < 0 ->
      final (handle_set_stripe_unit_count cluster req r) = Completed r)
  /\ (forall r, r < 0 ->
      final (handle_object_map_resize cluster req r) = Completed r)
  /\ (forall c, reply_result c < 0 -> reply_result c <> - ENOENT ->
      final (handle_fetch_mirror_mode cluster req c)
      = Completed (reply_result c))
  /\ (forall c, reply_result c = 0 -> finish_result c < 0 ->
      final (handle_fetch_mirror_mode cluster req c)
      = Completed (finish_result c))
  /\ (forall r, r < 0 ->
      final (handle_journal_create cluster req r) = Completed r)
  /\ (forall c, reply_result c < 0 -> reply_result c <> - ENOENT ->
      final (handle_fetch_mirror_image cluster req c)
      = Completed (reply_result c))
  /\ (forall c, reply_result c = 0 -> finish_result c < 0 ->
      final (handle_fetch_mirror_image cluster req c)
      = Completed (finish_result c))
  /\ (forall r, r < 0 ->
      final (handle_mirror_image_enable cluster req r) = Completed r).
Proof.
  unfold handle_add_image_to_directory, handle_create_image,
    handle_set_stripe_unit_count, handle_object_map_resize,
    handle_fetch_mirror_mode, handle_journal_create,
    handle_fetch_mirror_image, handle_mirror_image_enable.
  repeat split; intros;
    try match goal with
        | H : reply_result ?c = 0 |- _ =>
            rewrite H; cbn [Z.ltb Z.eqb Z.compare andb]
        end;
    decide_tests;
    rewrite ?final_remove_id_object, ?final_remove_from_dir,
      ?final_remove_header_object, ?final_remove_object_map,
      ?final_journal_remove;
    reflexivity.
Qed.

(** C3.  On the failure that [handle_fetch_mirror_mode] detects itself, a
    stored mirror mode outside the vocabulary, the whole rollback runs from
    RemoveObjectMap and the line is logged, but the result delivered is the
    value [m_r_saved] had before the step: the handler does not save its
    [-EINVAL]. *)
Theorem unknown_mirror_mode_delivers_stale_r_saved
    (req : CreateRequest) (c : Reply) :
  reply_result c = 0 ->
  0 <= finish_result c ->
  finish_value c <> MIRROR_MODE_DISABLED ->
  finish_value c <> MIRROR_MODE_IMAGE ->
  finish_value c <> MIRROR_MODE_POOL ->
  final (handle_fetch_mirror_mode cluster req c) = Completed (m_r_saved req)
  /\ ops (handle_fetch_mirror_mode cluster req c)
     = rollback_from_object_map (m_features req)
  /\ In (LogErr "Unknown mirror mode")
        (trace (handle_fetch_mirror_mode cluster req c)).
Proof.
  intros Hr Hf Hd Hi Hp. unfold handle_fetch_mirror_mode.
  rewrite Hr. cbn [Z.ltb Z.eqb Z.compare andb]. decide_tests.
  split; [apply final_remove_object_map |].
  split; [apply ops_remove_object_map | now left].
Qed.

End FailureProperties.

(** C4 on a cluster where the object-map initialisation fails with [-5]:
    the run rolls back from the header, and the failed step is the last
    forward operation. *)
Lemma rollback_undoes_succeeded_steps_witness :
  let run :=
    send (K := upstream) failing_object_map_cluster
      (CreateRequest_new (K := upstream) default_config rbd_pool "a" "I1"
         4194304 (with_features (Some 13) None None) "" "" 0) in
  rollback_ops (trace run)
  = [OpRemoveHeaderObject; OpRemoveFromDir; OpRemoveIdObject]
  /\ exists before, forward_ops (trace run) = before ++ [OpObjectMapResize 1].
Proof.
  cbv zeta.
  pose proof (rollback_undoes_succeeded_steps (K := upstream)
                failing_object_map_cluster
                (CreateRequest_new (K := upstream) default_config rbd_pool
                   "a" "I1" 4194304 (with_features (Some 13) None None)
                   "" "" 0))
    as (_ & Hrun & _).
  apply (Hrun (OpObjectMapResize 1)).
  - vm_compute. tauto.
  - cbn. lia.
  - reflexivity.
Defined.

(** C3 at a mirror mode that decodes to [3]. *)
Lemma unknown_mirror_mode_delivers_stale_r_saved_witness :
  let req :=
    CreateRequest_new (K := upstream) default_config rbd_pool "a" "I1"
      4194304 (with_features (Some 77) None None) "" "" 0 in
  let c := {| reply_result := 0; finish_result := 0; finish_value := 3 |} in
  final (handle_fetch_mirror_mode (K := upstream) healthy_cluster req c)
  = Completed 0
  /\ ops_of (trace (handle_fetch_mirror_mode (K := upstream) healthy_cluster
                      req c))
     = [OpRemoveObjectMap; OpRemoveHeaderObject; OpRemoveFromDir;
        OpRemoveIdObject].
Proof.
  cbv zeta.
  pose proof (unknown_mirror_mode_delivers_stale_r_saved (K := upstream)
                healthy_cluster
                (CreateRequest_new (K := upstream) default_config rbd_pool
                   "a" "I1" 4194304 (with_features (Some 77) None None)
                   "" "" 0)
                {| reply_result := 0; finish_result := 0; finish_value := 3 |}
                eq_refl) as H.
  cbn [finish_result finish_value] in H.
  assert (Hrun := H ltac:(lia) ltac:(discriminate) ltac:(discriminate)
                    ltac:(discriminate)).
  destruct Hrun as (Hfinal & Hops & _).
  split; [exact Hfinal | exact Hops].
Defined.

(** C2.  The request asks for LAYERING, EXCLUSIVE_LOCK and JOURNALING (69) and
    the stored mirror mode decodes to [3].  The forward pipeline reaches
    FetchMirrorMode, the unknown mode is logged, the rollback removes the
    header, the directory entry and the id object, and the continuation
    receives [r_saved0], the value [m_r_saved] was constructed with, whatever
    it is: not [-EINVAL]. *)
Theorem unknown_mirror_mode_loses_error (r_saved0 : Z) :
  let req :=
    CreateRequest_new (K := upstream) default_config rbd_pool "a" "I1"
      4194304 (with_features (Some 69) None None) "" "" r_saved0 in
  let run := send (K := upstream) unknown_mode_cluster req in
  ops_of (trace run)
  = [OpValidatePool; OpCreateIdObject; OpAddImageToDirectory;
     OpCreateImage 4194304 22 69 "rbd_data.I1" (-1); OpFetchMirrorMode;
     OpRemoveHeaderObject; OpRemoveFromDir; OpRemoveIdObject]
  /\ In (LogErr "Unknown mirror mode") (trace run)
  /\ final run = Completed r_saved0.
Proof.
  cbv zeta. split; [| split].
  - vm_compute. reflexivity.
  - vm_compute. tauto.
  - vm_compute. reflexivity.
Qed.

(** C9 on a request for the data pool "ssd", which is not the metadata pool
    "rbd" (id 2): the mask gains DATA_POOL, the name is kept, and with the
    data-pool id 5 resolved the header gets the prefix with the metadata pool
    id. *)
Lemma data_pool_bit_and_prefix_witness :
  let req :=
    CreateRequest_new (K := upstream) default_config rbd_pool "a" "I1"
      4194304 (with_data_pool "ssd") "" "" 0 in
  m_data_pool req = "ssd"
  /\ exists k,
       create_image (K := upstream) data_pool_cluster (set_data_pool_id req 5)
       = emit (Issue (OpCreateImage 4194304 22 129 "rbd_data.2.I1" 5)) k.
Proof.
  cbv zeta.
  pose proof (data_pool_bit_and_prefix (K := upstream) default_config rbd_pool
                "a" "I1" 4194304 (with_data_pool "ssd") "" "" 0)
    as (_ & Hname & _ & Hprefix & _).
  split.
  - apply Hname. reflexivity.
  - apply (Hprefix data_pool_cluster
             (set_data_pool_id
                (CreateRequest_new (K := upstream) default_config rbd_pool
                   "a" "I1" 4194304 (with_data_pool "ssd") "" "" 0) 5)).
    discriminate.
Defined.

(** ** Runs of the scenarios of the specification *)

(** Minimal create: layering only; id object, directory entry, header. *)
Example minimal_create :
  let run :=
    send (K := upstream) healthy_cluster
      (CreateRequest_new (K := upstream) default_config rbd_pool "a" "I1"
         4194304 no_options "" "" 0) in
  trace run
  = [Issue OpValidatePool; Issue OpCreateIdObject;
     Issue OpAddImageToDirectory;
     Issue (OpCreateImage 4194304 22 1 "rbd_data.I1" (-1))]
  /\ final run = Completed 0.
Proof. split; vm_compute; reflexivity. Qed.

(** A separate data pool: the pool is looked up, and the header carries its
    id and the prefix with the metadata pool id. *)
Example separate_data_pool_create :
  let run :=
    send (K := upstream) data_pool_cluster
      (CreateRequest_new (K := upstream) default_config rbd_pool "a" "I1"
         4194304 (with_data_pool "ssd") "" "" 0) in
  trace run
  = [Issue (OpIoctxCreate "ssd"); Issue OpValidatePool;
     Issue OpCreateIdObject; Issue OpAddImageToDirectory;
     Issue (OpCreateImage 4194304 22 129 "rbd_data.2.I1" 5)]
  /\ final run = Completed 0.
Proof. split; vm_compute; reflexivity. Qed.

(** Full features under pool-wide mirroring: the forward pipeline runs to the
    watcher notification. *)
Example full_features_create :
  let run :=
    send (K := upstream) pool_mirroring_cluster
      (CreateRequest_new (K := upstream) default_config rbd_pool "a" "I1"
         4194304 (with_features (Some 77) None None) "" "" 0) in
  ops_of (trace run)
  = [OpValidatePool; OpCreateIdObject; OpAddImageToDirectory;
     OpCreateImage 4194304 22 77 "rbd_data.I1" (-1); OpObjectMapResize 1;
     OpFetchMirrorMode; OpJournalCreate ""; OpFetchMirrorImage;
     OpMirrorImageEnable "9f1c"; OpNotifyImageUpdated "9f1c"]
  /\ final run = Completed 0.
Proof. split; vm_compute; reflexivity. Qed.

(** Failure of the object-map initialisation, and of the header removal
    during rollback: the rollback goes on, both lines are logged, and the
    caller receives the error of the forward step. *)
Example rollback_best_effort :
  let run :=
    send (K := upstream) failing_object_map_cluster
      (CreateRequest_new (K := upstream) default_config rbd_pool "a" "I1"
         4194304 (with_features (Some 13) None None) "" "" 0) in
  trace run
  = [Issue OpValidatePool; Issue OpCreateIdObject;
     Issue OpAddImageToDirectory;
     Issue (OpCreateImage 4194304 22 13 "rbd_data.I1" (-1));
     Issue (OpObjectMapResize 1);
     LogErr "error creating initial object map";
     Issue OpRemoveHeaderObject;
     LogErr "error cleaning up image header after creation failed";
     Issue OpRemoveFromDir; Issue OpRemoveIdObject]
  /\ final run = Completed (-5).
Proof. split; vm_compute; reflexivity. Qed.

(** A conflict on a bit the base mask lacks: OBJECT_MAP is set and cleared
    over the default features, and the resolved mask is without it. *)
Example conflict_on_absent_bit :
  m_features
    (CreateRequest_new (K := upstream) default_config rbd_pool "a" "I1"
       4194304 (with_features None (Some 8) (Some 8)) "" "" 0) = 1.
Proof. vm_compute. reflexivity. Qed.

(** * Further properties of the code *)

(** ** The option resolver: set and clear bits, striping, layout *)

Section ResolverShape.
Context {K : RbdTypes}.
Variables (cct : Config) (ioctx : IoCtx) (image_name image_id : string)
  (size : Z) (image_options : ImageOptions)
  (non_primary_global_image_id primary_mirror_uuid : string) (r_saved0 : Z).

Let req : CreateRequest :=
  CreateRequest_new cct ioctx image_name image_id size image_options
    non_primary_global_image_id primary_mirror_uuid r_saved0.

(** Reduce the constructor to the record it builds, whichever way the data
    pool goes. *)
Ltac constructed :=
  unfold req, CreateRequest_new;
  match goal with
  | |- context [if ?c then (_, Z.lor _ RBD_FEATURE_DATA_POOL) else _] =>
      destruct c
  end;
  cbn [m_features m_stripe_unit m_stripe_count m_order m_layout
       m_force_non_primary m_journal_order m_journal_splay_width
       m_journal_pool m_data_pool_id m_r_saved].

Lemma testbit_after_set_clear (n : Z) :
  0 <= n < 64 ->
  Z.testbit (features_after_set_clear cct image_options) n
  = (Z.testbit (base_features cct image_options) n
     || (Z.testbit (option_bits (RBD_IMAGE_OPTION_FEATURES_SET image_options))
                   n
         && negb (Z.testbit
                    (option_bits
                       (RBD_IMAGE_OPTION_FEATURES_CLEAR image_options)) n)))
    && negb (Z.testbit
               (option_bits (RBD_IMAGE_OPTION_FEATURES_CLEAR image_options)) n
             && negb (Z.testbit
                        (option_bits
                           (RBD_IMAGE_OPTION_FEATURES_SET image_options)) n)).
Proof.
  intros Hn. unfold features_after_set_clear, base_features, option_bits.
  destruct (RBD_IMAGE_OPTION_FEATURES image_options) as [features |],
    (RBD_IMAGE_OPTION_FEATURES_SET image_options) as [set |],
    (RBD_IMAGE_OPTION_FEATURES_CLEAR image_options) as [clear |];
    cbn [image_options_get snd]; unfold ENOENT;
    cbn [Z.eqb Z.opp negb]; bits; rewrite ?Z.bits_0;
    destruct (Z.ltb_spec n 64); try lia;
    repeat match goal with
           | |- context [Z.testbit ?x n] => destruct (Z.testbit x n)
           end; reflexivity.
Qed.

(** Every bit of the resolved mask other than the two derived ones: a bit
    only [set_bits] names is set, a bit only [clear_bits] names is clear, and
    any other bit is as in the base mask (the caller's features or the
    configured default). *)
Theorem set_and_clear_bits (n : Z) :
  0 <= n < 64 ->
  n <> feature_bit DATA_POOL ->
  n <> feature_bit STRIPINGV2 ->
  let base := Z.testbit (base_features cct image_options) n in
  let set :=
    Z.testbit (option_bits (RBD_IMAGE_OPTION_FEATURES_SET image_options)) n in
  let clear :=
    Z.testbit (option_bits (RBD_IMAGE_OPTION_FEATURES_CLEAR image_options)) n in
  Z.testbit (m_features req) n
  = if set && negb clear then true
    else if clear && negb set then false
    else base.
Proof.
  intros Hn Hdp Hsv. cbv zeta.
  destruct (m_features_new cct ioctx image_name image_id size image_options
              non_primary_global_image_id primary_mirror_uuid r_saved0)
    as [stripingv2 Hf].
  fold req in Hf. rewrite Hf. cbv zeta.
  pose proof (feature_bit_nonneg DATA_POOL).
  pose proof (feature_bit_nonneg STRIPINGV2).
  unfold RBD_FEATURE_DATA_POOL, RBD_FEATURE_STRIPINGV2.
  assert (Hbit : forall x,
            Z.testbit
              (if stripingv2
               then Z.lor x (2 ^ feature_bit STRIPINGV2)
               else Z.land x (not64 (2 ^ feature_bit STRIPINGV2))) n
            = Z.testbit x n).
  { intros x. destruct stripingv2; bits;
      destruct (Z.ltb_spec n 64); try lia;
      destruct (Z.eqb_spec (feature_bit STRIPINGV2) n); try lia;
      cbn; now rewrite ?orb_false_r, ?andb_true_r. }
  rewrite Hbit.
  assert (Hbit' : forall (b : bool) x,
            Z.testbit
              (if b
               then Z.lor x (2 ^ feature_bit DATA_POOL)
               else Z.land x (not64 (2 ^ feature_bit DATA_POOL))) n
            = Z.testbit x n).
  { intros b x. destruct b; bits;
      destruct (Z.ltb_spec n 64); try lia;
      destruct (Z.eqb_spec (feature_bit DATA_POOL) n); try lia;
      cbn; now rewrite ?orb_false_r, ?andb_true_r. }
  rewrite Hbit', testbit_after_set_clear by assumption.
  repeat match goal with
         | |- context [Z.testbit ?x n] => destruct (Z.testbit x n)
         end; reflexivity.
Qed.

Lemma has_stripingv2_new :
  has (m_features req) STRIPINGV2
  = (negb (m_stripe_unit req =? 0)
     && negb (m_stripe_unit req =? shl1 (m_order req)))
    || (negb (m_stripe_count req =? 0)
        && negb (m_stripe_count req =? 1)).
Proof.
  pose proof (feature_bit_range STRIPINGV2).
  unfold has. constructed;
    match goal with
    | |- context [if ?c then Z.lor _ RBD_FEATURE_STRIPINGV2 else _] =>
        destruct c
    end;
    unfold RBD_FEATURE_STRIPINGV2; bits; rewrite Z.eqb_refl;
    destruct (Z.ltb_spec (feature_bit STRIPINGV2) 64); try lia;
    cbn; now rewrite ?orb_true_r, ?andb_false_r.
Qed.

(** For an order the shift is defined on: the STRIPINGV2 bit of the
    resolved mask says that the stripe shape is not the default one, a stripe
    unit that is neither zero nor the object size [2 ^ order], or a stripe
    count that is neither zero nor one.  What the caller asked for this bit
    through the feature options does not matter. *)
Theorem stripingv2_bit_is_stripe_shape :
  0 <= m_order req < 64 ->
  (has (m_features req) STRIPINGV2 = true
   <-> (m_stripe_unit req <> 0 /\ m_stripe_unit req <> 2 ^ m_order req)
       \/ (m_stripe_count req <> 0 /\ m_stripe_count req <> 1)).
Proof.
  intros Horder.
  rewrite has_stripingv2_new, (shl1_pow2 _ Horder), orb_true_iff,
    !andb_true_iff, !negb_true_iff, !Z.eqb_neq.
  reflexivity.
Qed.

(** For a request that passes the striping validator, the stripe parameters
    are written to the header exactly when the mask has STRIPINGV2:
    otherwise [set_stripe_unit_count] goes straight to the object map. *)
Theorem stripe_written_iff_stripingv2 (cluster : Cluster) :
  validate_striping (m_order req) (m_stripe_unit req) (m_stripe_count req)
  = 0 ->
  set_stripe_unit_count cluster req
  = if has (m_features req) STRIPINGV2 then
      aio cluster
        (OpSetStripeUnitCount (m_stripe_unit req) (m_stripe_count req))
        (fun c => handle_set_stripe_unit_count cluster req (reply_result c))
    else object_map_resize cluster req.
Proof.
  intros Hstriping. rewrite has_stripingv2_new.
  unfold set_stripe_unit_count. unfold validate_striping in Hstriping.
  destruct (m_stripe_unit req =? 0), (m_stripe_count req =? 0),
    (m_stripe_count req =? 1), (m_stripe_unit req =? shl1 (m_order req));
    cbn in Hstriping |- *; solve [reflexivity | discriminate Hstriping].
Qed.

(** The layout of a request whose order and striping pass the validators,
    the stripe unit and count being [uint64_t] values: the object size is
    [2 ^ order], between 4 KiB and 32 MiB; the stripe unit is not zero,
    divides the object size and does not exceed it.  Without explicit
    striping the stripe is one whole object; with it the layout has the
    stripe unit itself and the low 32 bits of the stripe count, which are
    not zero when the count is below [2 ^ 32]. *)
Theorem layout_of_validated_request :
  validate_order (m_order req) = 0 ->
  validate_striping (m_order req) (m_stripe_unit req) (m_stripe_count req)
  = 0 ->
  0 <= m_stripe_unit req ->
  0 <= m_stripe_count req ->
  object_size (m_layout req) = 2 ^ m_order req
  /\ 2 ^ 12 <= object_size (m_layout req) <= 2 ^ 25
  /\ stripe_unit (m_layout req) <> 0
  /\ (stripe_unit (m_layout req) | object_size (m_layout req))
  /\ stripe_unit (m_layout req) <= object_size (m_layout req)
  /\ (m_stripe_unit req = 0 ->
      stripe_unit (m_layout req) = object_size (m_layout req)
      /\ stripe_count (m_layout req) = 1)
  /\ (m_stripe_unit req <> 0 ->
      stripe_unit (m_layout req) = m_stripe_unit req
      /\ stripe_count (m_layout req) = m_stripe_count req mod 2 ^ 32)
  /\ (m_stripe_count req < 2 ^ 32 -> stripe_count (m_layout req) <> 0).
Proof.
  intros Horder Hstriping Hunit Hcount.
  assert (Hrange : 12 <= m_order req <= 25).
  { unfold validate_order in Horder.
    destruct (Z.gtb_spec (m_order req) 25), (Z.ltb_spec (m_order req) 12);
      cbn in Horder; solve [lia | discriminate Horder]. }
  assert (Hshl : shl1 (m_order req) = 2 ^ m_order req)
    by (apply shl1_pow2; lia).
  assert (Hlayout :
    m_layout req
    = if (m_stripe_unit req =? 0) || (m_stripe_count req =? 0)
      then {| object_size := to_uint32 (shl1 (m_order req));
              stripe_unit := to_uint32 (shl1 (m_order req));
              stripe_count := 1 |}
      else {| object_size := to_uint32 (shl1 (m_order req));
              stripe_unit := to_uint32 (m_stripe_unit req);
              stripe_count := to_uint32 (m_stripe_count req) |})
    by (constructed; reflexivity).
  assert (Hpos : 0 < 2 ^ m_order req) by (apply Z.pow_pos_nonneg; lia).
  assert (Hlo : 2 ^ 12 <= 2 ^ m_order req)
    by (apply Z.pow_le_mono_r; lia).
  assert (Hhi : 2 ^ m_order req <= 2 ^ 25)
    by (apply Z.pow_le_mono_r; lia).
  assert (H25 : 2 ^ 25 < 2 ^ 32) by reflexivity.
  assert (Hsize : to_uint32 (2 ^ m_order req) = 2 ^ m_order req)
    by (apply Z.mod_small; lia).
  unfold validate_striping in Hstriping. rewrite Hshl in Hstriping.
  rewrite Hlayout, Hshl, Hsize.
  destruct (Z.eqb_spec (m_stripe_unit req) 0) as [Hu | Hu],
           (Z.eqb_spec (m_stripe_count req) 0) as [Hc | Hc];
    cbn in Hstriping |- *; try discriminate Hstriping.
  - repeat split; intros; try lia. apply Z.divide_refl.
  - destruct (Z.eqb_spec (2 ^ m_order req mod m_stripe_unit req) 0)
      as [Hm | Hm],
      (Z.gtb_spec (m_stripe_unit req) (2 ^ m_order req));
      cbn in Hstriping; try discriminate Hstriping.
    assert (Hsmall : to_uint32 (m_stripe_unit req) = m_stripe_unit req)
      by (apply Z.mod_small; lia).
    rewrite Hsmall.
    repeat split; intros; try reflexivity; try lia.
    + now apply Z.mod_divide.
    + unfold to_uint32. rewrite Z.mod_small; lia.
Qed.

(** The journal order and splay-width options are truncated to 8 bits like
    the order, but a zero is kept: only an absent option falls back to the
    configured value; the stripe options fall back when absent or zero. *)
Theorem option_fallbacks :
  m_journal_order req
  = match RBD_IMAGE_OPTION_JOURNAL_ORDER image_options with
    | Some v => v mod 256
    | None => rbd_journal_order cct mod 256
    end
  /\ m_journal_splay_width req
     = match RBD_IMAGE_OPTION_JOURNAL_SPLAY_WIDTH image_options with
       | Some v => v mod 256
       | None => rbd_journal_splay_width cct mod 256
       end
  /\ m_stripe_unit req
     = match RBD_IMAGE_OPTION_STRIPE_UNIT image_options with
       | Some v => if v =? 0 then rbd_default_stripe_unit cct else v
       | None => rbd_default_stripe_unit cct
       end
  /\ m_stripe_count req
     = match RBD_IMAGE_OPTION_STRIPE_COUNT image_options with
       | Some v => if v =? 0 then rbd_default_stripe_count cct else v
       | None => rbd_default_stripe_count cct
       end
  /\ m_order req
     = match RBD_IMAGE_OPTION_ORDER image_options with
       | Some v => if v mod 256 =? 0 then rbd_default_order cct mod 256
                   else v mod 256
       | None => rbd_default_order cct mod 256
       end
  /\ m_force_non_primary req
     = negb (non_primary_global_image_id =? "")%string.
Proof.
  repeat split; constructed;
    try match goal with
        | |- context [match ?o with Some _ => _ | None => _ end] =>
            destruct o
        end; reflexivity.
Qed.

End ResolverShape.

(** ** The order of the steps and what the features permit *)

Lemma ascending_weaken (lo lo' : nat) (ops : list Op) :
  (lo' <= lo)%nat -> ascending lo ops -> ascending lo' ops.
Proof. destruct ops; cbn; [easy |]. intros ? [? ?]. split; [lia | easy]. Qed.

Lemma ascending_bound (lo : nat) (ops : list Op) :
  ascending lo ops -> Forall (fun op => (lo <= rank op)%nat) ops.
Proof.
  revert lo. induction ops as [| op ops IH]; intros lo; cbn.
  - constructor.
  - intros [Hop Hrest]. constructor; [assumption |].
    apply IH in Hrest. eapply Forall_impl; [| exact Hrest].
    cbn. intros. lia.
Qed.

Lemma ascending_sorted (lo : nat) (ops : list Op) :
  ascending lo ops -> StronglySorted lt (map rank ops).
Proof.
  revert lo. induction ops as [| op ops IH]; intros lo; cbn.
  - constructor.
  - intros [_ Hrest]. constructor; [now apply (IH (S (rank op))) |].
    apply ascending_bound in Hrest. apply Forall_map.
    eapply Forall_impl; [| exact Hrest]. cbn. intros. lia.
Qed.

Section Orderly.
Context {K : RbdTypes}.
Variable cluster : Cluster.

#[local] Abbreviation ops r := (ops_of (trace r)).

Lemma orderly_nil lo features : orderly lo features [].
Proof. split; [exact I | reflexivity]. Qed.

Lemma orderly_cons lo features op l :
  (lo <= rank op)%nat ->
  permitted features op = true ->
  orderly (S (rank op)) features l ->
  orderly lo features (op :: l).
Proof.
  intros Hlo Hop [Hasc Hall]. split; [now split |].
  cbn. now rewrite Hop, Hall.
Qed.

Lemma orderly_weaken lo lo' features l :
  (lo' <= lo)%nat -> orderly lo features l -> orderly lo' features l.
Proof. intros Hlo [Hasc Hall]. split; [now apply (ascending_weaken lo) | easy]. Qed.

Lemma orderly_rollback_from_header features :
  orderly 16 features rollback_from_header.
Proof. split; cbn; [lia | reflexivity]. Qed.

Lemma orderly_rollback_from_object_map features :
  orderly 15 features (rollback_from_object_map features).
Proof.
  unfold rollback_from_object_map.
  destruct (has features OBJECT_MAP) eqn:E; split; cbn; rewrite ?E;
    solve [lia | reflexivity].
Qed.

Lemma orderly_rollback_from_journal features :
  orderly 14 features (rollback_from_journal features).
Proof.
  unfold rollback_from_journal, rollback_from_object_map.
  destruct (has features JOURNALING) eqn:Ej,
           (has features OBJECT_MAP) eqn:Eo; split; cbn; rewrite ?Ej, ?Eo;
    solve [lia | reflexivity].
Qed.

(** A failing branch: the rollback entry it takes is orderly from its rank
    on, and every forward operation ranks below. *)
Ltac rollback_branch :=
  cbn [lderr emit trace ops_of];
  rewrite ?(ops_journal_remove cluster), ?(ops_remove_object_map cluster),
    ?(ops_remove_header_object cluster), ?(ops_remove_from_dir cluster),
    ?(ops_remove_id_object cluster);
  cbn [m_features set_r_saved set_mirror_image set_mirror_mode];
  first
    [ eapply orderly_weaken; [| apply orderly_rollback_from_journal]; cbn; lia
    | eapply orderly_weaken; [| apply orderly_rollback_from_object_map];
      cbn; lia
    | eapply orderly_weaken; [| apply orderly_rollback_from_header];
      cbn; lia
    | split; cbn; solve [lia | reflexivity] ].

Ltac step_op :=
  cbn [aio emit trace ops_of]; apply orderly_cons;
  [ cbn; lia | cbn [permitted]; solve [reflexivity | assumption] | ].

(** Go on with the lemma of the next stage, at the request of the goal. *)
Ltac by_stage L :=
  match goal with
  | |- orderly _ _ (ops_of (trace (_ _ ?r))) =>
      first
        [ exact (L r)
        | apply (L r); eassumption
        | eapply orderly_weaken;
          [| first [exact (L r) | apply (L r); eassumption]]; cbn; lia ]
  end.

Ltac finished := cbn [lderr emit trace ops_of on_finish complete abort];
  apply orderly_nil.

Lemma orderly_send_watcher_notification req :
  has (m_features req) JOURNALING = true ->
  orderly 13 (m_features req) (ops (send_watcher_notification cluster req)).
Proof.
  intros Hj. unfold send_watcher_notification. step_op. finished.
Qed.

Lemma orderly_mirror_image_enable req :
  has (m_features req) JOURNALING = true ->
  orderly 12 (m_features req) (ops (mirror_image_enable cluster req)).
Proof.
  intros Hj. unfold mirror_image_enable. step_op.
  unfold handle_mirror_image_enable.
  destruct (_ <? 0); [rollback_branch |].
  by_stage orderly_send_watcher_notification.
Qed.

Lemma orderly_fetch_mirror_image req :
  has (m_features req) JOURNALING = true ->
  orderly 11 (m_features req) (ops (fetch_mirror_image cluster req)).
Proof.
  intros Hj. unfold fetch_mirror_image.
  destruct (negb _ && negb _); [finished |].
  step_op. unfold handle_fetch_mirror_image.
  destruct (_ && _); [rollback_branch |].
  destruct (_ =? 0); [| by_stage orderly_mirror_image_enable].
  destruct (_ <? 0); [rollback_branch |].
  destruct (_ =? _); [finished |].
  by_stage orderly_mirror_image_enable.
Qed.

Lemma orderly_journal_create req :
  has (m_features req) JOURNALING = true ->
  orderly 10 (m_features req) (ops (journal_create cluster req)).
Proof.
  intros Hj. unfold journal_create. step_op.
  unfold handle_journal_create.
  destruct (_ <? 0); [rollback_branch |].
  by_stage orderly_fetch_mirror_image.
Qed.

Lemma orderly_fetch_mirror_mode req :
  orderly 9 (m_features req) (ops (fetch_mirror_mode cluster req)).
Proof.
  unfold fetch_mirror_mode. rewrite (proj2 (test_has _)).
  destruct (has _ JOURNALING) eqn:Hj; cbn [negb]; [| finished].
  step_op. unfold handle_fetch_mirror_mode.
  assert (Hnext : forall mode,
            orderly 10 (m_features req)
              (ops (journal_create cluster (set_mirror_mode req mode))))
    by (intros mode; by_stage orderly_journal_create).
  destruct (_ && _); [rollback_branch |].
  destruct (_ =? 0).
  - destruct (_ <? 0); [rollback_branch |].
    destruct (_ || _); [apply Hnext | rollback_branch].
  - destruct (_ || _); [apply Hnext | rollback_branch].
Qed.

Lemma orderly_object_map_resize req :
  orderly 8 (m_features req) (ops (object_map_resize cluster req)).
Proof.
  unfold object_map_resize. rewrite (proj1 (test_has _)).
  destruct (has _ OBJECT_MAP) eqn:Hom; cbn [negb].
  - step_op. unfold handle_object_map_resize.
    destruct (_ <? 0); [rollback_branch |].
    by_stage orderly_fetch_mirror_mode.
  - by_stage orderly_fetch_mirror_mode.
Qed.

Lemma orderly_set_stripe_unit_count req :
  orderly 7 (m_features req) (ops (set_stripe_unit_count cluster req)).
Proof.
  unfold set_stripe_unit_count.
  destruct (_ || _).
  - by_stage orderly_object_map_resize.
  - step_op. unfold handle_set_stripe_unit_count.
    destruct (_ <? 0); [rollback_branch |].
    by_stage orderly_object_map_resize.
Qed.

Lemma orderly_create_image req :
  orderly 6 (m_features req) (ops (create_image cluster req)).
Proof.
  unfold create_image. destruct (_ || _); [| finished].
  step_op. unfold handle_create_image.
  destruct (_ <? 0); [rollback_branch |].
  by_stage orderly_set_stripe_unit_count.
Qed.

Lemma orderly_add_image_to_directory req :
  orderly 5 (m_features req) (ops (add_image_to_directory cluster req)).
Proof.
  unfold add_image_to_directory. step_op.
  unfold handle_add_image_to_directory.
  destruct (_ <? 0); [rollback_branch |].
  by_stage orderly_create_image.
Qed.

Lemma orderly_create_id_object req :
  orderly 4 (m_features req) (ops (create_id_object cluster req)).
Proof.
  unfold create_id_object. step_op. unfold handle_create_id_object.
  destruct (_ <? 0); [finished |].
  by_stage orderly_add_image_to_directory.
Qed.

Lemma orderly_validate_pool req :
  orderly 1 (m_features req) (ops (validate_pool cluster req)).
Proof.
  unfold validate_pool.
  destruct (negb _).
  { by_stage orderly_create_id_object. }
  step_op. unfold handle_validate_pool.
  destruct (_ =? 0).
  { by_stage orderly_create_id_object. }
  destruct (_ && _); [finished |].
  step_op.
  destruct (_ =? _); [finished |].
  destruct (_ <? 0); [finished |].
  step_op. by_stage orderly_create_id_object.
Qed.

Lemma orderly_send req :
  orderly 0 (m_features req) (ops (send cluster req)).
Proof.
  unfold send.
  destruct (validate_features _ _) as [r |]; [| finished].
  destruct (r <? 0); [finished |].
  destruct (_ <? 0); [finished |].
  destruct (_ <? 0); [finished |].
  unfold validate_data_pool, RBD_FEATURE_DATA_POOL. rewrite test_feature.
  destruct (has _ DATA_POOL) eqn:Hdp; cbn [negb emit_all trace app].
  - destruct (_ <? 0); cbn [emit_all trace app ops_of].
    + replace (- ENOENT <? 0) with true by reflexivity.
      apply orderly_cons; [cbn; lia | exact Hdp | finished].
    + cbn [Z.ltb Z.compare].
      apply orderly_cons; [cbn; lia | exact Hdp |].
      destruct (negb _); [finished |].
      by_stage orderly_validate_pool.
  - cbn [Z.ltb Z.compare].
    destruct (negb _); [finished |].
    by_stage orderly_validate_pool.
Qed.

(** The operations of a run come in the fixed order of the pipeline, each
    step at most once: the pool lookup, the forward steps F0 to F10, then the
    rollback steps R-1 to R3. *)
Theorem steps_in_pipeline_order (req : CreateRequest) :
  StronglySorted lt (map rank (ops (send cluster req))).
Proof. apply (ascending_sorted 0). apply orderly_send. Qed.

(** A run never touches what the resolved features do not call for: the
    object map is initialised or removed only with OBJECT_MAP; the mirror
    mode, the journal, the mirror registration and the watchers are reached
    only with JOURNALING; a data pool is looked up only with DATA_POOL. *)
Theorem only_permitted_operations (req : CreateRequest) :
  Forall (fun op => permitted (m_features req) op = true)
         (ops (send cluster req)).
Proof. apply Forall_forall, forallb_forall. apply orderly_send. Qed.

End Orderly.

(** ** What a run implies about validation and about the objects created *)

Lemma validate_order_codes (order : Z) :
  validate_order order = 0 \/ validate_order order = - EDOM.
Proof. unfold validate_order. destruct (_ || _); auto. Qed.

Lemma validate_striping_codes (order stripe_unit stripe_count : Z) :
  validate_striping order stripe_unit stripe_count = 0
  \/ validate_striping order stripe_unit stripe_count = - EINVAL.
Proof.
  unfold validate_striping.
  destruct (_ || _); auto. destruct (_ || _); auto. destruct (_ || _); auto.
Qed.

Lemma validate_features_codes {K : RbdTypes} (features : Z) (b : bool) (r : Z) :
  validate_features features b = Returned r ->
  r = 0 \/ r = - ENOSYS \/ r = - EINVAL.
Proof.
  unfold validate_features.
  repeat match goal with
         | |- context [if ?c then _ else _] => destruct c
         end; intros H; inversion H; auto.
Qed.

Lemma not_negative_code (r : Z) :
  r = 0 \/ r = - ENOSYS \/ r = - EINVAL \/ r = - EDOM ->
  (r <? 0) = false -> r = 0.
Proof.
  intros [-> | [-> | [-> | ->]]]; [reflexivity | | |]; discriminate.
Qed.

Section RunProperties.
Context {K : RbdTypes}.
Variable cluster : Cluster.

#[local] Abbreviation ops r := (ops_of (trace r)).

(** No object is created for a request that fails validation: when a run
    issues anything besides the data-pool lookup, the feature, order and
    striping validators all returned [0], the data pool (if any) was found,
    and the layout is compatible with the object map. *)
Theorem no_operation_without_validation (req : CreateRequest) (op : Op) :
  In op (ops (send cluster req)) ->
  (forall data_pool, op <> OpIoctxCreate data_pool) ->
  validate_features (m_features req) (m_force_non_primary req) = Returned 0
  /\ validate_order (m_order req) = 0
  /\ validate_striping (m_order req) (m_stripe_unit req) (m_stripe_count req)
     = 0
  /\ fst (snd (validate_data_pool cluster (m_features req) (m_data_pool req)
                 (m_data_pool_id req))) = 0
  /\ is_compatible cluster (m_layout req) (m_size req) = true.
Proof.
  unfold send. intros Hin Hop.
  destruct (validate_features _ _) as [r |] eqn:Hvf; [| contradiction Hin].
  destruct (r <? 0) eqn:Hr; [contradiction Hin |].
  destruct (validate_order (m_order req) <? 0) eqn:Ho; [contradiction Hin |].
  destruct (validate_striping _ _ _ <? 0) eqn:Hs; [contradiction Hin |].
  assert (r = 0) as ->.
  { apply not_negative_code; [| assumption].
    apply validate_features_codes in Hvf. tauto. }
  assert (validate_order (m_order req) = 0) as Ho'.
  { apply not_negative_code; [| assumption].
    destruct (validate_order_codes (m_order req)); auto. }
  assert (validate_striping (m_order req) (m_stripe_unit req)
            (m_stripe_count req) = 0) as Hs'.
  { apply not_negative_code; [| assumption].
    destruct (validate_striping_codes (m_order req) (m_stripe_unit req)
                (m_stripe_count req)); auto. }
  split; [reflexivity |]. split; [assumption |]. split; [assumption |].
  unfold validate_data_pool, validate_layout in *.
  destruct (negb (test _ _)); cbn [fst snd emit_all trace app] in *.
  - cbn [Z.ltb Z.compare] in Hin. split; [reflexivity |].
    destruct (is_compatible _ _ _); [reflexivity | contradiction Hin].
  - destruct (reply_result _ <? 0);
      cbn [fst snd emit_all trace app ops_of] in *.
    + replace (- ENOENT <? 0) with true in Hin by reflexivity.
      destruct Hin as [<- | []]. now contradiction (Hop (m_data_pool req)).
    + cbn [Z.ltb Z.compare] in Hin. split; [reflexivity |].
      destruct (is_compatible _ _ _); [reflexivity |].
      destruct Hin as [<- | []]. now contradiction (Hop (m_data_pool req)).
Qed.

(** Every rollback entry issues at least the removal of the id object. *)
Lemma rollback_entries_not_empty (req : CreateRequest) :
  filter is_rollback (ops (remove_id_object cluster req)) <> []
  /\ filter is_rollback (ops (remove_from_dir cluster req)) <> []
  /\ filter is_rollback (ops (remove_header_object cluster req)) <> []
  /\ filter is_rollback (ops (remove_object_map cluster req)) <> []
  /\ filter is_rollback (ops (journal_remove cluster req)) <> [].
Proof.
  rewrite ops_remove_id_object, ops_remove_from_dir,
    ops_remove_header_object, ops_remove_object_map, ops_journal_remove.
  unfold rollback_from_journal, rollback_from_object_map.
  destruct (has _ JOURNALING), (has _ OBJECT_MAP); cbn;
    repeat split; discriminate.
Qed.

(** A branch that enters the rollback contradicts [Hrb]. *)
Ltac no_rollback Hrb :=
  exfalso; cbn [lderr emit trace ops_of] in Hrb; revert Hrb;
  first [ apply (rollback_entries_not_empty (set_r_saved _ _))
        | apply (rollback_entries_not_empty _) ].

Lemma created_object_map (req : CreateRequest) :
  filter is_rollback (ops (object_map_resize cluster req)) = [] ->
  has (m_features req) OBJECT_MAP = true ->
  exists n, In (OpObjectMapResize n) (ops (object_map_resize cluster req))
            /\ 0 <= reply_result (completion cluster (OpObjectMapResize n)).
Proof.
  unfold object_map_resize. rewrite (proj1 (test_has _)).
  intros Hrb Hom. rewrite Hom in *. cbn [negb] in *.
  unfold handle_object_map_resize in *. revert Hrb.
  cbn [aio emit trace ops_of filter is_rollback negb].
  destruct (Z.ltb_spec
              (reply_result
                 (completion cluster
                    (OpObjectMapResize
                       (get_num_objects cluster (m_layout req) (m_size req)))))
              0) as [Hneg | Hok]; intros Hrb.
  - no_rollback Hrb.
  - eexists. split; [left; reflexivity | exact Hok].
Qed.

Lemma created_stripe (req : CreateRequest) :
  filter is_rollback (ops (set_stripe_unit_count cluster req)) = [] ->
  has (m_features req) OBJECT_MAP = true ->
  exists n, In (OpObjectMapResize n) (ops (set_stripe_unit_count cluster req))
            /\ 0 <= reply_result (completion cluster (OpObjectMapResize n)).
Proof.
  unfold set_stripe_unit_count.
  destruct (_ || _); [apply created_object_map |].
  unfold handle_set_stripe_unit_count.
  cbn [aio emit trace ops_of filter is_rollback negb].
  destruct (_ <? 0); intros Hrb Hom; [no_rollback Hrb |].
  destruct (created_object_map req Hrb Hom) as (n & Hin & Hok).
  exists n. split; [right; exact Hin | exact Hok].
Qed.

Lemma created_weaken (req : CreateRequest) (op : Op) (l : list Op) :
  created cluster req l -> created cluster req (op :: l).
Proof.
  intros (Hid & Hdir & (p & i & Hh) & Hom).
  repeat split; try tauto.
  - right. tauto.
  - right. tauto.
  - exists p, i. cbv zeta in *. split; [right |]; tauto.
  - intros H. destruct (Hom H) as (n & Hin & Hok).
    exists n. split; [right |]; tauto.
Qed.

Lemma created_create_id_object (req : CreateRequest) :
  final (create_id_object cluster req) = Completed 0 ->
  filter is_rollback (ops (create_id_object cluster req)) = [] ->
  created cluster req (ops (create_id_object cluster req)).
Proof.
  unfold create_id_object, handle_create_id_object.
  cbn [aio emit trace final ops_of filter is_rollback negb].
  destruct (Z.ltb_spec (reply_result (completion cluster OpCreateIdObject)) 0)
    as [Hneg | Hid].
  { intros Hfinal. exfalso. inversion Hfinal. lia. }
  unfold add_image_to_directory, handle_add_image_to_directory.
  cbn [aio emit trace final ops_of filter is_rollback negb].
  destruct (Z.ltb_spec
              (reply_result (completion cluster OpAddImageToDirectory)) 0)
    as [Hneg | Hdir].
  { intros _ Hrb. no_rollback Hrb. }
  unfold create_image.
  destruct (_ || _); [| discriminate].
  unfold handle_create_image.
  cbn [aio emit trace final ops_of filter is_rollback negb].
  match goal with
  | |- context [reply_result (completion cluster ?op) <? 0] =>
      destruct (Z.ltb_spec (reply_result (completion cluster op)) 0)
        as [Hneg | Hheader]
  end.
  { intros _ Hrb. no_rollback Hrb. }
  intros Hfinal Hrb. repeat split.
  - left. reflexivity.
  - exact Hid.
  - right. left. reflexivity.
  - exact Hdir.
  - eexists _, _. cbv zeta. split; [right; right; left; reflexivity |].
    exact Hheader.
  - intros Hom. destruct (created_stripe req Hrb Hom) as (n & Hin & Hok).
    exists n. split; [do 3 right; exact Hin | exact Hok].
Qed.

Lemma created_validate_pool (req : CreateRequest) :
  final (validate_pool cluster req) = Completed 0 ->
  filter is_rollback (ops (validate_pool cluster req)) = [] ->
  created cluster req (ops (validate_pool cluster req)).
Proof.
  unfold validate_pool.
  destruct (negb _); [apply created_create_id_object |].
  unfold handle_validate_pool.
  cbn [aio emit trace final ops_of filter is_rollback negb].
  destruct (_ =? 0).
  { intros Hfinal Hrb. apply created_weaken.
    now apply created_create_id_object. }
  destruct (_ && _) eqn:Hstat.
  { cbn [lderr emit final on_finish]. intros Hfinal. exfalso.
    inversion Hfinal as [H0]. rewrite H0 in Hstat. discriminate Hstat. }
  cbn [aio emit trace final ops_of filter is_rollback negb].
  set (r := reply_result (completion cluster OpSelfmanagedSnapCreate)).
  destruct (r =? - EINVAL) eqn:Hinval.
  { cbn [lderr emit final on_finish]. intros Hfinal. exfalso.
    inversion Hfinal as [H0]. rewrite H0 in Hinval. discriminate Hinval. }
  destruct (r <? 0) eqn:Hneg.
  { cbn [lderr emit final on_finish]. intros Hfinal. exfalso.
    inversion Hfinal as [H0]. rewrite H0 in Hneg. discriminate Hneg. }
  cbn [aio emit trace final ops_of filter is_rollback negb].
  intros Hfinal Hrb.
  do 3 apply created_weaken. now apply created_create_id_object.
Qed.

(** When the continuation receives [0] and no rollback ran, the image is
    there: the id object, the directory entry and the header were written,
    with the size, order and feature mask of the request, and so was the
    object map when OBJECT_MAP is set; each of these operations had reported
    success.  (Without "no rollback ran" this fails: see the result delivered
    after an unknown mirror mode.) *)
Theorem success_means_created (req : CreateRequest) :
  final (send cluster req) = Completed 0 ->
  rollback_ops (trace (send cluster req)) = [] ->
  created cluster req (ops (send cluster req)).
Proof.
  unfold rollback_ops, send.
  destruct (validate_features _ _) as [r |]; [| discriminate].
  destruct (r <? 0) eqn:Hr.
  { intros Hfinal. inversion Hfinal as [H0]. rewrite H0 in Hr.
    discriminate Hr. }
  destruct (validate_order (m_order req) <? 0) eqn:Ho.
  { intros Hfinal. inversion Hfinal as [H0]. rewrite H0 in Ho.
    discriminate Ho. }
  destruct (validate_striping (m_order req) (m_stripe_unit req)
              (m_stripe_count req) <? 0) eqn:Hs.
  { intros Hfinal. inversion Hfinal as [H0]. rewrite H0 in Hs.
    discriminate Hs. }
  assert (Hpool : forall id,
            final (validate_pool cluster (set_data_pool_id req id))
            = Completed 0 ->
            filter is_rollback
              (ops (validate_pool cluster (set_data_pool_id req id))) = [] ->
            created cluster req
              (ops (validate_pool cluster (set_data_pool_id req id)))).
  { intros id Hfinal Hrb.
    exact (created_validate_pool (set_data_pool_id req id) Hfinal Hrb). }
  unfold validate_data_pool.
  destruct (negb (test _ _)); cbn [emit_all trace app final].
  - cbn [Z.ltb Z.compare]. destruct (negb _); [discriminate |].
    apply Hpool.
  - destruct (reply_result _ <? 0); cbn [emit_all trace app final ops_of].
    + discriminate.
    + cbn [Z.ltb Z.compare]. destruct (negb _); [discriminate |].
      intros Hfinal Hrb. apply created_weaken. now apply Hpool.
Qed.

(** The operations of a list with ascending ranks are at or above its
    bound. *)
Lemma not_in_below (lo : nat) (l : list Op) (op : Op) :
  ascending lo l -> (rank op < lo)%nat -> ~ In op l.
Proof.
  intros Hasc Hlow Hin. apply ascending_bound in Hasc.
  rewrite Forall_forall in Hasc. apply Hasc in Hin. lia.
Qed.

Lemma not_in_create_id_object (req : CreateRequest) (op : Op) :
  (rank op < 4)%nat -> ~ In op (ops (create_id_object cluster req)).
Proof.
  apply not_in_below. exact (proj1 (orderly_create_id_object cluster req)).
Qed.

Lemma not_in_validate_pool (req : CreateRequest) (op : Op) :
  (rank op < 1)%nat -> ~ In op (ops (validate_pool cluster req)).
Proof.
  apply not_in_below. exact (proj1 (orderly_validate_pool cluster req)).
Qed.

(** A failed creation of the id object ends the run. *)
Lemma early_create_id_object (req : CreateRequest) :
  reply_result (completion cluster OpCreateIdObject) < 0 ->
  create_id_object cluster req
  = {| trace := [Issue OpCreateIdObject;
                 LogErr "error creating RBD id object"];
       final := Completed (reply_result (completion cluster OpCreateIdObject))
    |}.
Proof.
  intros Hneg. apply Z.ltb_lt in Hneg.
  unfold create_id_object, aio, handle_create_id_object. rewrite Hneg.
  reflexivity.
Qed.

Lemma early_validate_pool_stat (req : CreateRequest) :
  In OpValidatePool (ops (validate_pool cluster req)) ->
  reply_result (completion cluster OpValidatePool) < 0 ->
  reply_result (completion cluster OpValidatePool) <> - ENOENT ->
  final (validate_pool cluster req)
  = Completed (reply_result (completion cluster OpValidatePool))
  /\ filter is_rollback (ops (validate_pool cluster req)) = [].
Proof.
  unfold validate_pool. intros Hin Hneg Hfound.
  destruct (negb _).
  { exfalso. revert Hin. apply not_in_create_id_object. cbn. lia. }
  unfold aio, handle_validate_pool.
  replace (reply_result (completion cluster OpValidatePool) =? 0)
    with false by (symmetry; apply Z.eqb_neq; lia).
  replace (reply_result (completion cluster OpValidatePool) <? 0)
    with true by (symmetry; apply Z.ltb_lt; lia).
  replace (reply_result (completion cluster OpValidatePool) =? - ENOENT)
    with false by (symmetry; apply Z.eqb_neq; assumption).
  split; reflexivity.
Qed.

Lemma early_validate_pool_snapshot (req : CreateRequest) :
  In OpSelfmanagedSnapCreate (ops (validate_pool cluster req)) ->
  reply_result (completion cluster OpSelfmanagedSnapCreate) < 0 ->
  final (validate_pool cluster req)
  = Completed (reply_result (completion cluster OpSelfmanagedSnapCreate))
  /\ filter is_rollback (ops (validate_pool cluster req)) = [].
Proof.
  unfold validate_pool. intros Hin Hneg.
  destruct (negb _).
  { exfalso. revert Hin. apply not_in_create_id_object. cbn. lia. }
  revert Hin. unfold aio, handle_validate_pool. cbv zeta. unfold aio.
  destruct (_ =? 0).
  { cbn [emit trace ops_of]. intros [Hin | Hin]; [discriminate Hin |].
    exfalso. revert Hin. apply not_in_create_id_object. cbn. lia. }
  destruct (_ && _).
  { cbn [emit lderr on_finish trace ops_of].
    intros [Hin | []]. discriminate Hin. }
  intros _.
  destruct (_ =? - EINVAL); [split; reflexivity |].
  replace (reply_result (completion cluster OpSelfmanagedSnapCreate) <? 0)
    with true by (symmetry; apply Z.ltb_lt; lia).
  split; reflexivity.
Qed.

Lemma early_validate_pool_id_object (req : CreateRequest) :
  In OpCreateIdObject (ops (validate_pool cluster req)) ->
  reply_result (completion cluster OpCreateIdObject) < 0 ->
  final (validate_pool cluster req)
  = Completed (reply_result (completion cluster OpCreateIdObject))
  /\ filter is_rollback (ops (validate_pool cluster req)) = [].
Proof.
  unfold validate_pool. intros Hin Hneg.
  destruct (negb _).
  { rewrite (early_create_id_object req Hneg). split; reflexivity. }
  revert Hin. unfold aio, handle_validate_pool. cbv zeta. unfold aio.
  destruct (_ =? 0).
  { intros _. rewrite (early_create_id_object req Hneg). split; reflexivity. }
  destruct (_ && _).
  { cbn [emit lderr on_finish trace ops_of].
    intros [Hin | []]. discriminate Hin. }
  destruct (_ =? - EINVAL).
  { cbn [emit lderr on_finish trace ops_of].
    intros [Hin | [Hin | []]]; discriminate Hin. }
  destruct (_ <? 0).
  { cbn [emit lderr on_finish trace ops_of].
    intros [Hin | [Hin | []]]; discriminate Hin. }
  intros _. rewrite (early_create_id_object req Hneg). split; reflexivity.
Qed.

(** An operation of a run that is not the data-pool lookup is an operation
    of [validate_pool], whose result and rollback are those of the run. *)
Lemma send_after_validation (req : CreateRequest) (op : Op) :
  In op (ops (send cluster req)) ->
  (forall data_pool, op <> OpIoctxCreate data_pool) ->
  exists id,
    In op (ops (validate_pool cluster (set_data_pool_id req id)))
    /\ final (send cluster req)
       = final (validate_pool cluster (set_data_pool_id req id))
    /\ filter is_rollback (ops (send cluster req))
       = filter is_rollback
           (ops (validate_pool cluster (set_data_pool_id req id))).
Proof.
  unfold send. intros Hin Hop.
  destruct (validate_features _ _) as [r |]; [| contradiction Hin].
  destruct (r <? 0); [contradiction Hin |].
  destruct (validate_order (m_order req) <? 0); [contradiction Hin |].
  destruct (validate_striping _ _ _ <? 0); [contradiction Hin |].
  unfold validate_data_pool in *.
  destruct (negb (test _ _)); cbn [fst snd emit_all trace final app] in *.
  - cbn [Z.ltb Z.compare] in *.
    destruct (negb _); [contradiction Hin |].
    eexists. split; [exact Hin |]. split; reflexivity.
  - destruct (reply_result _ <? 0);
      cbn [fst snd emit_all trace final app ops_of] in *.
    + replace (- ENOENT <? 0) with true in Hin by reflexivity.
      destruct Hin as [<- | []]. now contradiction (Hop (m_data_pool req)).
    + cbn [Z.ltb Z.compare] in *.
      destruct (negb _).
      { destruct Hin as [<- | []]. now contradiction (Hop (m_data_pool req)). }
      destruct Hin as [<- | Hin]; [now contradiction (Hop (m_data_pool req)) |].
      eexists. split; [exact Hin |]. split; reflexivity.
Qed.

Lemma rollback_after_directory_add (req : CreateRequest) :
  rollback_ops (trace (send cluster req)) <> [] ->
  In OpCreateIdObject (ops (send cluster req))
  /\ 0 <= reply_result (completion cluster OpCreateIdObject)
  /\ In OpAddImageToDirectory (ops (send cluster req)).
Proof.
  assert (Hid : forall r,
            filter is_rollback (ops (create_id_object cluster r)) <> [] ->
            In OpCreateIdObject (ops (create_id_object cluster r))
            /\ 0 <= reply_result (completion cluster OpCreateIdObject)
            /\ In OpAddImageToDirectory (ops (create_id_object cluster r))).
  { intros r. unfold create_id_object, handle_create_id_object,
      add_image_to_directory.
    cbn [aio emit lderr trace ops_of on_finish filter is_rollback negb].
    destruct (Z.ltb_spec (reply_result (completion cluster OpCreateIdObject))
                0) as [Hneg | Hok];
      cbn [aio emit lderr trace ops_of on_finish filter is_rollback negb];
      intros Hrb; [exfalso; apply Hrb; reflexivity |].
    split; [left; reflexivity |]. split; [exact Hok |].
    right. left. reflexivity. }
  assert (Hcons : forall op l,
            is_rollback op = false ->
            (filter is_rollback l <> [] ->
             In OpCreateIdObject l
             /\ 0 <= reply_result (completion cluster OpCreateIdObject)
             /\ In OpAddImageToDirectory l) ->
            filter is_rollback (op :: l) <> [] ->
            In OpCreateIdObject (op :: l)
            /\ 0 <= reply_result (completion cluster OpCreateIdObject)
            /\ In OpAddImageToDirectory (op :: l)).
  { intros op l Hop IH. cbn [filter]. rewrite Hop. intros Hrb.
    destruct (IH Hrb) as (H1 & H2 & H3).
    split; [right; exact H1 |]. split; [exact H2 | right; exact H3]. }
  assert (Hpool : forall r,
            filter is_rollback (ops (validate_pool cluster r)) <> [] ->
            In OpCreateIdObject (ops (validate_pool cluster r))
            /\ 0 <= reply_result (completion cluster OpCreateIdObject)
            /\ In OpAddImageToDirectory (ops (validate_pool cluster r))).
  { intros r. unfold validate_pool.
    destruct (negb _); [apply Hid |].
    unfold handle_validate_pool. cbn [aio emit trace ops_of].
    apply Hcons; [reflexivity |].
    destruct (_ =? 0); [apply Hid |].
    destruct (_ && _); [intros Hrb; exfalso; apply Hrb; reflexivity |].
    cbn [aio emit trace ops_of]. apply Hcons; [reflexivity |].
    destruct (_ =? _); [intros Hrb; exfalso; apply Hrb; reflexivity |].
    destruct (_ <? 0); [intros Hrb; exfalso; apply Hrb; reflexivity |].
    cbn [aio emit trace ops_of]. apply Hcons; [reflexivity |]. apply Hid. }
  unfold rollback_ops, send.
  destruct (validate_features _ _) as [r |];
    [| intros Hrb; exfalso; apply Hrb; reflexivity].
  destruct (r <? 0); [intros Hrb; exfalso; apply Hrb; reflexivity |].
  destruct (_ <? 0); [intros Hrb; exfalso; apply Hrb; reflexivity |].
  destruct (_ <? 0); [intros Hrb; exfalso; apply Hrb; reflexivity |].
  unfold validate_data_pool.
  destruct (negb (test _ _)); cbn [emit_all trace app].
  - cbn [Z.ltb Z.compare].
    destruct (negb _); [intros Hrb; exfalso; apply Hrb; reflexivity |].
    exact (Hpool (set_data_pool_id req _)).
  - destruct (reply_result _ <? 0); cbn [emit_all trace app ops_of].
    + intros Hrb; exfalso; apply Hrb; reflexivity.
    + cbn [Z.ltb Z.compare]. apply Hcons; [reflexivity |].
      destruct (negb _); [intros Hrb; exfalso; apply Hrb; reflexivity |].
      exact (Hpool (set_data_pool_id req _)).
Qed.


(** A rollback runs only after the directory add was attempted: when a run
    has rollback operations, the id object had been created with success and
    the directory add had been issued.  The failures before that are
    delivered to the continuation and no rollback operation is issued: a
    negative result of the feature, order or striping validator ends the run
    at once with that result; a failed data-pool lookup delivers [-ENOENT];
    a layout that is not compatible delivers [-EINVAL]; a failed stat of the
    directory (other than [-ENOENT]), a failed snapshot allocation and a
    failed creation of the id object deliver their own result. *)
Theorem rollback_only_after_directory_add (req : CreateRequest) :
  (rollback_ops (trace (send cluster req)) <> [] ->
   In OpCreateIdObject (ops (send cluster req))
   /\ 0 <= reply_result (completion cluster OpCreateIdObject)
   /\ In OpAddImageToDirectory (ops (send cluster req)))
  /\ (forall r,
      validate_features (m_features req) (m_force_non_primary req)
      = Returned r ->
      (r < 0 -> send cluster req = on_finish r)
      /\ (0 <= r -> validate_order (m_order req) < 0 ->
          send cluster req = on_finish (validate_order (m_order req)))
      /\ (0 <= r -> 0 <= validate_order (m_order req) ->
          validate_striping (m_order req) (m_stripe_unit req)
            (m_stripe_count req) < 0 ->
          send cluster req
          = on_finish (validate_striping (m_order req) (m_stripe_unit req)
                         (m_stripe_count req)))
      /\ (0 <= r -> 0 <= validate_order (m_order req) ->
          0 <= validate_striping (m_order req) (m_stripe_unit req)
                 (m_stripe_count req) ->
          0 <= fst (snd (validate_data_pool cluster (m_features req)
                           (m_data_pool req) (m_data_pool_id req))) ->
          is_compatible cluster (m_layout req) (m_size req) = false ->
          final (send cluster req) = Completed (- EINVAL)
          /\ rollback_ops (trace (send cluster req)) = []))
  /\ (In (OpIoctxCreate (m_data_pool req)) (ops (send cluster req)) ->
      reply_result (completion cluster (OpIoctxCreate (m_data_pool req))) < 0 ->
      final (send cluster req) = Completed (- ENOENT)
      /\ rollback_ops (trace (send cluster req)) = [])
  /\ (In OpValidatePool (ops (send cluster req)) ->
      reply_result (completion cluster OpValidatePool) < 0 ->
      reply_result (completion cluster OpValidatePool) <> - ENOENT ->
      final (send cluster req)
      = Completed (reply_result (completion cluster OpValidatePool))
      /\ rollback_ops (trace (send cluster req)) = [])
  /\ (In OpSelfmanagedSnapCreate (ops (send cluster req)) ->
      reply_result (completion cluster OpSelfmanagedSnapCreate) < 0 ->
      final (send cluster req)
      = Completed (reply_result (completion cluster OpSelfmanagedSnapCreate))
      /\ rollback_ops (trace (send cluster req)) = [])
  /\ (In OpCreateIdObject (ops (send cluster req)) ->
      reply_result (completion cluster OpCreateIdObject) < 0 ->
      final (send cluster req)
      = Completed (reply_result (completion cluster OpCreateIdObject))
      /\ rollback_ops (trace (send cluster req)) = []).
Proof.
  split; [exact (rollback_after_directory_add req) |].
  split; [| split; [| split; [| split]]].
  - intros r Hvf. unfold send. rewrite Hvf.
    split; [| split; [| split]].
    + intros Hr. apply Z.ltb_lt in Hr. rewrite Hr. reflexivity.
    + intros Hr Ho. apply Z.ltb_ge in Hr. apply Z.ltb_lt in Ho.
      rewrite Hr, Ho. reflexivity.
    + intros Hr Ho Hs. apply Z.ltb_ge in Hr, Ho. apply Z.ltb_lt in Hs.
      rewrite Hr, Ho, Hs. reflexivity.
    + intros Hr Ho Hs. apply Z.ltb_ge in Hr, Ho, Hs. rewrite Hr, Ho, Hs.
      unfold rollback_ops, validate_data_pool, validate_layout.
      cbn [m_size m_layout set_data_pool_id].
      destruct (negb (test _ _)); cbn [fst snd emit_all trace final app].
      * intros _ Hlayout. rewrite Hlayout. cbn [Z.ltb Z.compare negb].
        split; reflexivity.
      * destruct (reply_result _ <? 0); cbn [fst snd].
        { unfold ENOENT. lia. }
        intros _ Hlayout. rewrite Hlayout. cbn [Z.ltb Z.compare negb].
        split; reflexivity.
  - unfold rollback_ops, send. intros Hin Hneg.
    destruct (validate_features _ _) as [r |]; [| contradiction Hin].
    destruct (r <? 0); [contradiction Hin |].
    destruct (validate_order (m_order req) <? 0); [contradiction Hin |].
    destruct (validate_striping _ _ _ <? 0); [contradiction Hin |].
    unfold validate_data_pool in *.
    destruct (negb (test _ _)); cbn [fst snd emit_all trace final app] in *.
    + exfalso. cbn [Z.ltb Z.compare] in Hin.
      destruct (negb _); [contradiction Hin |].
      revert Hin. apply not_in_validate_pool. cbn. lia.
    + apply Z.ltb_lt in Hneg. rewrite Hneg.
      replace (- ENOENT <? 0) with true by reflexivity.
      split; reflexivity.
  - intros Hin Hneg Hfound.
    destruct (send_after_validation req OpValidatePool Hin)
      as (id & Hin' & -> & Hrb); [discriminate |].
    unfold rollback_ops. rewrite Hrb.
    now apply early_validate_pool_stat.
  - intros Hin Hneg.
    destruct (send_after_validation req OpSelfmanagedSnapCreate Hin)
      as (id & Hin' & -> & Hrb); [discriminate |].
    unfold rollback_ops. rewrite Hrb.
    now apply early_validate_pool_snapshot.
  - intros Hin Hneg.
    destruct (send_after_validation req OpCreateIdObject Hin)
      as (id & Hin' & -> & Hrb); [discriminate |].
    unfold rollback_ops. rewrite Hrb.
    now apply early_validate_pool_id_object.
Qed.

End RunProperties.

(** ** A cluster on which nothing fails *)

Section NothingFails.
Context {K : RbdTypes}.
Variable cluster : Cluster.
Hypothesis Hall : all_succeed cluster.

#[local] Abbreviation ops r := (ops_of (trace r)).

Lemma clean_forward (op : Op) (k : Run) :
  is_rollback op = false -> clean k -> clean (emit (Issue op) k).
Proof.
  intros Hop [Hfinal Hrb]. split; [exact Hfinal |].
  cbn [emit trace ops_of filter]. now rewrite Hop.
Qed.

Ltac replies :=
  repeat match goal with
         | |- context [reply_result (completion cluster ?op)] =>
             rewrite (proj1 (proj1 Hall op))
         | |- context [finish_result (completion cluster ?op)] =>
             rewrite (proj2 (proj1 Hall op))
         end;
  cbn [Z.ltb Z.eqb Z.compare andb orb negb].

Ltac forward_clean :=
  unfold aio; apply clean_forward; [reflexivity |]; replies.

Lemma clean_send_watcher_notification req :
  clean (send_watcher_notification cluster req).
Proof.
  unfold send_watcher_notification. forward_clean. now split.
Qed.

Lemma clean_mirror_image_enable req :
  clean (mirror_image_enable cluster req).
Proof.
  unfold mirror_image_enable. forward_clean.
  unfold handle_mirror_image_enable. replies.
  apply clean_send_watcher_notification.
Qed.

Lemma clean_fetch_mirror_image req :
  clean (fetch_mirror_image cluster req).
Proof.
  unfold fetch_mirror_image.
  destruct (negb _ && negb _); [now split |].
  forward_clean. unfold handle_fetch_mirror_image. replies.
  destruct (_ =? _); [now split |].
  apply clean_mirror_image_enable.
Qed.

Lemma clean_journal_create req : clean (journal_create cluster req).
Proof.
  unfold journal_create. forward_clean.
  unfold handle_journal_create. replies.
  apply clean_fetch_mirror_image.
Qed.

Lemma clean_fetch_mirror_mode req : clean (fetch_mirror_mode cluster req).
Proof.
  unfold fetch_mirror_mode.
  destruct (negb _); [now split |].
  forward_clean. unfold handle_fetch_mirror_mode. replies.
  destruct (proj2 Hall) as [-> | [-> | ->]];
    rewrite Z.eqb_refl, ?orb_true_r; cbn [orb];
    apply clean_journal_create.
Qed.

Lemma clean_object_map_resize req : clean (object_map_resize cluster req).
Proof.
  unfold object_map_resize.
  destruct (negb _); [apply clean_fetch_mirror_mode |].
  forward_clean. unfold handle_object_map_resize. replies.
  apply clean_fetch_mirror_mode.
Qed.

Lemma clean_set_stripe_unit_count req :
  clean (set_stripe_unit_count cluster req).
Proof.
  unfold set_stripe_unit_count.
  destruct (_ || _); [apply clean_object_map_resize |].
  forward_clean. unfold handle_set_stripe_unit_count. replies.
  apply clean_object_map_resize.
Qed.

Lemma clean_create_id_object req :
  m_data_pool req = "" \/ m_data_pool_id req <> -1 ->
  clean (create_id_object cluster req).
Proof.
  intros Hassert.
  unfold create_id_object. forward_clean.
  unfold handle_create_id_object. replies.
  unfold add_image_to_directory. forward_clean.
  unfold handle_add_image_to_directory. replies.
  unfold create_image.
  replace ((m_data_pool req =? "")%string || negb (m_data_pool_id req =? -1))
    with true.
  - forward_clean. unfold handle_create_image. replies.
    apply clean_set_stripe_unit_count.
  - symmetry. destruct Hassert as [-> | Hid]; [reflexivity |].
    apply Z.eqb_neq in Hid. rewrite Hid. apply orb_true_r.
Qed.

Lemma clean_validate_pool req :
  m_data_pool req = "" \/ m_data_pool_id req <> -1 ->
  clean (validate_pool cluster req).
Proof.
  intros Hassert. unfold validate_pool.
  destruct (negb _); [now apply clean_create_id_object |].
  forward_clean. unfold handle_validate_pool. replies.
  now apply clean_create_id_object.
Qed.

(** On a cluster where no operation fails, a request that passes the
    validators is created: the continuation receives [0] and no rollback
    operation is issued.  The last hypothesis is the assertion of
    [create_image]: a request with a data pool has its id resolved. *)
Theorem nothing_fails_then_created (req : CreateRequest) :
  validate_features (m_features req) (m_force_non_primary req) = Returned 0 ->
  validate_order (m_order req) = 0 ->
  validate_striping (m_order req) (m_stripe_unit req) (m_stripe_count req)
  = 0 ->
  is_compatible cluster (m_layout req) (m_size req) = true ->
  (m_data_pool req = ""
   \/ snd (snd (validate_data_pool cluster (m_features req) (m_data_pool req)
                  (m_data_pool_id req))) <> -1) ->
  final (send cluster req) = Completed 0
  /\ rollback_ops (trace (send cluster req)) = [].
Proof.
  intros Hvf Ho Hs Hlayout Hassert. unfold rollback_ops, send.
  rewrite Hvf, Ho, Hs. cbn [Z.ltb Z.compare].
  assert (Hcompatible : forall id,
            validate_layout cluster (m_size (set_data_pool_id req id))
              (m_layout (set_data_pool_id req id)) = true)
    by (intros id; unfold validate_layout; cbn [m_size m_layout
          set_data_pool_id]; now rewrite Hlayout).
  revert Hassert. unfold validate_data_pool.
  destruct (negb (test _ _)); cbn [snd emit_all trace app final].
  - cbn [Z.ltb Z.compare]. rewrite Hcompatible. cbn [negb]. intros Hassert.
    exact (clean_validate_pool (set_data_pool_id req _) Hassert).
  - replies. cbn [snd emit_all trace app final ops_of filter is_rollback].
    rewrite Hcompatible. cbn [negb]. intros Hassert.
    exact (clean_validate_pool (set_data_pool_id req _) Hassert).
Qed.

End NothingFails.

(** ** A read that finds nothing *)

Section NotFound.
Context {K : RbdTypes}.
Variable cluster : Cluster.

#[local] Abbreviation ops r := (ops_of (trace r)).


End NotFound.

(** ** Mirroring, pool bootstrap, data pool, rollback *)

Section StepProperties.
Context {K : RbdTypes}.
Variable cluster : Cluster.

#[local] Abbreviation ops r := (ops_of (trace r)).

(** When the registration is accepted, the watchers are notified with the
    very id that was registered, and the create succeeds whatever the
    notification returns. *)
Theorem enable_then_notify (req : CreateRequest) :
  0 <= reply_result
         (completion cluster
            (OpMirrorImageEnable (chosen_global_image_id cluster req))) ->
  mirror_image_enable cluster req
  = {| trace := [Issue (OpMirrorImageEnable (chosen_global_image_id cluster req));
                 Issue (OpNotifyImageUpdated (chosen_global_image_id cluster req))];
       final := Completed 0 |}.
Proof.
  intros Hok. apply Z.ltb_ge in Hok.
  unfold mirror_image_enable, aio, handle_mirror_image_enable.
  fold (chosen_global_image_id cluster req). rewrite Hok. reflexivity.
Qed.

(** The mirror registration is written only when it is called for: pool-wide
    mirroring or a non-primary image, and no registration that is already
    enabled; and it is written with the chosen global image id. *)
Theorem registration_only_when_needed (req : CreateRequest)
    (global_image_id : string) :
  In (OpMirrorImageEnable global_image_id)
     (ops (fetch_mirror_image cluster req)) ->
  (m_mirror_mode req = RBD_MIRROR_MODE_POOL
   \/ m_force_non_primary req = true)
  /\ ~ (reply_result (completion cluster OpFetchMirrorImage) = 0
        /\ 0 <= finish_result (completion cluster OpFetchMirrorImage)
        /\ finish_value (completion cluster OpFetchMirrorImage)
           = MIRROR_IMAGE_STATE_ENABLED)
  /\ global_image_id = chosen_global_image_id cluster req.
Proof.
  assert (Hrollback : forall r,
            ~ In (OpMirrorImageEnable global_image_id)
                 (ops (journal_remove cluster r))).
  { intros r. rewrite ops_journal_remove.
    unfold rollback_from_journal, rollback_from_object_map.
    destruct (has _ JOURNALING), (has _ OBJECT_MAP); cbn;
      intuition discriminate. }
  assert (Henable : forall r,
            In (OpMirrorImageEnable global_image_id)
               (ops (mirror_image_enable cluster r)) ->
            global_image_id = chosen_global_image_id cluster r).
  { intros r. unfold mirror_image_enable, handle_mirror_image_enable.
    fold (chosen_global_image_id cluster r).
    cbn [aio emit trace ops_of]. intros [Heq | Hin].
    - now inversion Heq.
    - exfalso. revert Hin. destruct (_ <? 0).
      + apply Hrollback.
      + cbn. intuition discriminate. }
  unfold fetch_mirror_image.
  destruct (Z.eqb_spec (m_mirror_mode req) RBD_MIRROR_MODE_POOL)
    as [Hpool | Hpool], (m_force_non_primary req) eqn:Hforce;
    cbn [negb andb]; try (intros []; fail);
    (split; [auto |]); revert H;
    cbn [aio emit trace ops_of]; intros [Heq | Hin];
    try discriminate Heq; revert Hin;
    unfold handle_fetch_mirror_image;
    set (c := completion cluster OpFetchMirrorImage);
    destruct (_ && _);
    try (intros Hin; exfalso; exact (Hrollback _ Hin));
    (destruct (Z.eqb_spec (reply_result c) 0) as [Hr | Hr];
     [| intros Hin; split; [tauto | exact (Henable _ Hin)]]);
    (destruct (Z.ltb_spec (finish_result c) 0) as [Hf | Hf];
     [intros Hin; exfalso; exact (Hrollback _ Hin) |]);
    cbn [m_mirror_image_state set_mirror_image];
    (destruct (Z.eqb_spec (finish_value c) MIRROR_IMAGE_STATE_ENABLED)
      as [Hs | Hs]; [intros [] |]);
    intros Hin; (split; [tauto | exact (Henable _ Hin)]).
Qed.

(** The rollback does not depend on what the cluster answers to it: from
    any entry, on any two clusters, the same removals are issued, and the
    result delivered is [m_r_saved]. *)
Theorem rollback_ignores_replies (other : Cluster) (req : CreateRequest) :
  (ops (journal_remove cluster req) = ops (journal_remove other req)
   /\ final (journal_remove cluster req) = Completed (m_r_saved req))
  /\ (ops (remove_object_map cluster req) = ops (remove_object_map other req)
      /\ final (remove_object_map cluster req) = Completed (m_r_saved req))
  /\ (ops (remove_header_object cluster req)
      = ops (remove_header_object other req)
      /\ final (remove_header_object cluster req)
         = Completed (m_r_saved req))
  /\ (ops (remove_from_dir cluster req) = ops (remove_from_dir other req)
      /\ final (remove_from_dir cluster req) = Completed (m_r_saved req))
  /\ (ops (remove_id_object cluster req) = ops (remove_id_object other req)
      /\ final (remove_id_object cluster req) = Completed (m_r_saved req)).
Proof.
  rewrite !ops_journal_remove, !ops_remove_object_map,
    !ops_remove_header_object, !ops_remove_from_dir, !ops_remove_id_object,
    final_journal_remove, final_remove_object_map,
    final_remove_header_object, final_remove_from_dir,
    final_remove_id_object.
  repeat split.
Qed.

(** The pool is put in self-managed snapshot mode only when the directory
    is not there: a snapshot id is allocated only after the stat of the
    directory returned something other than [0] that is not an error
    ([-ENOENT], or a positive value), and only with pool validation
    configured. *)
Theorem snapshot_only_on_missing_directory (req : CreateRequest) :
  In OpSelfmanagedSnapCreate (ops (send cluster req)) ->
  rbd_validate_pool (m_cct req) = true
  /\ (reply_result (completion cluster OpValidatePool) = - ENOENT
      \/ 0 < reply_result (completion cluster OpValidatePool)).
Proof.
  assert (Hlater : forall r,
            ~ In OpSelfmanagedSnapCreate (ops (create_id_object cluster r))).
  { intros r Hin.
    destruct (orderly_create_id_object cluster r) as [Hasc _].
    apply ascending_bound in Hasc.
    rewrite Forall_forall in Hasc. apply Hasc in Hin. cbn in Hin. lia. }
  assert (Hpool : forall r,
            In OpSelfmanagedSnapCreate (ops (validate_pool cluster r)) ->
            rbd_validate_pool (m_cct r) = true
            /\ (reply_result (completion cluster OpValidatePool) = - ENOENT
                \/ 0 < reply_result (completion cluster OpValidatePool))).
  { intros r. unfold validate_pool.
    destruct (rbd_validate_pool (m_cct r)); cbn [negb];
      [| intros Hin; now apply Hlater in Hin].
    unfold handle_validate_pool. cbn [aio emit trace ops_of].
    set (stat := reply_result (completion cluster OpValidatePool)).
    intros [Heq | Hin]; [discriminate Heq |]. split; [reflexivity |].
    revert Hin.
    destruct (Z.eqb_spec stat 0) as [Hz | Hz];
      [intros Hin; now apply Hlater in Hin |].
    destruct (Z.ltb_spec stat 0) as [Hneg | Hpos],
             (Z.eqb_spec stat (- ENOENT)) as [He | He];
      cbn [andb negb]; intros Hin; try (left; assumption); try (right; lia).
    destruct Hin. }
  unfold send.
  destruct (validate_features _ _) as [r |]; [| intros []].
  destruct (r <? 0); [intros [] |].
  destruct (validate_order _ <? 0); [intros [] |].
  destruct (validate_striping _ _ _ <? 0); [intros [] |].
  unfold validate_data_pool.
  destruct (negb (test _ _)); cbn [emit_all trace app].
  - cbn [Z.ltb Z.compare]. destruct (negb _); [intros [] |].
    exact (Hpool (set_data_pool_id req _)).
  - destruct (reply_result _ <? 0); cbn [emit_all trace app ops_of].
    + replace (- ENOENT <? 0) with true by reflexivity.
      intros [Heq | []]. discriminate Heq.
    + cbn [Z.ltb Z.compare]. intros [Heq | Hin]; [discriminate Heq |].
      revert Hin. destruct (negb _); [intros [] |].
      exact (Hpool (set_data_pool_id req _)).
Qed.

(** A stat of the directory that returns [-ENOENT] is not a failure: with
    the snapshot id allocated, the id is released and the pipeline goes on
    to the id object, whatever the release returns. *)
Theorem missing_directory_bootstraps_pool (req : CreateRequest) :
  rbd_validate_pool (m_cct req) = true ->
  reply_result (completion cluster OpValidatePool) = - ENOENT ->
  0 <= reply_result (completion cluster OpSelfmanagedSnapCreate) ->
  validate_pool cluster req
  = emit (Issue OpValidatePool)
      (emit (Issue OpSelfmanagedSnapCreate)
         (emit (Issue (OpSelfmanagedSnapRemove
                         (finish_value
                            (completion cluster OpSelfmanagedSnapCreate))))
            (create_id_object cluster req))).
Proof.
  intros Hconf Hstat Hsnap.
  unfold validate_pool, aio, handle_validate_pool.
  rewrite Hconf, Hstat. cbn [negb].
  replace (- ENOENT =? 0) with false by reflexivity.
  replace (- ENOENT =? - ENOENT) with true by reflexivity.
  rewrite andb_false_r. unfold aio. cbn beta.
  assert (Hne : (reply_result (completion cluster OpSelfmanagedSnapCreate)
                 =? - EINVAL) = false)
    by (apply Z.eqb_neq; unfold EINVAL; lia).
  apply Z.ltb_ge in Hsnap. now rewrite Hne, Hsnap.
Qed.

End StepProperties.

(** ** The data-pool lookup of a constructed request *)

Section DataPoolLookup.
Context {K : RbdTypes}.
Variables (cluster : Cluster) (cct : Config) (ioctx : IoCtx)
  (image_name image_id : string) (size : Z) (image_options : ImageOptions)
  (non_primary_global_image_id primary_mirror_uuid : string) (r_saved0 : Z).

Let req : CreateRequest :=
  CreateRequest_new cct ioctx image_name image_id size image_options
    non_primary_global_image_id primary_mirror_uuid r_saved0.

Lemma m_data_pool_id_new : m_data_pool_id req = -1.
Proof.
  unfold req, CreateRequest_new.
  match goal with
  | |- context [if ?c then (_, Z.lor _ RBD_FEATURE_DATA_POOL) else _] =>
      destruct c
  end; reflexivity.
Qed.

(** [send] looks a data pool up exactly when the request was given one that
    is not the metadata pool, and it looks up that name.  A lookup that fails
    is reported as [-ENOENT] whatever its own error was, and leaves the id
    unresolved; a lookup that succeeds resolves the id. *)
Theorem data_pool_lookup :
  let given := given_data_pool cct image_options in
  let lookup := completion cluster (OpIoctxCreate given) in
  let validated :=
    validate_data_pool cluster (m_features req) (m_data_pool req)
      (m_data_pool_id req) in
  (given = "" \/ given = get_pool_name ioctx -> validated = ([], (0, -1)))
  /\ (given <> "" -> given <> get_pool_name ioctx ->
      reply_result lookup < 0 ->
      validated
      = ([Issue (OpIoctxCreate given); LogErr "data pool does not exist"],
         (- ENOENT, -1)))
  /\ (given <> "" -> given <> get_pool_name ioctx ->
      0 <= reply_result lookup ->
      validated = ([Issue (OpIoctxCreate given)], (0, finish_value lookup))).
Proof.
  cbv zeta. unfold validate_data_pool, RBD_FEATURE_DATA_POOL.
  rewrite test_feature. unfold req.
  rewrite has_data_pool_new, m_data_pool_new. fold req.
  rewrite m_data_pool_id_new.
  repeat split.
  - intros [Hg | Hg]; rewrite Hg; rewrite ?String.eqb_refl, ?andb_false_r;
      reflexivity.
  - intros H1 H2 Hr. apply String.eqb_neq in H1, H2. rewrite H1, H2.
    cbn [negb andb]. apply Z.ltb_lt in Hr. now rewrite Hr.
  - intros H1 H2 Hr. apply String.eqb_neq in H1, H2. rewrite H1, H2.
    cbn [negb andb]. apply Z.ltb_ge in Hr. now rewrite Hr.
Qed.

End DataPoolLookup.

(** ** The further properties at concrete requests *)

(** A mask without unknown bits, at the upstream positions. *)
Lemma upstream_known_bits (features : Z) :
  (Z.land features (not64 (RBD_FEATURES_ALL (K := upstream))) =? 0) = true ->
  ~ unknown_bits (K := upstream) features.
Proof. intros H Hu. apply unknown_bits_iff in Hu. congruence. Qed.

(** LAYERING, EXCLUSIVE_LOCK, OBJECT_MAP and JOURNALING (77) pass. *)
Lemma validate_features_accepts_witness :
  validate_features (K := upstream) 77 false = Returned 0.
Proof.
  apply (validate_features_accepts (K := upstream) 77 false).
  - apply upstream_known_bits. reflexivity.
  - repeat split; intros _; reflexivity.
  - discriminate.
Defined.

(** Base LAYERING|EXCLUSIVE_LOCK, set OBJECT_MAP, clear EXCLUSIVE_LOCK:
    OBJECT_MAP (bit 3) is set and EXCLUSIVE_LOCK (bit 2) is cleared. *)
Lemma set_and_clear_bits_witness :
  let req :=
    CreateRequest_new (K := upstream) default_config rbd_pool "a" "I1"
      4194304 (with_features (Some 5) (Some 8) (Some 4)) "" "" 0 in
  Z.testbit (m_features req) 3 = true /\ Z.testbit (m_features req) 2 = false.
Proof.
  cbv zeta. split.
  - exact (set_and_clear_bits (K := upstream) default_config rbd_pool "a"
             "I1" 4194304 (with_features (Some 5) (Some 8) (Some 4)) "" "" 0
             3 ltac:(lia) ltac:(discriminate) ltac:(discriminate)).
  - exact (set_and_clear_bits (K := upstream) default_config rbd_pool "a"
             "I1" 4194304 (with_features (Some 5) (Some 8) (Some 4)) "" "" 0
             2 ltac:(lia) ltac:(discriminate) ltac:(discriminate)).
Defined.

(** The default request: order 22, one object per stripe. *)
Lemma layout_of_validated_request_witness :
  let req :=
    CreateRequest_new (K := upstream) default_config rbd_pool "a" "I1"
      4194304 no_options "" "" 0 in
  object_size (m_layout req) = 2 ^ 22
  /\ stripe_unit (m_layout req) = object_size (m_layout req)
  /\ stripe_count (m_layout req) = 1.
Proof.
  cbv zeta.
  pose proof (layout_of_validated_request (K := upstream) default_config
                rbd_pool "a" "I1" 4194304 no_options "" "" 0
                eq_refl eq_refl ltac:(cbn; lia) ltac:(cbn; lia))
    as (Hsize & _ & _ & _ & _ & Hdefault & _).
  split; [exact Hsize | exact (Hdefault eq_refl)].
Defined.

(** A stripe unit of 1024 with order 22: STRIPINGV2 is set. *)
Lemma stripingv2_bit_is_stripe_shape_witness :
  has (K := upstream)
    (m_features
       (CreateRequest_new (K := upstream) default_config rbd_pool "a" "I1"
          4194304 (with_striping 1024 4) "" "" 0)) STRIPINGV2 = true.
Proof.
  apply (stripingv2_bit_is_stripe_shape (K := upstream) default_config
           rbd_pool "a" "I1" 4194304 (with_striping 1024 4) "" "" 0).
  - cbn. lia.
  - left. split; discriminate.
Defined.

(** A stripe unit of 1024 and a count of 4: STRIPINGV2 is set and the
    parameters are written. *)
Lemma stripe_written_iff_stripingv2_witness :
  let req :=
    CreateRequest_new (K := upstream) default_config rbd_pool "a" "I1"
      4194304 (with_striping 1024 4) "" "" 0 in
  set_stripe_unit_count (K := upstream) healthy_cluster req
  = aio healthy_cluster (OpSetStripeUnitCount 1024 4)
      (fun c =>
         handle_set_stripe_unit_count (K := upstream) healthy_cluster req
           (reply_result c)).
Proof.
  cbv zeta.
  exact (stripe_written_iff_stripingv2 (K := upstream) default_config rbd_pool
           "a" "I1" 4194304 (with_striping 1024 4) "" "" 0 healthy_cluster
           eq_refl).
Defined.

(** The minimal create issues the creation of the id object, so it had
    passed every validator. *)
Lemma no_operation_without_validation_witness :
  let req :=
    CreateRequest_new (K := upstream) default_config rbd_pool "a" "I1"
      4194304 no_options "" "" 0 in
  validate_features (K := upstream) (m_features req)
    (m_force_non_primary req) = Returned 0
  /\ validate_order (m_order req) = 0
  /\ validate_striping (m_order req) (m_stripe_unit req) (m_stripe_count req)
     = 0.
Proof.
  cbv zeta.
  pose proof (no_operation_without_validation (K := upstream) healthy_cluster
                (CreateRequest_new (K := upstream) default_config rbd_pool
                   "a" "I1" 4194304 no_options "" "" 0)
                OpCreateIdObject) as H.
  destruct H as (Hf & Ho & Hs & _).
  - vm_compute. tauto.
  - discriminate.
  - split; [exact Hf | split; [exact Ho | exact Hs]].
Defined.

(** The minimal create on the healthy cluster. *)
Lemma success_means_created_witness :
  let req :=
    CreateRequest_new (K := upstream) default_config rbd_pool "a" "I1"
      4194304 (with_features (Some 13) None None) "" "" 0 in
  created (K := upstream) healthy_cluster req
    (ops_of (trace (send (K := upstream) healthy_cluster req))).
Proof.
  cbv zeta.
  apply (success_means_created (K := upstream) healthy_cluster).
  - vm_compute. reflexivity.
  - vm_compute. reflexivity.
Defined.

(** The object-map initialisation fails: there is a rollback, and the id
    object and the directory entry had been written. *)
Lemma rollback_only_after_directory_add_witness :
  let run :=
    send (K := upstream) failing_object_map_cluster
      (CreateRequest_new (K := upstream) default_config rbd_pool "a" "I1"
         4194304 (with_features (Some 13) None None) "" "" 0) in
  In OpCreateIdObject (ops_of (trace run))
  /\ In OpAddImageToDirectory (ops_of (trace run)).
Proof.
  cbv zeta.
  pose proof (rollback_only_after_directory_add (K := upstream)
                failing_object_map_cluster
                (CreateRequest_new (K := upstream) default_config rbd_pool
                   "a" "I1" 4194304 (with_features (Some 13) None None)
                   "" "" 0)) as (H & _).
  destruct H as (Hid & _ & Hdir).
  - vm_compute. discriminate.
  - split; [exact Hid | exact Hdir].
Defined.

Lemma healthy_cluster_all_succeed :
  all_succeed (K := upstream) healthy_cluster.
Proof. split; [intros op; split; reflexivity | left; reflexivity]. Qed.


(** Full features on the healthy cluster. *)
Lemma nothing_fails_then_created_witness :
  let run :=
    send (K := upstream) healthy_cluster
      (CreateRequest_new (K := upstream) default_config rbd_pool "a" "I1"
         4194304 (with_features (Some 77) None None) "" "" 0) in
  final run = Completed 0 /\ rollback_ops (trace run) = [].
Proof.
  cbv zeta.
  apply (nothing_fails_then_created (K := upstream) healthy_cluster
           healthy_cluster_all_succeed).
  - reflexivity.
  - reflexivity.
  - reflexivity.
  - reflexivity.
  - left. reflexivity.
Defined.

(** A primary image: the id is the fresh one of the cluster. *)
Lemma enable_then_notify_witness :
  mirror_image_enable (K := upstream) healthy_cluster
    (CreateRequest_new (K := upstream) default_config rbd_pool "a" "I1"
       4194304 (with_features (Some 77) None None) "" "" 0)
  = {| trace := [Issue (OpMirrorImageEnable "9f1c");
                 Issue (OpNotifyImageUpdated "9f1c")];
       final := Completed 0 |}.
Proof.
  apply (enable_then_notify (K := upstream) healthy_cluster
           (CreateRequest_new (K := upstream) default_config rbd_pool "a" "I1"
              4194304 (with_features (Some 77) None None) "" "" 0)).
  cbn. lia.
Defined.

(** Pool-wide mirroring and no registration yet. *)
Lemma registration_only_when_needed_witness :
  let req :=
    set_mirror_mode
      (CreateRequest_new (K := upstream) default_config rbd_pool "a" "I1"
         4194304 (with_features (Some 77) None None) "" "" 0) 2 in
  m_mirror_mode req = RBD_MIRROR_MODE_POOL (RbdTypes := upstream)
  \/ m_force_non_primary req = true.
Proof.
  cbv zeta.
  pose proof (registration_only_when_needed (K := upstream)
                pool_mirroring_cluster
                (set_mirror_mode
                   (CreateRequest_new (K := upstream) default_config rbd_pool
                      "a" "I1" 4194304 (with_features (Some 77) None None)
                      "" "" 0) 2)
                "9f1c") as H.
  destruct H as (Hneeded & _).
  - vm_compute. tauto.
  - exact Hneeded.
Defined.

(** A pool without directory. *)
Lemma snapshot_only_on_missing_directory_witness :
  reply_result (completion fresh_pool_cluster OpValidatePool) = - ENOENT
  \/ 0 < reply_result (completion fresh_pool_cluster OpValidatePool).
Proof.
  pose proof (snapshot_only_on_missing_directory (K := upstream)
                fresh_pool_cluster
                (CreateRequest_new (K := upstream) default_config rbd_pool
                   "a" "I1" 4194304 no_options "" "" 0)) as H.
  destruct H as (_ & Hstat).
  - vm_compute. tauto.
  - exact Hstat.
Defined.

Lemma missing_directory_bootstraps_pool_witness :
  let req :=
    CreateRequest_new (K := upstream) default_config rbd_pool "a" "I1"
      4194304 no_options "" "" 0 in
  validate_pool (K := upstream) fresh_pool_cluster req
  = emit (Issue OpValidatePool)
      (emit (Issue OpSelfmanagedSnapCreate)
         (emit (Issue (OpSelfmanagedSnapRemove 17))
            (create_id_object (K := upstream) fresh_pool_cluster req))).
Proof.
  cbv zeta.
  apply (missing_directory_bootstraps_pool (K := upstream) fresh_pool_cluster
           (CreateRequest_new (K := upstream) default_config rbd_pool "a" "I1"
              4194304 no_options "" "" 0)).
  - reflexivity.
  - reflexivity.
  - cbn. lia.
Defined.
